(** * Causal-impact data preparation and plot-frame assembly

    A shallow embedding of [causalimpact_gibbs/data.py] (the dataset
    assembler) and of the table pipeline of [causalimpact/plot.py]
    ([plot], [_create_plot_df], [_create_plot_component_df]), together
    with the properties of the specification that concern them.

    Conventions of the embedding:
    - a Python exception is a value of [exn]; a call that may raise
      returns a [result];
    - a cell that holds a number is a rational ([Q]), the value of the
      number, and [NaN] is a separate cell; where the code compares a
      computed float with a constant or casts to a float type (the
      constant-target check, the target tensor), the arithmetic is
      IEEE 754 arithmetic, rounded after every operation ([Float]); the
      bounds of the bands are exact;
    - a pandas DataFrame is an ordered list of column labels and a list of
      rows, each row being its index label and a finite map from column
      label to cell. *)

From Stdlib Require Import QArith Qabs Qround Ascii String.
From stdpp Require Import base gmap strings pretty list sorting.

Local Open Scope string_scope.
Local Open Scope list_scope.

(** ** Python runtime: exceptions and strings *)

Module Py.

Inductive exn :=
| KeyError (msg : string)
| IndexError (msg : string)
| ValueError (msg : string)
| TypeError (msg : string).

Inductive result (A : Type) :=
| Ok (a : A)
| Raise (e : exn).
Arguments Ok {A} a.
Arguments Raise {A} e.

#[export] Instance result_ret : MRet result := λ A a, Ok a.
#[export] Instance result_bind : MBind result :=
  λ A B f m, match m with Ok a => f a | Raise e => Raise e end.

Definition is_ok {A} (r : result A) : bool :=
  match r with Ok _ => true | Raise _ => false end.

(** The value of a call that returned, [d] otherwise. *)
Definition from_ok {A} (d : A) (r : result A) : A :=
  match r with Ok a => a | Raise _ => d end.

#[export] Instance result_fmap : FMap result :=
  λ A B f m, match m with Ok a => Ok (f a) | Raise e => Raise e end.

(** A loop that calls [f] on every element and stops at the first
    exception. *)
Fixpoint mapM {A B} (f : A → result B) (l : list A) : result (list B) :=
  match l with
  | [] => Ok []
  | x :: l' => y ← f x; ys ← mapM f l'; Ok (y :: ys)
  end.

(** [x in l] on a list of strings. *)
Definition mem (x : string) (l : list string) : bool :=
  existsb (String.eqb x) l.

(** [sub in s] on strings. *)
Fixpoint contains (sub s : string) : bool :=
  String.prefix sub s ||
  match s with
  | EmptyString => false
  | String _ s' => contains sub s'
  end.

(** [pat.split(sep)] for a one-character separator. *)
Fixpoint split_on (sep : ascii) (s : string) : list string :=
  match s with
  | EmptyString => [EmptyString]
  | String c s' =>
      let r := split_on sep s' in
      if bool_decide (c = sep) then EmptyString :: r
      else match r with
           | h :: t => String c h :: t
           | [] => [String c EmptyString]
           end
  end.

(** The regular expressions of [plot.py] are alternations of literal
    words, [w1|w2|...]; [re_alts] lists the words in the order the
    matcher tries them. *)
Definition re_alts (pat : string) : list string := split_on "|"%char pat.

(** Length of the first alternative that matches at the head of [s]. *)
Definition match_here (alts : list string) (s : string) : option nat :=
  String.length <$> List.find (λ a, String.prefix a s) alts.

(** [re.sub(pat, empty, s)], [empty] being the empty string: scan from the left; at each position the first
    alternative that matches is deleted and scanning resumes after it.
    [skip] counts the characters of the current match still to delete. *)
Fixpoint re_sub_go (alts : list string) (skip : nat) (s : string) : string :=
  match s with
  | EmptyString => EmptyString
  | String c s' =>
      match skip with
      | S k => re_sub_go alts k s'
      | O =>
          match match_here alts s with
          | Some (S k) => re_sub_go alts k s'
          | _ => String c (re_sub_go alts 0 s')
          end
      end
  end.

Definition re_sub_empty (pat s : string) : string :=
  re_sub_go (re_alts pat) 0 s.

(** [re.search(pat, s) is not None]. *)
Definition re_search (pat s : string) : bool :=
  existsb (λ a, contains a s) (re_alts pat).

Definition upper_ascii (c : ascii) : ascii :=
  let n := nat_of_ascii c in
  if (97 <=? n)%nat && (n <=? 122)%nat then ascii_of_nat (n - 32) else c.

Definition lower_ascii (c : ascii) : ascii :=
  let n := nat_of_ascii c in
  if (65 <=? n)%nat && (n <=? 90)%nat then ascii_of_nat (n + 32) else c.

Fixpoint lower (s : string) : string :=
  match s with
  | EmptyString => EmptyString
  | String c s' => String (lower_ascii c) (lower s')
  end.

(** [s.capitalize()] on ASCII text. *)
Definition capitalize (s : string) : string :=
  match s with
  | EmptyString => EmptyString
  | String c s' => String (upper_ascii c) (lower s')
  end.

(** [repr] of a set of strings listed in iteration order. *)
Fixpoint repr_items (l : list string) : string :=
  match l with
  | [] => EmptyString
  | [x] => "'" +:+ x +:+ "'"
  | x :: l' => "'" +:+ x +:+ "', " +:+ repr_items l'
  end.

Definition repr_set (l : list string) : string :=
  match l with
  | [] => "set()"
  | _ => "{" +:+ repr_items l +:+ "}"
  end.

(** Values that reach [plot] through keyword arguments. *)
Inductive pyval :=
| PNone
| PBool (b : bool)
| PInt (n : Z)
| PFloat (q : Q)
| PStr (s : string)
| PStrList (l : list string)
| PStrDict (d : list (string * string)).

(** Truth value of an object in an [if]. *)
Definition truthy (v : pyval) : bool :=
  match v with
  | PNone => false
  | PBool b => b
  | PInt n => negb (n =? 0)%Z
  | PFloat q => negb (Qeq_bool q 0)
  | PStr s => negb (String.eqb s EmptyString)
  | PStrList l => negb (bool_decide (l = []))
  | PStrDict d => negb (bool_decide (d = []))
  end.

(** [v == s] for a string literal [s]. *)
Definition eq_str (v : pyval) (s : string) : bool :=
  match v with
  | PStr s' => String.eqb s' s
  | _ => false
  end.

(** [str(v)] in a formatted message; a float is shown as the fraction
    that stands for it. *)
Definition py_str (v : pyval) : string :=
  match v with
  | PNone => "None"
  | PBool b => if b then "True" else "False"
  | PInt n => pretty n
  | PFloat q => pretty (Qnum q) +:+ "/" +:+ pretty (Zpos (Qden q))
  | PStr s => s
  | PStrList l => "[" +:+ repr_items l +:+ "]"
  | PStrDict d =>
      "{" +:+ String.concat ", "
                ((λ kv, "'" +:+ kv.1 +:+ "': '" +:+ kv.2 +:+ "'") <$> d)
          +:+ "}"
  end.

#[export] Instance pyval_inhabited : Inhabited pyval := populate PNone.

(** The number an object stands for in float arithmetic. *)
Definition as_number (v : pyval) : result Q :=
  match v with
  | PFloat q => Ok q
  | PInt n => Ok (inject_Z n)
  | PBool b => Ok (if b then 1 else 0)%Q
  | _ => Raise (TypeError "unsupported operand type(s)")
  end.

End Py.

Import Py.

(** ** IEEE 754 binary floating point

    Values are rationals, rounded to the nearest value of the format
    (ties to even) after every operation, with gradual underflow and
    with overflow to an infinity.  A zero has no sign here: nothing
    below tells the two zeros apart. *)

Module Float.

(** A binary format: the bits of the significand (the hidden one
    included) and the exponents of the smallest and of the largest
    normal numbers. *)
Record format := {
  prec : Z;
  emin : Z;
  emax : Z
}.

Definition binary32 : format := {| prec := 24; emin := -126; emax := 127 |}.
Definition binary64 : format := {| prec := 53; emin := -1022; emax := 1023 |}.

Inductive float :=
| Finite (q : Q)
| Infinity (negative : bool)
| NotANumber.

Definition pow2 (k : Z) : Q := Qpower 2 k.

(** [floor (log2 |q|)], for [q] other than 0. *)
Definition ilog2 (q : Q) : Z :=
  let e := (Z.log2 (Z.abs (Qnum q)) - Z.log2 (Zpos (Qden q)))%Z in
  if Qle_bool (pow2 e) (Qabs q) then e else (e - 1)%Z.

(** The nearest integer, the even one of two that are equally near. *)
Definition round_half_even (q : Q) : Z :=
  let f := Qfloor q in
  match (q - inject_Z f ?= 1 # 2)%Q with
  | Lt => f
  | Gt => (f + 1)%Z
  | Eq => if Z.even f then f else (f + 1)%Z
  end.

(** The value of format [fmt] that stands for the real number [q]. *)
Definition round (fmt : format) (q : Q) : float :=
  if Qeq_bool q 0 then Finite 0
  else
    let e := Z.max (ilog2 q) (emin fmt) in
    let ulp := pow2 (e - (prec fmt - 1)) in
    let r := Qred (inject_Z (round_half_even (q / ulp)) * ulp) in
    if Qle_bool (pow2 (emax fmt + 1)) (Qabs r)
    then Infinity (negb (Qle_bool 0 q))
    else Finite r.

Definition opp (a : float) : float :=
  match a with
  | Finite x => Finite (- x)
  | Infinity s => Infinity (negb s)
  | NotANumber => NotANumber
  end.

Definition add (fmt : format) (a b : float) : float :=
  match a, b with
  | Finite x, Finite y => round fmt (x + y)
  | NotANumber, _ | _, NotANumber => NotANumber
  | Infinity s, Infinity t => if Bool.eqb s t then Infinity s else NotANumber
  | Infinity s, Finite _ | Finite _, Infinity s => Infinity s
  end.

Definition sub (fmt : format) (a b : float) : float := add fmt a (opp b).

Definition mul (fmt : format) (a b : float) : float :=
  match a, b with
  | Finite x, Finite y => round fmt (x * y)
  | NotANumber, _ | _, NotANumber => NotANumber
  | Infinity s, Infinity t => Infinity (xorb s t)
  | Infinity s, Finite y | Finite y, Infinity s =>
      if Qeq_bool y 0 then NotANumber
      else Infinity (xorb s (negb (Qle_bool 0 y)))
  end.

(** Division by a count, a positive integer that the format holds
    exactly. *)
Definition div_count (fmt : format) (a : float) (n : nat) : float :=
  match a with
  | Finite x => round fmt (x / inject_Z (Z.of_nat n))
  | _ => a
  end.

Definition is_nan (a : float) : bool :=
  match a with NotANumber => true | _ => false end.

(** [a == 0] *)
Definition is_zero (a : float) : bool :=
  match a with Finite x => Qeq_bool x 0 | _ => false end.

End Float.

(** ** The pandas operations the two modules use *)

Module Pandas.

(** A cell: a float, the missing value, a string, or a time stamp (an
    index label). *)
Inductive cell :=
| Num (q : Q)
| NaN
| Str (s : string)
| Stamp (t : Z).

#[export] Instance cell_inhabited : Inhabited cell := populate NaN.

Abbreviation Row := (gmap string cell).

Record DataFrame := {
  columns : list string;
  rows : list (Z * Row)
}.

Definition empty_frame : DataFrame := {| columns := []; rows := [] |}.

Definition index (df : DataFrame) : list Z := (rows df).*1.

(** The rows without their index labels. *)
Definition records (df : DataFrame) : list Row := (rows df).*2.

Definition isna (c : cell) : bool :=
  match c with NaN => true | _ => false end.

Definition is_number (c : cell) : bool :=
  match c with Num _ | NaN => true | _ => false end.

(** Identity of key values in [merge] and [groupby]; two missing values
    are the same key. *)
Definition cell_eqb (a b : cell) : bool :=
  match a, b with
  | Num x, Num y => Qeq_bool x y
  | NaN, NaN => true
  | Str s, Str t => String.eqb s t
  | Stamp x, Stamp y => (x =? y)%Z
  | _, _ => false
  end.

Fixpoint key_eqb (k1 k2 : list cell) : bool :=
  match k1, k2 with
  | [], [] => true
  | a :: k1', b :: k2' => cell_eqb a b && key_eqb k1' k2'
  | _, _ => false
  end.

(** Keys that are pairwise different. *)
Inductive distinct_keys : list (list cell) → Prop :=
| distinct_nil : distinct_keys []
| distinct_cons k ks :
    Forall (λ k', key_eqb k k' = false) ks →
    distinct_keys ks →
    distinct_keys (k :: ks).

(** Element-wise [column == "s"] and [column != "s"]; a missing value is
    different from every string. *)
Definition eq_lit (c : cell) (s : string) : bool :=
  match c with Str t => String.eqb t s | _ => false end.

Definition ne_lit (c : cell) (s : string) : bool := negb (eq_lit c s).

(** Float arithmetic on cells; a missing operand gives a missing
    result. *)
Definition cell_arith (f : Q → Q → Q) (a b : cell) : cell :=
  match a, b with
  | Num x, Num y => Num (f x y)
  | _, _ => NaN
  end.

(** Order of keys when pandas sorts group labels and column labels;
    cells of different kinds are ordered by kind. *)
Definition kind (c : cell) : Z :=
  match c with Num _ => 0 | Stamp _ => 1 | Str _ => 2 | NaN => 3 end.

Definition cell_compare (a b : cell) : comparison :=
  match a, b with
  | Num x, Num y => (x ?= y)%Q
  | Stamp x, Stamp y => (x ?= y)%Z
  | Str s, Str t => String.compare s t
  | _, _ => (kind a ?= kind b)%Z
  end.

Fixpoint key_compare (k1 k2 : list cell) : comparison :=
  match k1, k2 with
  | [], [] => Eq
  | [], _ :: _ => Lt
  | _ :: _, [] => Gt
  | a :: k1', b :: k2' =>
      match cell_compare a b with
      | Eq => key_compare k1' k2'
      | o => o
      end
  end.

Definition key_le (k1 k2 : list cell) : Prop :=
  key_compare k1 k2 ≠ Gt.

Definition label_le (a b : string) : Prop := String.leb a b.

(** First occurrences, in order. *)
Fixpoint nub {A} (eqb : A → A → bool) (l : list A) : list A :=
  match l with
  | [] => []
  | x :: l' => x :: List.filter (λ y, negb (eqb x y)) (nub eqb l')
  end.

(** The row restricted to (and completed on) the columns [cs]. *)
Definition project (cs : list string) (r : Row) : Row :=
  list_to_map ((λ c, (c, r !!! c)) <$> cs).

(** The key of a row: its cells in the key columns. *)
Definition key_of (on : list string) (r : Row) : list cell :=
  (λ c, r !!! c) <$> on.

(** A fresh [RangeIndex]. *)
Definition reset_index (rs : list Row) : list (Z * Row) :=
  imap (λ i r, (Z.of_nat i, r)) rs.

Definition has_columns (cs : list string) (df : DataFrame) : bool :=
  forallb (λ c, mem c (columns df)) cs.

(** [df[c]] *)
Definition getitem (c : string) (df : DataFrame) : result (list cell) :=
  if mem c (columns df) then Ok ((λ ir, ir.2 !!! c) <$> rows df)
  else Raise (KeyError c).

(** [df[cs]] for a list of labels. *)
Definition select (cs : list string) (df : DataFrame) : result DataFrame :=
  if has_columns cs df then
    Ok {| columns := cs;
          rows := (λ ir, (ir.1, project cs ir.2)) <$> rows df |}
  else Raise (KeyError "not in index").

(** [df.loc[mask]] for a mask computed row by row. *)
Definition loc (p : Z → Row → bool) (df : DataFrame) : DataFrame :=
  {| columns := columns df;
     rows := List.filter (λ ir, p ir.1 ir.2) (rows df) |}.

(** [df[c] = values], the values being computed row by row. *)
Definition setitem (c : string) (f : Z → Row → cell) (df : DataFrame)
  : DataFrame :=
  {| columns := if mem c (columns df) then columns df else columns df ++ [c];
     rows := (λ ir, (ir.1, <[c := f ir.1 ir.2]> ir.2)) <$> rows df |}.

(** [df.drop(columns=cs)] *)
Definition drop (cs : list string) (df : DataFrame) : result DataFrame :=
  if has_columns cs df then
    Ok {| columns := List.filter (λ c, negb (mem c cs)) (columns df);
          rows := (λ ir, (ir.1, foldr delete ir.2 cs)) <$> rows df |}
  else Raise (KeyError "not found in axis").

(** [df.dropna()] *)
Definition dropna (df : DataFrame) : DataFrame :=
  loc (λ _ r, forallb (λ c, negb (isna (r !!! c))) (columns df)) df.

(** [df.melt(id_vars=.., var_name=.., value_name=..)]: every column that
    is not an id variable is unpivoted, column after column. *)
Definition melt (id_vars : list string) (var_name value_name : string)
    (df : DataFrame) : result DataFrame :=
  if has_columns id_vars df then
    let value_vars := List.filter (λ c, negb (mem c id_vars)) (columns df) in
    Ok {| columns := id_vars ++ [var_name; value_name];
          rows := reset_index
            (value_vars ≫= λ v,
               (λ ir, <[value_name := ir.2 !!! v]>
                        (<[var_name := Str v]> (project id_vars ir.2)))
               <$> rows df) |}
  else Raise (KeyError "id_vars not present in the DataFrame").

(** The values of a group that enter its mean: missing values are
    skipped, anything that is not a float is refused. *)
Fixpoint numeric_values (l : list cell) : result (list Q) :=
  match l with
  | [] => Ok []
  | Num q :: l' => qs ← numeric_values l'; Ok (q :: qs)
  | NaN :: l' => numeric_values l'
  | _ :: _ => Raise (TypeError "agg function failed [how->mean]")
  end.

Definition Qsum (l : list Q) : Q := foldr Qplus 0%Q l.

Definition Qmean (l : list Q) : Q :=
  (Qsum l / inject_Z (Z.of_nat (length l)))%Q.

(** [mean()] of a group: missing when no value is left. *)
Definition mean (l : list cell) : result cell :=
  qs ← numeric_values l;
  Ok (match qs with [] => NaN | _ => Num (Qmean qs) end).

(** One record of the long table being pivoted: the group key, the
    label that becomes a column, and the value. *)
Definition pivot_rec : Type := list cell * cell * cell.

Definition same_group (a b : list cell * cell) : bool :=
  key_eqb a.1 b.1 && cell_eqb a.2 b.2.

Definition group_values (recs : list pivot_rec) (g : list cell * cell)
  : list cell :=
  (λ r, r.2) <$> List.filter (λ r, same_group g r.1) recs.

(** Column labels of the pivoted table are strings. *)
Definition label_of (c : cell) : result string :=
  match c with
  | Str s => Ok s
  | _ => Raise (TypeError "column label is not a string")
  end.

(** The aggregated value of group [(k, l)], missing if it has none. *)
Definition agg_lookup (agged : list (list cell * string * cell))
    (k : list cell) (l : string) : cell :=
  match List.find (λ a, key_eqb k a.1.1 && String.eqb l a.1.2) agged with
  | Some a => a.2
  | None => NaN
  end.

(** [df.pivot_table(index=index_cols, columns=columns_col,
    values=values_col).reset_index()] with the default aggregation
    (mean) and the default [dropna=True]: groups with a missing key are
    left out, groups whose mean is missing are left out, the remaining
    keys make the rows (sorted), the remaining labels make the columns
    (sorted), and [reset_index] refuses a label that is already the name
    of a key column. *)
Definition pivot_table_reset_index (index_cols : list string)
    (columns_col values_col : string) (df : DataFrame) : result DataFrame :=
  if has_columns (index_cols ++ [columns_col; values_col]) df then
    let recs : list pivot_rec :=
      (λ ir, (key_of index_cols ir.2, ir.2 !!! columns_col, ir.2 !!! values_col))
      <$> rows df in
    let recs :=
      List.filter (λ r, negb (existsb isna r.1.1) && negb (isna r.1.2)) recs in
    let groups := nub same_group ((λ r, r.1) <$> recs) in
    agged ← mapM (λ g, l ← label_of g.2;
                       m ← mean (group_values recs g);
                       Ok (g.1, l, m)) groups;
    let agged := List.filter (λ a, negb (isna a.2)) agged in
    let labels :=
      merge_sort label_le (nub String.eqb ((λ a, a.1.2) <$> agged)) in
    let keys := merge_sort key_le (nub key_eqb ((λ a, a.1.1) <$> agged)) in
    if existsb (λ l, mem l index_cols) labels then
      Raise (ValueError "cannot insert, already exists")
    else
      Ok {| columns := index_cols ++ labels;
            rows := reset_index
              ((λ k, list_to_map
                       (zip index_cols k ++
                        ((λ l, (l, agg_lookup agged k l)) <$> labels)))
               <$> keys) |}
  else Raise (KeyError "pivot_table").

(** [pd.concat([a, b], axis=0, sort=True)]: rows of [a] then rows of
    [b], over the sorted union of the columns; a column a frame lacks is
    missing in its rows. *)
Definition concat_sorted (a b : DataFrame) : DataFrame :=
  let cols := merge_sort label_le (nub String.eqb (columns a ++ columns b)) in
  {| columns := cols;
     rows := (λ ir, (ir.1, project cols ir.2)) <$> (rows a ++ rows b) |}.

(** [pd.concat([a, b], axis=0)]: as above, the columns in order of first
    appearance. *)
Definition concat (a b : DataFrame) : DataFrame :=
  let cols := nub String.eqb (columns a ++ columns b) in
  {| columns := cols;
     rows := (λ ir, (ir.1, project cols ir.2)) <$> (rows a ++ rows b) |}.

(** [series.count()]: the cells that are not missing. *)
Definition count (l : list cell) : nat :=
  length (List.filter (λ c, negb (isna c)) l).

(** The cells of a column of numbers, [None] where the value is
    missing; a column that holds anything else is not such a column. *)
Fixpoint float_column (l : list cell) : option (list (option Q)) :=
  match l with
  | [] => Some []
  | Num q :: l' => cons (Some q) <$> float_column l'
  | NaN :: l' => cons None <$> float_column l'
  | _ :: _ => None
  end.

(** A column of time stamps, some of them missing maybe. *)
Definition datetime_column (l : list cell) : bool :=
  forallb (λ c, match c with Stamp _ | NaN => true | _ => false end) l.

Section Reductions.

(** [ndarray.sum] of a float64 array.  In which order the elements are
    added depends on the length of the array and on the build of the
    library, so the sum is left open. *)
Variable float_sum : list Float.float → Float.float.

(** [nanops.nanvar(values, skipna=True, ddof=0)] on a column of
    numbers: the values are taken as float64, a missing value counts as
    0 in both sums and is not counted; the mean is the sum divided by
    the count, the variance the sum of the squared deviations from the
    mean divided by the count; with no value the result is missing. *)
Definition nanvar_ddof0 (xs : list (option Q)) : Float.float :=
  let count := length (omap id xs) in
  if (count =? 0)%nat then Float.NotANumber
  else
    let values :=
      (λ x : option Q,
         match x with
         | Some q => Float.round Float.binary64 q
         | None => Float.Finite 0
         end) <$> xs in
    let avg := Float.div_count Float.binary64 (float_sum values) count in
    let sqr :=
      zip_with
        (λ (x : option Q) (value : Float.float),
           match x with
           | Some _ =>
               let d := Float.sub Float.binary64 avg value in
               Float.mul Float.binary64 d d
           | None => Float.Finite 0
           end) xs values in
    Float.div_count Float.binary64 (float_sum sqr) count.

(** [series.std(skipna=True, ddof=0) == 0].  The standard deviation is
    the square root of the variance: it is zero exactly when the
    variance is.  The standard deviation of time stamps is a time span,
    which is never equal to the number 0; a column of another kind is
    refused by the sum. *)
Definition std_ddof0_is_zero (l : list cell) : result bool :=
  match float_column l with
  | Some xs => Ok (Float.is_zero (nanvar_ddof0 xs))
  | None =>
      if datetime_column l then Ok false
      else Raise (TypeError "could not convert to numeric")
  end.

End Reductions.

(** The columns of a frame that are not merge keys. *)
Definition other_columns (on : list string) (df : DataFrame) : list string :=
  List.filter (λ c, negb (mem c on)) (columns df).

(** Labels after a merge: a column other than a key that both frames have
    is suffixed [_x] on the left and [_y] on the right. *)
Definition left_label (on : list string) (left right : DataFrame)
    (c : string) : string :=
  if mem c (other_columns on left) && mem c (other_columns on right)
  then c +:+ "_x" else c.

Definition right_label (on : list string) (left : DataFrame)
    (c : string) : string :=
  if mem c (other_columns on left) then c +:+ "_y" else c.

(** A left row joined with a matching right row, or with missing cells
    when there is none. *)
Definition joined (on : list string) (left right : DataFrame)
    (l : Row) (r : option Row) : Row :=
  list_to_map
    (((λ c, (left_label on left right c, l !!! c)) <$> columns left) ++
     ((λ c, (right_label on left c, from_option (λ r, r !!! c) NaN r))
      <$> other_columns on right)).

(** [left.merge(right, on=on, how="left")]: every left row, once per
    right row with the same key, or once with missing right-hand cells
    when there is none. *)
Definition merge_left (on : list string) (left right : DataFrame)
  : result DataFrame :=
  if has_columns on left && has_columns on right then
    Ok {| columns := (left_label on left right <$> columns left) ++
                     (right_label on left <$> other_columns on right);
          rows := reset_index
            (rows left ≫= λ il,
               match List.filter
                       (λ ir, key_eqb (key_of on il.2) (key_of on ir.2))
                       (rows right) with
               | [] => [joined on left right il.2 None]
               | ms => (λ ir, joined on left right il.2 (Some ir.2)) <$> ms
               end) |}
  else Raise (KeyError "merge").

End Pandas.

Import Pandas.

(** ** [causalimpact/plot.py]: from the evaluation table to the renderer *)

Module Plot.

(** [series.str.replace(pat, empty, regex=True)], cell by cell, [empty]
    being the empty string. *)
Definition str_replace (pat : string) (c : cell) : cell :=
  match c with Str s => Str (re_sub_empty pat s) | _ => NaN end.

(** [series.str.contains(pat, regex=True)], cell by cell, as a mask. *)
Definition str_contains (pat : string) (c : cell) : bool :=
  match c with Str s => re_search pat s | _ => false end.

(** [series.str.capitalize()], cell by cell. *)
Definition str_capitalize (c : cell) : cell :=
  match c with Str s => Str (capitalize s) | _ => NaN end.

(** [pd.Categorical(values, categories=cats, ordered=True)]: a value
    outside the categories becomes missing. *)
Definition categorical (cats : list string) (c : cell) : cell :=
  match c with
  | Str s => if mem s cats then Str s else NaN
  | _ => NaN
  end.

Definition base_columns : list string :=
  ["time"; "pre_period_start"; "pre_period_end";
   "post_period_start"; "post_period_end"].

Definition period_columns : list string :=
  ["pre_period_start"; "pre_period_end";
   "post_period_start"; "post_period_end"].

Definition valid_components : list string := ["lines"; "bands"; "std"].

Definition required_columns (component : string) : list string :=
  if String.eqb component "lines" then
    base_columns ++ ["mean"; "median"; "observed"]
  else if String.eqb component "bands" then
    base_columns ++ ["lower"; "upper"]
  else
    base_columns ++ ["mean"; "std"].

Definition extracted_columns (series : DataFrame) (component : string)
  : list string :=
  List.filter
    (λ col, existsb (λ stub, contains stub col) (required_columns component))
    (columns series).

Definition statistical_suffixes : string :=
  "_upper|_lower|_mean|_median|_std".
Definition original_scale_keywords : string := "observed|posterior".
Definition scale_prefixes : string :=
  "posterior_|point_effects_|cumulative_effects_".

Definition pivot_columns : list string :=
  ["time"; "scale"; "pre_period_start"; "pre_period_end";
   "post_period_start"; "post_period_end"].

(** [melted_df] right after [filtered_df.melt(...)]. *)
Definition melted (series : DataFrame) (component : string)
  : result DataFrame :=
  filtered_df ← select (extracted_columns series component) series;
  melt base_columns "scale_stat" "value" filtered_df.

(** The three assignments that derive [scale] and [stat] from
    [scale_stat]. *)
Definition classify (melted_df : DataFrame) : DataFrame :=
  let melted_df :=
    setitem "scale"
      (λ _ r, str_replace statistical_suffixes (r !!! "scale_stat"))
      melted_df in
  let melted_df :=
    setitem "scale"
      (λ _ r, if str_contains original_scale_keywords (r !!! "scale")
              then Str "original" else r !!! "scale")
      melted_df in
  setitem "stat"
    (λ _ r, str_replace scale_prefixes (r !!! "scale_stat"))
    melted_df.


Definition std_lower (z_score : cell) (r : Row) : cell :=
  cell_arith Qminus (r !!! "mean") (cell_arith Qmult z_score (r !!! "std")).

Definition std_upper (z_score : cell) (r : Row) : cell :=
  cell_arith Qplus (r !!! "mean") (cell_arith Qmult z_score (r !!! "std")).

(** *** Rows of the component tables, written out

    The definitions below restate, row by row, what [melted], [classify]
    and [drop] produce; the lemmas on the extractor relate them to the
    code above. *)

Definition value_vars (series : DataFrame) (component : string) : list string :=
  List.filter (λ c, negb (mem c base_columns)) (extracted_columns series component).

(** The row [melt] makes of the cell of column [v] in row [r]. *)
Definition melt_row (series : DataFrame) (component v : string) (r : Row) : Row :=
  let r' := project (extracted_columns series component) r in
  <["value" := r' !!! v]> (<["scale_stat" := Str v]> (project base_columns r')).

(** The scale the extractor derives from a column label. *)
Definition scale_of (c : cell) : cell :=
  let s := str_replace statistical_suffixes c in
  if str_contains original_scale_keywords s then Str "original" else s.

Definition stat_of (c : cell) : cell := str_replace scale_prefixes c.

Definition classify_row (m : Row) : Row :=
  <["stat" := stat_of (m !!! "scale_stat")]>
    (<["scale" := scale_of (m !!! "scale_stat")]> m).

Definition long_columns : list string :=
  base_columns ++ ["value"; "scale"; "stat"].

(** The key under which the cell of column [v] in row [r] of the
    evaluation table enters the pivot: the time of the row, the scale of
    the column and the period boundaries of the row, in the order of
    [pivot_columns]. *)
Definition table_key (v : string) (r : Row) : list cell :=
  [r !!! "time"; scale_of (Str v);
   r !!! "pre_period_start"; r !!! "pre_period_end";
   r !!! "post_period_start"; r !!! "post_period_end"].

(** The cells of the evaluation table that the pivot gathers under key
    [k] and statistic [stat]: column after column, those of the columns
    of the component whose statistic is [stat], in the rows whose key
    for that column is [k]. *)
Definition gathered (series : DataFrame) (component : string)
    (k : list cell) (stat : string) : list cell :=
  value_vars series component ≫= λ v,
    if eq_lit (stat_of (Str v)) stat then
      (λ r, r !!! v)
      <$> List.filter (λ r, key_eqb k (table_key v r)) (records series)
    else [].

Section Model.

(** [tfp.distributions.Normal(0, 1).quantile] *)
Variable normal_quantile : Q → Q.

(** The order in which Python iterates over a set of strings (it
    depends on the hash seed of the process). *)
Variable set_iter : list string → list string.

Definition z_score_of (alpha : Q) : cell :=
  Num (normal_quantile (1 - alpha / 2)%Q).

Definition _create_plot_component_df (series : DataFrame)
    (component : string) (alpha : pyval) : result DataFrame :=
  if negb (mem component valid_components) then
    Raise (ValueError ("`component` must be one of " +:+
                       repr_set (set_iter valid_components) +:+
                       ". Got '" +:+ component +:+ "'."))
  else
    melted_df ← melted series component;
    melted_df ← drop ["scale_stat"] (classify melted_df);
    if mem component ["bands"; "std"] then
      pivoted_df ←
        pivot_table_reset_index pivot_columns "stat" "value" melted_df;
      let pivoted_df :=
        setitem "band_method"
          (λ _ _, Str (if String.eqb component "bands"
                       then "quantiles" else "std"))
          pivoted_df in
      if String.eqb component "std" then
        a ← as_number alpha;
        let z_score := z_score_of a in
        _ ← getitem "mean" pivoted_df;
        _ ← getitem "std" pivoted_df;
        let pivoted_df :=
          setitem "lower" (λ _ r, std_lower z_score r) pivoted_df in
        _ ← getitem "mean" pivoted_df;
        _ ← getitem "std" pivoted_df;
        let pivoted_df :=
          setitem "upper" (λ _ r, std_upper z_score r) pivoted_df in
        drop ["mean"; "std"] pivoted_df
      else Ok pivoted_df
    else Ok melted_df.

Definition merge_keys : list string :=
  ["time"; "scale"; "pre_period_start"; "pre_period_end";
   "post_period_start"; "post_period_end"].

(** [series["time"] = series.index] changes the caller's table, so the
    table is returned next to the result. *)
Definition _create_plot_df (series : DataFrame) (alpha : pyval)
  : DataFrame * result DataFrame :=
  let series := setitem "time" (λ i _, Stamp i) series in
  (series,
   lines_df ← _create_plot_component_df series "lines" (PFloat 0.05);
   bands_df ← _create_plot_component_df series "bands" (PFloat 0.05);
   bands_df ←
     (if existsb (λ col, contains "std" col) (columns series) then
        std_df ← _create_plot_component_df series "std" alpha;
        Ok (concat_sorted bands_df std_df)
      else Ok bands_df);
   plot_df ← merge_left merge_keys lines_df bands_df;
   let plot_df := setitem "zero" (λ _ _, Num 0) plot_df in
   _ ← getitem "scale" plot_df;
   let plot_df :=
     setitem "zero"
       (λ _ r, if eq_lit (r !!! "scale") "original" then NaN
               else r !!! "zero")
       plot_df in
   let plot_df :=
     setitem "scale_pretty"
       (λ _ r, let m := r !!! "scale" in
               Str (if eq_lit m "original" then "Original"
                    else if eq_lit m "point_effects" then "Pointwise"
                    else "Cumulative"))
       plot_df in
   let plot_df :=
     setitem "scale_pretty"
       (λ _ r, categorical ["Original"; "Pointwise"; "Cumulative"]
                 (r !!! "scale_pretty"))
       plot_df in
   _ ← getitem "stat" plot_df;
   let plot_df :=
     setitem "stat_pretty" (λ _ r, str_capitalize (r !!! "stat")) plot_df in
   let plot_df :=
     setitem "stat_pretty"
       (λ _ r, categorical ["Observed"; "Mean"; "Median"]
                 (r !!! "stat_pretty"))
       plot_df in
   Ok plot_df).

(** The defaults of [plot_params]. *)
Definition default_plot_params : gmap string pyval :=
  list_to_map
    [("static_plot", PBool true);
     ("backend", PStr "matplotlib");
     ("alpha", PFloat 0.05);
     ("show_median", PBool false);
     ("use_std_intervals", PBool false);
     ("chart_width", PInt 600);
     ("chart_height", PInt 200);
     ("axis_label_font_size", PInt 16);
     ("strip_title_font_size", PInt 20);
     ("x_label", PStr "Date");
     ("y_labels",
      PStrList ["Observed"; "Pointwise Effect"; "Cumulative Effect"]);
     ("title", PStr "Interrupted Time Series Analysis Over Time");
     ("title_font_size", PInt 16);
     ("axis_title_font_size", PInt 12);
     ("y_formatter", PStr "millions");
     ("axes2_legend_label", PStr "Cumulative");
     ("axes1_legend_label", PStr "Pointwise");
     ("axes0_legend_label_mean", PStr "Mean");
     ("axes0_legend_label_observed", PStr "Observed");
     ("y_formatter_unit", PStr "dollar");
     ("legend_labels",
      PStrDict
        [("mean", "Mean");
         ("observed", "Observed");
         ("pointwise", "Pointwise");
         ("cumulative", "Cumulative");
         ("pre-period-start", "Pre-Period Start");
         ("pre-period-end", "Pre-Period End");
         ("post-period-start", "Post-Period Start");
         ("post-period-end", "Post-Period End")])].

(** [if kwargs: for k, v in plot_params.items():
       plot_params[k] = kwargs.get(k, v)] *)
Definition effective_plot_params (kwargs : gmap string pyval)
  : gmap string pyval :=
  if (size kwargs =? 0)%nat then default_plot_params
  else map_imap (λ k v, Some (default v (kwargs !! k))) default_plot_params.

(** The call [plot] ends with: which drawing function, on which table,
    with which keyword arguments. *)
Inductive render_call :=
| draw_classic_plot (plot_df : DataFrame) (kwargs : gmap string pyval)
| draw_interactive_plot (plot_df : DataFrame) (kwargs : gmap string pyval)
| draw_matplotlib_plot (plot_df : DataFrame) (kwargs : gmap string pyval).

Definition renderer_input (c : render_call) : DataFrame :=
  match c with
  | draw_classic_plot df _
  | draw_interactive_plot df _
  | draw_matplotlib_plot df _ => df
  end.

Definition renderer_kwargs (c : render_call) : gmap string pyval :=
  match c with
  | draw_classic_plot _ kw
  | draw_interactive_plot _ kw
  | draw_matplotlib_plot _ kw => kw
  end.

(** The rows of the table a call of [plot] hands to its renderer (none
    when [plot] raises). *)
Definition renderer_rows (r : result render_call) : list Row :=
  match r with
  | Ok call => records (renderer_input call)
  | Raise _ => []
  end.

(** [plot(ci_model, **kwargs)], [series] being [ci_model.series]; the
    table comes back changed by [_create_plot_df]. *)
Definition plot (series : DataFrame) (kwargs : gmap string pyval)
  : DataFrame * result render_call :=
  let plot_params := effective_plot_params kwargs in
  let '(series, main) := _create_plot_df series (plot_params !!! "alpha") in
  (series,
   main_plot_df ← main;
   _ ← getitem "band_method" main_plot_df;
   let plot_df :=
     if truthy (plot_params !!! "use_std_intervals") then
       loc (λ _ r, ne_lit (r !!! "band_method") "quantile") main_plot_df
     else
       loc (λ _ r, ne_lit (r !!! "band_method") "std") main_plot_df in
   plot_df ←
     (if truthy (plot_params !!! "show_median") then
        _ ← getitem "stat" plot_df;
        let plot_df := loc (λ _ r, ne_lit (r !!! "stat") "median") plot_df in
        _ ← getitem "stat_pretty" plot_df;
        Ok (setitem "stat_pretty"
              (λ _ r, categorical ["Observed"; "Mean"] (r !!! "stat_pretty"))
              plot_df)
      else Ok plot_df);
   if eq_str (plot_params !!! "backend") "altair" then
     if truthy (plot_params !!! "static_plot") then
       _ ← getitem "stat" plot_df;
       let plot_df := loc (λ _ r, ne_lit (r !!! "stat") "median") plot_df in
       Ok (draw_classic_plot plot_df plot_params)
     else Ok (draw_interactive_plot plot_df plot_params)
   else if eq_str (plot_params !!! "backend") "matplotlib" then
     Ok (draw_matplotlib_plot plot_df plot_params)
   else
     Raise (ValueError
              ("backend must be one of 'altair' or 'matplotlib'. Got " +:+
               py_str (plot_params !!! "backend") +:+ "."))).

End Model.

End Plot.

(** ** [causalimpact_gibbs/data.py]: the dataset assembler *)

Module Data.

(** [tf.DType], for the floating types of the model: [tf.float32], the
    default of [__init__], and [tf.float64]. *)
Inductive DType :=
| float32
| float64.

(** The floating-point format of a [tf.DType]. *)
Definition format_of (d : DType) : Float.format :=
  match d with
  | float32 => Float.binary32
  | float64 => Float.binary64
  end.

(** One element of [tf.convert_to_tensor(series, dtype=dtype)]: a
    number is cast to [dtype], rounded to the nearest value of the
    format; a column that holds anything but numbers is not
    converted. *)
Definition cast_cell (d : DType) (c : cell) : result Float.float :=
  match c with
  | Num q => Ok (Float.round (format_of d) q)
  | NaN => Ok Float.NotANumber
  | Str _ | Stamp _ =>
      Raise (ValueError "Failed to convert a NumPy array to a Tensor.")
  end.

(** [tf.convert_to_tensor(series, dtype=dtype)] *)
Definition convert_to_tensor (series : list cell) (d : DType)
  : result (list Float.float) :=
  mapM (cast_cell d) series.

Section Model.

(** [ndarray.sum] of a float64 array, behind [Series.std]. *)
Variable float_sum : list Float.float → Float.float.

(** [_validate_data_and_columns(data, target_column_name)] *)
Definition _validate_data_and_columns (data : DataFrame)
    (target_column_name : option string)
  : result (DataFrame * string * option (list string)) :=
  target_column_name ←
    match target_column_name with
    | None =>
        match columns data with
        | c :: _ => Ok c
        | [] => Raise (IndexError "index 0 is out of bounds")
        end
    | Some name => Ok name
    end;
  if negb (mem target_column_name (columns data)) then
    Raise (KeyError ("Specified `outcome_column` (" +:+ target_column_name
                     +:+ ") not found in data"))
  else
    target ← getitem target_column_name data;
    is_constant ← std_ddof0_is_zero float_sum target;
    if (is_constant : bool) then
      Raise (ValueError "Input response cannot be constant.")
    else
      let feature_columns :=
        if (length (columns data) <=? 1)%nat then None
        else
          let original_column_order := columns data in
          let column_differences :=
            List.filter (λ c, negb (String.eqb c target_column_name))
                        (columns data) in
          Some (List.filter (λ col, mem col column_differences)
                            original_column_order) in
      data ← select ([target_column_name] ++ default [] feature_columns) data;
      target ← getitem target_column_name data;
      if (count target <? 3)%nat then
        Raise (ValueError "Input data must have at least 3 observations.")
      else
        features ← select (default [] feature_columns) data;
        if existsb (λ ir, existsb (λ c, isna (ir.2 !!! c)) (columns features))
                   (rows features) then
          Raise (ValueError "Input data cannot have any missing values.")
        else if negb (forallb (λ c, forallb (λ ir, is_number (ir.2 !!! c))
                                            (rows data))
                              (columns data)) then
          Raise (ValueError "Input data must contain only numeric values.")
        else Ok (data, target_column_name, feature_columns).

(** The column [_validate_data_and_columns] takes as the target: the
    one named, or the first one. *)
Definition target_column (data : DataFrame)
    (target_column_name : option string) : option string :=
  match target_column_name with
  | Some name => Some name
  | None => head (columns data)
  end.

(** [indices.InputDateType] and
    [indices.parse_and_validate_date_data], of the [indices] module. *)
Variable InputDateType : Type.
Variable parse_and_validate_date_data :
  DataFrame → InputDateType * InputDateType →
  InputDateType * InputDateType → result ((Z * Z) * (Z * Z)).

(** [standardize.Scaler]: a fitted scaler, [Scaler().fit] and
    [Scaler.transform], of the [standardize] module. *)
Variable Scaler : Type.
Variable Scaler_fit : DataFrame → result Scaler.
Variable Scaler_transform : Scaler → DataFrame → result DataFrame.

(** The value of an attribute of a [CausalImpactData] object. *)
Inductive attr :=
| APeriod (p : Z * Z)
| AFrame (df : DataFrame)
| AFrameOpt (df : option DataFrame)
| AName (s : string)
| ANames (l : option (list string))
| ABool (b : bool)
| ALen (n : nat)
| AScaler (s : option Scaler)
| AMasked (time_series : list Float.float) (is_missing : list bool).

(** The number of rows of an attribute that holds a table. *)
Definition frame_length (a : option attr) : option nat :=
  match a with
  | Some (AFrame df) => Some (length (rows df))
  | _ => None
  end.

(** [__init__] assigns the attributes of [self] one after the other
    and may raise in between: a computation takes the attributes
    assigned so far and returns them with its outcome. *)
Definition init (A : Type) : Type :=
  gmap string attr → gmap string attr * result A.

Definition init_ret {A} (a : A) : init A := λ self, (self, Ok a).

Definition init_bind {A B} (m : init A) (f : A → init B) : init B :=
  λ self,
    match m self with
    | (self', Ok a) => f a self'
    | (self', Raise e) => (self', Raise e)
    end.

Definition call {A} (r : result A) : init A := λ self, (self, r).

Definition setattr (name : string) (v : attr) : init unit :=
  λ self, (<[name := v]> self, Ok tt).

Notation "x ←! m ; k" := (init_bind m (λ x, k))
  (at level 20, m at level 100, k at level 200, only parsing,
   right associativity).
Notation "m ;! k" := (init_bind m (λ _, k))
  (at level 100, k at level 200, only parsing, right associativity).

(** [CausalImpactData.__init__] *)
Definition __init__
    (data : DataFrame)
    (pre_intervention_period post_intervention_period
       : InputDateType * InputDateType)
    (drop_post_period_nan : bool)
    (target_col_name : option string)
    (standardize_data : bool)
    (dtype : DType) : init unit :=
  periods ←! call (parse_and_validate_date_data
                     data pre_intervention_period post_intervention_period);
  let pre_period := periods.1 in
  setattr "pre_intervention_period" (APeriod pre_period);!
  setattr "post_intervention_period" (APeriod periods.2);!
  validated ←! call (_validate_data_and_columns data target_col_name);
  let data := validated.1.1 in
  let target_col := validated.1.2 in
  let feature_columns := validated.2 in
  setattr "data" (AFrame data);!
  setattr "target_col" (AName target_col);!
  setattr "feature_columns" (ANames feature_columns);!
  setattr "standardize_data" (ABool standardize_data);!
  let pre_intervention_data :=
    loc (λ i _, (pre_period.1 <=? i)%Z && (i <=? pre_period.2)%Z) data in
  setattr "pre_intervention_data" (AFrame pre_intervention_data);!
  let after_pre_intervention_data :=
    loc (λ i _, (pre_period.2 <? i)%Z) data in
  setattr "after_pre_intervention_data" (AFrame after_pre_intervention_data);!
  setattr "num_steps_forecast"
          (ALen (length (index after_pre_intervention_data)));!
  normalized ←!
    (if standardize_data then
       scaler ←! call (Scaler_fit pre_intervention_data);
       target ←! call (select [target_col] pre_intervention_data);
       outcome_scaler ←! call (Scaler_fit target);
       setattr "outcome_scaler" (AScaler (Some outcome_scaler));!
       pre ←! call (Scaler_transform scaler pre_intervention_data);
       setattr "normalized_pre_intervention_data" (AFrame pre);!
       after ←! call (Scaler_transform scaler after_pre_intervention_data);
       setattr "normalized_after_pre_intervention_data" (AFrame after);!
       init_ret (pre, after)
     else
       setattr "outcome_scaler" (AScaler None);!
       setattr "normalized_pre_intervention_data"
               (AFrame pre_intervention_data);!
       setattr "normalized_after_pre_intervention_data"
               (AFrame after_pre_intervention_data);!
       init_ret (pre_intervention_data, after_pre_intervention_data));
  let normalized_pre_intervention_data := normalized.1 in
  normalized_after_pre_intervention_data ←!
    (if drop_post_period_nan then
       let dropped := dropna normalized.2 in
       setattr "normalized_after_pre_intervention_data" (AFrame dropped);!
       init_ret dropped
     else init_ret normalized.2);
  target ←! call (getitem target_col normalized_pre_intervention_data);
  normalized_pre_intervention_target_tf_tensor ←!
    call (convert_to_tensor target dtype);
  setattr "pre_intervention_target_ts"
    (AMasked normalized_pre_intervention_target_tf_tensor
             (Float.is_nan <$> normalized_pre_intervention_target_tf_tensor));!
  match feature_columns with
  | Some feature_columns =>
      normalized_pre_intervention_features ←!
        call (select feature_columns normalized_pre_intervention_data);
      normalized_post_intervention_features ←!
        call (select feature_columns normalized_after_pre_intervention_data);
      setattr "normalized_whole_period_features"
        (AFrameOpt
           (Some (setitem "intercept_" (λ _ _, Num 1)
                    (concat normalized_pre_intervention_features
                            normalized_post_intervention_features))))
  | None =>
      setattr "normalized_whole_period_features" (AFrameOpt None)
  end.

End Model.

End Data.


(** ** [causalimpact/plot.py]: what the renderers read first *)

Module Renderers.

(** [dict(pairs)]: a later pair replaces an earlier one that has the
    same key. *)
Definition dict_of_pairs (pairs : list (string * string))
  : gmap string string :=
  list_to_map (reverse pairs).

(** [process_y_formatter_units(y_formatter_unit_options,
    subplot_labels)], the helper of [_draw_matplotlib_plot]. *)
Definition process_y_formatter_units (y_formatter_unit_options : pyval)
    (subplot_labels : list string) : result (gmap string string) :=
  match y_formatter_unit_options with
  | PStr unit =>
      Ok (dict_of_pairs ((λ label, (label, unit)) <$> subplot_labels))
  | PStrList units =>
      if negb (length units =? length subplot_labels)%nat then
        Raise (ValueError
                 "Length of y_formatter_unit list must match number of y_labels.")
      else Ok (dict_of_pairs (zip subplot_labels units))
  | PStrDict d => Ok (dict_of_pairs d)
  | _ => Raise (TypeError "y_formatter_unit must be a string, list, or dict.")
  end.

Definition default_unit : string := "dollar".

(** The unit of every subplot, as the loop over [zip(axes, y_labels)]
    picks it for the three axes:
    [y_formatter_units.get(y_label, default_unit)]. *)
Definition subplot_units (y_formatter_units : gmap string string)
    (y_labels : list string) : list (string * string) :=
  (λ y_label, (y_label, default default_unit (y_formatter_units !! y_label)))
  <$> take 3 y_labels.

(** What [df.at[label, col]] gives: a scalar when one row has the
    label, the cells of the rows that have it when there are several. *)
Inductive at_value :=
| at_scalar (c : cell)
| at_series (cs : list cell).

(** [df.at[label, col]] *)
Definition at_ (label : Z) (col : string) (df : DataFrame)
  : result at_value :=
  if mem col (columns df) then
    match List.filter (λ ir, (ir.1 =? label)%Z) (rows df) with
    | [] => Raise (KeyError (pretty label))
    | [ir] => Ok (at_scalar (ir.2 !!! col))
    | irs => Ok (at_series ((λ ir, ir.2 !!! col) <$> irs))
    end
  else Raise (KeyError col).

Section Model.

(** The order in which Python iterates over a set of strings. *)
Variable set_iter : list string → list string.

(** The start of [_create_base_layers], before any chart is made: the
    check of the period columns, then the period boundaries read from
    the row labelled 0. *)
Definition base_layer_periods (plot_df : DataFrame)
  : result (list (string * at_value)) :=
  let required_columns :=
    ["pre_period_start"; "pre_period_end";
     "post_period_start"; "post_period_end"] in
  let missing_columns :=
    List.filter (λ c, negb (mem c (columns plot_df))) required_columns in
  if negb (bool_decide (missing_columns = [])) then
    Raise (KeyError
             ("The following required columns are missing in plot_df: " +:+
              repr_set (set_iter missing_columns)))
  else
    mapM (λ c, v ← at_ 0 c plot_df; Ok (c, v))
         ["pre_period_start"; "pre_period_end";
          "post_period_start"; "post_period_end"].

End Model.

End Renderers.

(** ** Sample inputs *)

Module Samples.

(** One row of an evaluation table: the period boundaries are the same on
    every row. *)
Definition evaluation_row (t : Z) (vals : list (string * cell)) : Z * Row :=
  (t, list_to_map
        (vals ++ [("pre_period_start", Stamp 0); ("pre_period_end", Stamp 1);
                  ("post_period_start", Stamp 2); ("post_period_end", Stamp 3)])).

(** An evaluation table with the mean, the median, quantile bounds and a
    standard deviation on the original scale, and the mean of the
    cumulative effect; the first row lies in the pre-period and has no
    bounds. *)
Definition sample_series : DataFrame :=
  {| columns :=
       ["observed"; "posterior_mean"; "posterior_median";
        "posterior_lower"; "posterior_upper"; "posterior_std";
        "cumulative_effects_mean";
        "pre_period_start"; "pre_period_end";
        "post_period_start"; "post_period_end"];
     rows :=
       [evaluation_row 0
          [("observed", Num 1); ("posterior_mean", Num 2);
           ("posterior_median", Num 2); ("posterior_lower", NaN);
           ("posterior_upper", NaN); ("posterior_std", NaN);
           ("cumulative_effects_mean", NaN)];
        evaluation_row 2
          [("observed", Num 5); ("posterior_mean", Num 3);
           ("posterior_median", Num 3); ("posterior_lower", Num 1);
           ("posterior_upper", Num 4); ("posterior_std", Num 0.5);
           ("cumulative_effects_mean", Num 2)]] |}.

(** The same table once [_create_plot_df] has added its [time]
    column. *)
Definition timed_series : DataFrame :=
  setitem "time" (λ i _, Stamp i) sample_series.

(** A table with one numeric column [y], labelled [0 .. n-1]. *)
Definition one_column (ys : list cell) : DataFrame :=
  {| columns := ["y"];
     rows := imap (λ i c, (Z.of_nat i, {["y" := c]})) ys |}.

(** Four observations, the last one missing. *)
Definition sample_data : DataFrame :=
  one_column [Num 1; Num 2; Num 4; NaN].

(** The constant table of the specification's example. *)
Definition constant_data : DataFrame :=
  one_column [Num 5; Num 5; Num 5; Num 5].

(** Periods given as labels of the index and taken as they are. *)
Definition sample_parse (data : DataFrame) (pre post : Z * Z)
  : result ((Z * Z) * (Z * Z)) := Ok (pre, post).

(** A scaler that leaves the data as it is. *)
Definition sample_fit (df : DataFrame) : result unit := Ok tt.
Definition sample_transform (s : unit) (df : DataFrame) : result DataFrame :=
  Ok df.

(** A float64 sum taken from the first element to the last. *)
Definition sample_sum (l : list Float.float) : Float.float :=
  match l with
  | [] => Float.Finite 0
  | x :: l' => foldl (Float.add Float.binary64) x l'
  end.

(** The constructor with these stand-ins and the default [dtype]. *)
Definition sample_init (data : DataFrame) (pre post : Z * Z)
    (drop_post_period_nan : bool) (target_col_name : option string)
    (standardize_data : bool) :=
  Data.__init__ sample_sum Z sample_parse unit sample_fit sample_transform
    data pre post drop_post_period_nan target_col_name standardize_data
    Data.float32.

(** The float64 value of the literal [0.1]. *)
Definition tenth : Q := 3602879701896397 # 36028797018963968.

(** Three observations, all [0.1], and six of them. *)
Definition tenths_data : DataFrame :=
  one_column [Num tenth; Num tenth; Num tenth].

Definition six_tenths_data : DataFrame :=
  one_column (replicate 6 (Num tenth)).

End Samples.

(** ** More sample inputs *)

Module Fixtures.

(** A table with a feature [x] and a target [y]; one target value is
    missing. *)
Definition two_columns : DataFrame :=
  {| columns := ["x"; "y"];
     rows := imap (λ i xy, (Z.of_nat i, {["x" := xy.1; "y" := xy.2]}))
               [(Num 3, Num 1); (Num 1, Num 2); (Num 2, NaN);
                (Num 5, Num 4); (Num 8, Num 3); (Num 13, NaN)] |}.

(** The constructor on [two_columns], with [y] as the target, the
    pre-period [0 .. 3] and the post-period [4 .. 5]. *)
Definition two_columns_init (drop_post_period_nan standardize_data : bool) :=
  Samples.sample_init two_columns (0, 3)%Z (4, 5)%Z
    drop_post_period_nan (Some "y") standardize_data ∅.

(** A target with a value that is not a float32, [2^24 + 1], and a
    missing one. *)
Definition wide_target : DataFrame :=
  Samples.one_column [Num 16777217; Num (1 # 2); NaN; Num 3; Num 4; Num 5].

(** The constructor on [wide_target], without standardization, with the
    pre-period [0 .. 3] and the post-period [4 .. 5]. *)
Definition wide_target_init :=
  Samples.sample_init wide_target (0, 3)%Z (4, 5)%Z true None false ∅.

(** An evaluation table with quantile bounds and no standard
    deviation. *)
Definition quantile_series : DataFrame :=
  {| columns :=
       ["observed"; "posterior_mean"; "posterior_lower"; "posterior_upper";
        "pre_period_start"; "pre_period_end";
        "post_period_start"; "post_period_end"];
     rows :=
       [Samples.evaluation_row 0
          [("observed", Num 1); ("posterior_mean", Num 2);
           ("posterior_lower", NaN); ("posterior_upper", NaN)];
        Samples.evaluation_row 2
          [("observed", Num 5); ("posterior_mean", Num 3);
           ("posterior_lower", Num 1); ("posterior_upper", Num 4)]] |}.

(** An evaluation table whose first column is the posterior median. *)
Definition median_first_series : DataFrame :=
  {| columns :=
       ["posterior_median"; "observed"; "posterior_mean";
        "pre_period_start"; "pre_period_end";
        "post_period_start"; "post_period_end"];
     rows :=
       [Samples.evaluation_row 0
          [("posterior_median", Num 2); ("observed", Num 1);
           ("posterior_mean", Num 2)];
        Samples.evaluation_row 2
          [("posterior_median", Num 3); ("observed", Num 5);
           ("posterior_mean", Num 3)]] |}.

(** The call of [plot] that asks for the classic plot. *)
Definition classic_kwargs : gmap string pyval :=
  {["backend" := PStr "altair"]}.

End Fixtures.

(** * Properties *)

(** ** Strings *)

Module PyFacts.

Lemma mem_spec (x : string) (l : list string) : mem x l = true ↔ x ∈ l.
Proof.
  unfold mem. rewrite existsb_exists. split.
  - intros (y & Hy & Heq). apply String.eqb_eq in Heq. subst.
    by apply list_elem_of_In.
  - intros H. exists x. split; [by apply list_elem_of_In | apply String.eqb_refl].
Qed.

Lemma mem_false (x : string) (l : list string) : mem x l = false ↔ x ∉ l.
Proof.
  rewrite <- mem_spec. destruct (mem x l); split; congruence.
Qed.

Lemma prefix_app (s t : string) : String.prefix s (s +:+ t) = true.
Proof.
  induction s as [|c s IH]; simpl.
  - by destruct t.
  - destruct (ascii_dec c c); [exact IH | done].
Qed.

Lemma prefix_weaken (s t b : string) :
  String.prefix s t = true → String.prefix s (t +:+ b) = true.
Proof.
  revert t. induction s as [|c s IH]; intros t H; simpl.
  - by destruct (t +:+ b).
  - destruct t as [|d t]; simpl in *; [done|].
    destruct (ascii_dec c d); [by apply IH | done].
Qed.

Lemma contains_here (s t : string) : String.prefix s t = true → contains s t = true.
Proof. intros H. destruct t; cbn [contains]; rewrite H; done. Qed.

Lemma contains_app_r (s a t : string) :
  contains s t = true → contains s (a +:+ t) = true.
Proof.
  intros H. induction a as [|c a IH]; [done|].
  change (String c a +:+ t) with (String c (a +:+ t)).
  cbn [contains]. rewrite IH. apply orb_true_r.
Qed.

Lemma contains_app_l (s t b : string) :
  contains s t = true → contains s (t +:+ b) = true.
Proof.
  induction t as [|c t IH]; cbn [contains]; intros H.
  - rewrite orb_false_r in H. apply contains_here. by apply (prefix_weaken s EmptyString b).
  - change (String c t +:+ b) with (String c (t +:+ b)).
    cbn [contains]. apply orb_true_iff in H as [H|H].
    + apply (prefix_weaken _ _ b) in H.
      change (String c t +:+ b) with (String c (t +:+ b)) in H. by rewrite H.
    + rewrite (IH H). apply orb_true_r.
Qed.

Lemma contains_mid (s a b : string) : contains s (a +:+ s +:+ b) = true.
Proof. apply contains_app_r, contains_here, prefix_app. Qed.

Lemma repr_items_contains (x : string) (l : list string) :
  x ∈ l → contains x (repr_items l) = true.
Proof.
  induction l as [|y l IH]; [by intros ?%elem_of_nil|].
  intros [->|Hin]%elem_of_cons.
  - destruct l; cbn [repr_items]; apply contains_mid.
  - specialize (IH Hin). destruct l as [|z l]; [by apply elem_of_nil in Hin|].
    cbn [repr_items] in *.
    by do 3 apply contains_app_r.
Qed.

Lemma repr_set_contains (x : string) (l : list string) :
  x ∈ l → contains x (repr_set l) = true.
Proof.
  intros H. destruct l; [by apply elem_of_nil in H|].
  unfold repr_set. apply contains_app_r, contains_app_l.
  by apply repr_items_contains.
Qed.

End PyFacts.

(** ** Frames *)

Module PandasFacts.
Import PyFacts.


Lemma lookup_total_eq (r : Row) (k : string) (c : cell) :
  r !! k = Some c → r !!! k = c.
Proof. intros H. by rewrite lookup_total_alt, H. Qed.

Lemma lookup_project (cs : list string) (r : Row) (k : string) :
  project cs r !! k = if mem k cs then Some (r !!! k) else None.
Proof.
  unfold project. induction cs as [|c cs IH]; [done|].
  cbn [fmap list_fmap list_to_map foldr mem existsb uncurry] in *.
  rewrite lookup_insert. case_decide as Hc.
  - simpl in Hc. subst. by rewrite String.eqb_refl.
  - simpl in Hc. destruct (String.eqb_spec k c); [congruence | exact IH].
Qed.

Lemma reset_index_records (rs : list Row) : (reset_index rs).*2 = rs.
Proof.
  unfold reset_index. rewrite fmap_imap. 
  apply list_eq. intros i. rewrite list_lookup_imap. by destruct (rs !! i).
Qed.

Lemma fmap_bind_list {A B C} (g : B → C) (f : A → list B) (l : list A) :
  g <$> (l ≫= f) = l ≫= λ x, g <$> f x.
Proof.
  induction l as [|x l IH]; [done|].
  by rewrite !bind_cons, fmap_app, IH.
Qed.

Lemma lookup_total_project (cs : list string) (r : Row) (k : string) :
  mem k cs = true → project cs r !!! k = r !!! k.
Proof.
  intros H. apply lookup_total_eq. by rewrite lookup_project, H.
Qed.

Lemma bind_ok {A B} (m : result A) (f : A → result B) (b : B) :
  m ≫= f = Ok b → ∃ a, m = Ok a ∧ f a = Ok b.
Proof. destruct m as [a|e]; [by exists a | done]. Qed.

Lemma has_columns_spec (cs : list string) (df : DataFrame) :
  has_columns cs df = true ↔ ∀ c, c ∈ cs → c ∈ columns df.
Proof.
  unfold has_columns. rewrite forallb_forall. split.
  - intros H c Hc. apply mem_spec, H. by apply list_elem_of_In.
  - intros H c Hc. apply mem_spec, H. by apply list_elem_of_In.
Qed.

Lemma records_setitem (c : string) (g : Row → cell) (df : DataFrame) :
  records (setitem c (λ _ r, g r) df) = (λ r, <[c := g r]> r) <$> records df.
Proof.
  unfold records, setitem. cbn [rows].
  rewrite <- !list_fmap_compose. by apply list_fmap_ext.
Qed.

Lemma columns_setitem (c : string) (f : Z → Row → cell) (df : DataFrame) :
  columns (setitem c f df) =
  if mem c (columns df) then columns df else columns df ++ [c].
Proof. done. Qed.

Lemma elem_of_columns_setitem (c k : string) (f : Z → Row → cell) (df : DataFrame) :
  k ∈ columns df → k ∈ columns (setitem c f df).
Proof.
  intros H. rewrite columns_setitem. destruct (mem c (columns df)); [done|].
  apply elem_of_app. by left.
Qed.

Lemma filter_elem_of {A} (p : A → bool) (l : list A) (x : A) :
  x ∈ List.filter p l ↔ x ∈ l ∧ p x = true.
Proof. rewrite !list_elem_of_In. apply filter_In. Qed.

Lemma records_loc (p : Row → bool) (df : DataFrame) :
  records (loc (λ _ r, p r) df) = List.filter p (records df).
Proof.
  unfold records, loc. cbn [rows].
  induction (rows df) as [|[i r] l IH]; [done|].
  cbn [List.filter fmap list_fmap snd fst] in *.
  destruct (p r); cbn [fmap list_fmap snd]; by rewrite IH.
Qed.

Lemma index_loc (p : Z → bool) (df : DataFrame) :
  index (loc (λ i _, p i) df) = List.filter p (index df).
Proof.
  unfold index, loc. cbn [rows].
  induction (rows df) as [|[i r] l IH]; [done|].
  cbn [List.filter fmap list_fmap snd fst] in *.
  destruct (p i); cbn [fmap list_fmap fst]; by rewrite IH.
Qed.

Lemma drop_ok (cs : list string) (df df' : DataFrame) :
  drop cs df = Ok df' →
  has_columns cs df = true ∧
  columns df' = List.filter (λ c, negb (mem c cs)) (columns df) ∧
  records df' = (λ r, foldr delete r cs) <$> records df.
Proof.
  unfold drop. destruct (has_columns cs df); [|done].
  intros [= <-]. split_and!; [done..|].
  unfold records. cbn [rows]. rewrite <- !list_fmap_compose. by apply list_fmap_ext.
Qed.

Lemma select_ok (cs : list string) (df df' : DataFrame) :
  select cs df = Ok df' →
  has_columns cs df = true ∧ columns df' = cs ∧
  rows df' = (λ ir, (ir.1, project cs ir.2)) <$> rows df.
Proof.
  unfold select. destruct (has_columns cs df); [|done]. by intros [= <-].
Qed.

Lemma index_select (cs : list string) (df df' : DataFrame) :
  select cs df = Ok df' → index df' = index df.
Proof.
  intros (_ & _ & H)%select_ok. unfold index. rewrite H.
  rewrite <- list_fmap_compose. by apply list_fmap_ext.
Qed.

Lemma melt_ok (id_vars : list string) (var_name value_name : string)
    (df df' : DataFrame) :
  melt id_vars var_name value_name df = Ok df' →
  has_columns id_vars df = true ∧
  columns df' = id_vars ++ [var_name; value_name] ∧
  records df' =
    List.filter (λ c, negb (mem c id_vars)) (columns df) ≫= λ v,
      (λ r, <[value_name := r !!! v]>
              (<[var_name := Str v]> (project id_vars r))) <$> records df.
Proof.
  unfold melt. destruct (has_columns id_vars df); [|done].
  intros [= <-]. split_and!; [done..|].
  unfold records at 1. cbn [rows]. rewrite reset_index_records.
  apply list_bind_ext; [|done]. intros v.
  unfold records. rewrite <- list_fmap_compose. by apply list_fmap_ext.
Qed.

Lemma merge_left_ok (on : list string) (left right out : DataFrame) :
  merge_left on left right = Ok out →
  has_columns on left = true ∧ has_columns on right = true ∧
  columns out = (left_label on left right <$> columns left) ++
                (right_label on left <$> other_columns on right) ∧
  ∀ o, o ∈ records out →
       ∃ l r, l ∈ records left ∧ o = joined on left right l r.
Proof.
  unfold merge_left.
  destruct (has_columns on left); [|done].
  destruct (has_columns on right); [|done].
  intros [= <-]. split_and!; [done..|].
  intros o. unfold records at 1. cbn [rows]. rewrite reset_index_records.
  intros (il & Ho & Hil)%list_elem_of_bind.
  exists il.2.
  assert (il.2 ∈ records left) as Hl.
  { unfold records. apply list_elem_of_fmap. by exists il. }
  destruct (List.filter _ (rows right)) as [|m ms].
  - apply list_elem_of_singleton in Ho. by exists None.
  - apply elem_of_cons in Ho as [->|Ho]; [by exists (Some m.2)|].
    apply (list_elem_of_fmap (λ ir : Z * Row, joined on left right il.2 (Some ir.2))) in Ho as (ir & -> & _).
    by exists (Some ir.2).
Qed.

End PandasFacts.

(** ** The plot component extractor *)

Module PlotFacts.
Import PyFacts PandasFacts Plot.

Lemma extracted_has_columns (series : DataFrame) (component : string) :
  has_columns (extracted_columns series component) series = true.
Proof.
  apply has_columns_spec. intros c Hc.
  unfold extracted_columns in Hc. by apply filter_elem_of in Hc as [? _].
Qed.

Lemma required_base (component k : string) :
  k ∈ base_columns →
  existsb (λ stub, contains stub k) (required_columns component) = true.
Proof.
  intros Hk. unfold required_columns.
  assert (existsb (λ stub, contains stub k) base_columns = true) as Hb.
  { unfold base_columns in Hk.
    repeat (apply elem_of_cons in Hk as [->|Hk]); try reflexivity.
    by apply elem_of_nil in Hk. }
  destruct (String.eqb component "lines"); [|destruct (String.eqb component "bands")];
    rewrite existsb_app, Hb; done.
Qed.

Lemma base_extracted (series : DataFrame) (component k : string) :
  k ∈ base_columns → k ∈ columns series →
  k ∈ extracted_columns series component.
Proof.
  intros Hk Hc. apply filter_elem_of. split; [done|]. by apply required_base.
Qed.

Lemma melted_ok (series m : DataFrame) (component : string) :
  melted series component = Ok m →
  has_columns base_columns series = true ∧
  columns m = base_columns ++ ["scale_stat"; "value"] ∧
  records m = value_vars series component ≫= λ v,
                melt_row series component v <$> records series.
Proof.
  unfold melted. intros (f & Hf & Hm)%bind_ok.
  apply select_ok in Hf as (_ & Hfc & Hfr).
  apply melt_ok in Hm as (Hb & Hc & Hr).
  split_and!; [|done|].
  - apply has_columns_spec. intros c Hc'.
    rewrite has_columns_spec in Hb. specialize (Hb c Hc').
    rewrite Hfc in Hb. unfold extracted_columns in Hb.
    by apply filter_elem_of in Hb as [? _].
  - rewrite Hr, Hfc. apply list_bind_ext; [|done]. intros v.
    unfold records. rewrite Hfr, <- !list_fmap_compose. by apply list_fmap_ext.
Qed.

Lemma melted_total (series : DataFrame) (component : string) :
  has_columns base_columns series = true →
  ∃ m, melted series component = Ok m.
Proof.
  intros Hb. unfold melted, select. rewrite extracted_has_columns.
  cbn [mbind result_bind]. unfold melt.
  replace (has_columns base_columns _) with true; [by eexists|].
  symmetry. apply has_columns_spec. intros c Hc. cbn [columns].
  apply base_extracted; [done|]. rewrite has_columns_spec in Hb. by apply Hb.
Qed.

Lemma records_classify (m : DataFrame) :
  records (classify m) = classify_row <$> records m.
Proof.
  unfold classify. rewrite !records_setitem, <- !list_fmap_compose.
  apply list_fmap_ext. intros _ r _. unfold classify_row, scale_of. cbn [compose].
  rewrite insert_insert_eq.
  rewrite !lookup_total_insert_eq.
  by rewrite !lookup_total_insert_ne by done.
Qed.

Lemma classified_ok (series m d : DataFrame) (component : string) :
  melted series component = Ok m →
  drop ["scale_stat"] (classify m) = Ok d →
  columns d = long_columns ∧
  records d = (λ r, delete "scale_stat" (classify_row r)) <$> records m.
Proof.
  intros (_ & Hc & _)%melted_ok (_ & Hdc & Hdr)%drop_ok. split.
  - rewrite Hdc. unfold classify. rewrite !columns_setitem, Hc. reflexivity.
  - rewrite Hdr, records_classify, <- list_fmap_compose. done.
Qed.

Lemma classified_total (series m : DataFrame) (component : string) :
  melted series component = Ok m →
  ∃ d, drop ["scale_stat"] (classify m) = Ok d.
Proof.
  intros (_ & Hc & _)%melted_ok. unfold drop.
  replace (has_columns _ _) with true; [by eexists|].
  unfold classify, has_columns. rewrite !columns_setitem, Hc. reflexivity.
Qed.

End PlotFacts.

(** ** One row per key in a pivoted table *)

Module PivotFacts.
Import PyFacts PandasFacts Plot PlotFacts.

Lemma cell_eqb_sym (a b : cell) : cell_eqb a b = cell_eqb b a.
Proof.
  destruct a, b; cbn; try done.
  - destruct (Qeq_bool q q0) eqn:E1, (Qeq_bool q0 q) eqn:E2; try done.
    + apply Qeq_bool_iff in E1. symmetry in E1. apply Qeq_bool_iff in E1. congruence.
    + apply Qeq_bool_iff in E2. symmetry in E2. apply Qeq_bool_iff in E2. congruence.
  - apply String.eqb_sym.
  - apply Z.eqb_sym.
Qed.

Lemma key_eqb_sym (k1 k2 : list cell) : key_eqb k1 k2 = key_eqb k2 k1.
Proof.
  revert k2. induction k1 as [|a k1 IH]; intros [|b k2]; cbn; try done.
  by rewrite cell_eqb_sym, IH.
Qed.

Lemma distinct_keys_filter (p : list cell → bool) (ks : list (list cell)) :
  distinct_keys ks → distinct_keys (List.filter p ks).
Proof.
  induction 1 as [|k ks Hk _ IH]; [constructor|].
  cbn [List.filter]. destruct (p k); [|done].
  constructor; [|done].
  apply Forall_forall. intros y [Hy _]%filter_elem_of.
  revert y Hy. by apply Forall_forall.
Qed.

Lemma distinct_keys_nub (ks : list (list cell)) : distinct_keys (nub key_eqb ks).
Proof.
  induction ks as [|k ks IH]; [constructor|].
  cbn [nub]. constructor.
  - apply Forall_forall. intros y [_ Hy]%filter_elem_of.
    by apply negb_true_iff in Hy.
  - by apply distinct_keys_filter.
Qed.

Lemma distinct_keys_perm (ks ks' : list (list cell)) :
  ks ≡ₚ ks' → distinct_keys ks → distinct_keys ks'.
Proof.
  induction 1 as [|k ks ks' Hp IH|k1 k2 ks|ks1 ks2 ks3 _ IH1 _ IH2].
  - done.
  - inversion_clear 1 as [|? ? Hk Hd]. constructor; [by rewrite <- Hp | by apply IH].
  - inversion_clear 1 as [|? ? Hk Hd].
    inversion_clear Hd as [|? ? Hk' Hd'].
    inversion_clear Hk as [|? ? Hkk Hk''].
    constructor; [constructor; [by rewrite key_eqb_sym | done]|].
    by constructor.
  - auto.
Qed.

Lemma elem_of_nub {A} (eqb : A → A → bool) (l : list A) (x : A) :
  x ∈ nub eqb l → x ∈ l.
Proof.
  revert x. induction l as [|y l IH]; intros x; cbn [nub]; [done|].
  intros [->|Hx]%elem_of_cons; [by left|].
  apply filter_elem_of in Hx as [Hx _]. right. by apply IH.
Qed.

Lemma mapM_ok {A B} (f : A → result B) (l : list A) (l' : list B) (y : B) :
  mapM f l = Ok l' → y ∈ l' → ∃ x, x ∈ l ∧ f x = Ok y.
Proof.
  revert l'. induction l as [|x l IH]; intros l'; cbn [mapM].
  - intros [= <-] Hy. by apply elem_of_nil in Hy.
  - intros (y0 & Hy0 & (ys & Hys & [= <-])%bind_ok)%bind_ok.
    intros [->|Hy]%elem_of_cons.
    + exists x. split; [by left | done].
    + destruct (IH ys Hys Hy) as (x' & Hx' & Hfx'). exists x'. split; [by right|done].
Qed.

Lemma key_of_insert_ne (idx : list string) (c : string) (v : cell) (m : Row) :
  c ∉ idx → key_of idx (<[c := v]> m) = key_of idx m.
Proof.
  intros Hc. unfold key_of. apply list_fmap_ext. intros i c' Hi.
  apply lookup_total_insert_ne. intros ->.
  apply Hc. by eapply list_elem_of_lookup_2.
Qed.

Lemma key_of_zip (idx : list string) (k : list cell) (rest : Row) :
  NoDup idx → length k = length idx →
  key_of idx (list_to_map (zip idx k) ∪ rest) = k.
Proof.
  intros Hnd. revert k. induction Hnd as [|c idx Hc Hnd IH]; intros [|v k] Hlen;
    try done.
  cbn [zip zip_with list_to_map foldr fst snd].
  rewrite <- insert_union_l.
  unfold key_of. cbn [fmap list_fmap]. rewrite lookup_total_insert_eq. f_equal.
  fold (key_of idx (<[c := v]> (list_to_map (zip idx k) ∪ rest))).
  rewrite key_of_insert_ne by done. apply IH. by injection Hlen.
Qed.

Lemma pivot_keys_distinct (idx : list string) (col val : string)
    (df p : DataFrame) :
  NoDup idx →
  pivot_table_reset_index idx col val df = Ok p →
  distinct_keys (key_of idx <$> records p).
Proof.
  intros Hnd. unfold pivot_table_reset_index.
  destruct (has_columns _ df); [|done].
  set (recs := List.filter _ _).
  intros (agged & Hagged & H)%bind_ok.
  set (agged' := List.filter _ agged) in H.
  destruct (existsb _ _); [done|]. injection H as <-.
  unfold records. cbn [rows]. rewrite reset_index_records.
  set (keys := merge_sort key_le _).
  assert (∀ k, k ∈ keys → length k = length idx) as Hlen.
  { intros k Hk. subst keys. rewrite merge_sort_Permutation in Hk.
    apply elem_of_nub, list_elem_of_fmap in Hk as (a & -> & Ha).
    subst agged'. apply filter_elem_of in Ha as [Ha _].
    destruct (mapM_ok _ _ _ _ Hagged Ha) as (g & Hg & Hfg).
    apply bind_ok in Hfg as (l & _ & (m & _ & [= <-])%bind_ok).
    cbn [fst]. apply elem_of_nub, list_elem_of_fmap in Hg as (r & -> & Hr).
    subst recs. apply filter_elem_of in Hr as [Hr _].
    apply list_elem_of_fmap in Hr as (ir & -> & _).
    cbn [fst]. unfold key_of. by rewrite length_fmap. }
  assert (distinct_keys keys) as Hd.
  { subst keys. eapply distinct_keys_perm; [symmetry; apply merge_sort_Permutation|].
    apply distinct_keys_nub. }
  replace (key_of idx <$> _) with keys; [done|].
  rewrite <- list_fmap_compose.
  rewrite <- (list_fmap_id keys) at 1. apply list_fmap_ext.
  intros i k Hk. cbn [compose]. rewrite list_to_map_app.
  symmetry. apply key_of_zip; [done|]. apply Hlen. by eapply list_elem_of_lookup_2.
Qed.


(** *** The cells of a pivoted table *)























End PivotFacts.

Module PlotSpec.
Import PyFacts PandasFacts Plot PlotFacts PivotFacts.

Section Extractor.

Variable normal_quantile : Q → Q.
Variable set_iter : list string → list string.
Hypothesis set_iter_perm : ∀ l, set_iter l ≡ₚ l.

Local Abbreviation component_df := (_create_plot_component_df normal_quantile set_iter).

Lemma lines_ok (series out : DataFrame) (alpha : pyval) :
  component_df series "lines" alpha = Ok out →
  has_columns base_columns series = true ∧
  columns out = long_columns ∧
  records out =
    value_vars series "lines" ≫= λ v,
      (λ r, delete "scale_stat" (classify_row (melt_row series "lines" v r)))
      <$> records series.
Proof.
  unfold _create_plot_component_df. cbn [mem existsb valid_components negb].
  change (String.eqb "lines" "lines") with true. cbn [orb negb].
  intros (m & Hm & (d & Hd & Hout)%bind_ok)%bind_ok.
  change (mem "lines" ["bands"; "std"]) with false in Hout.
  injection Hout as <-.
  destruct (classified_ok _ _ _ _ Hm Hd) as [Hc Hr].
  destruct (melted_ok _ _ _ Hm) as (Hb & _ & Hmr).
  split_and!; [done..|].
  rewrite Hr, Hmr, fmap_bind_list. apply list_bind_ext; [|done]. intros v.
  by rewrite <- list_fmap_compose.
Qed.

Lemma lines_total (series : DataFrame) (alpha : pyval) :
  has_columns base_columns series = true →
  ∃ out, component_df series "lines" alpha = Ok out.
Proof.
  intros Hb. unfold _create_plot_component_df.
  change (negb (mem "lines" valid_components)) with false. cbn match.
  destruct (melted_total series "lines" Hb) as [m Hm]. rewrite Hm.
  destruct (classified_total _ _ _ Hm) as [d Hd].
  cbn [mbind result_bind]. rewrite Hd. by eexists.
Qed.

Lemma classify_row_lookup (m : Row) (v : string) :
  m !! "scale_stat" = Some (Str v) →
  classify_row m !! "scale" = Some (scale_of (Str v)) ∧
  classify_row m !! "stat" = Some (stat_of (Str v)).
Proof.
  intros H%lookup_total_eq. unfold classify_row. rewrite H. split.
  - rewrite lookup_insert_ne by done. apply lookup_insert_eq.
  - apply lookup_insert_eq.
Qed.

(** C8: a component outside {lines, bands, std} is refused with a
    ValueError whose message names each of the three allowed components,
    whatever the order in which the set is printed; no table is
    produced. *)
Theorem invalid_component_rejected (series : DataFrame)
    (component : string) (alpha : pyval) :
  component ∉ valid_components →
  ∃ msg, component_df series component alpha = Raise (ValueError msg) ∧
         ∀ name, name ∈ valid_components → contains name msg = true.
Proof.
  intros Hc%mem_false. unfold _create_plot_component_df. rewrite Hc.
  cbn [negb]. eexists. split; [reflexivity|].
  intros name Hn. apply contains_app_r, contains_app_l, repr_set_contains.
  by rewrite set_iter_perm.
Qed.

(** C6: the column [cumulative_effects_mean] is classified as scale
    [cumulative_effects] and statistic [mean]: every melted row that
    comes from it gets these two labels, for every component, and the
    lines table holds one such row for every row of the evaluation
    table, with that row's time and value. *)
Theorem cumulative_effects_mean_classified (series : DataFrame)
    (alpha : pyval) :
  has_columns base_columns series = true →
  "cumulative_effects_mean" ∈ columns series →
  (∀ component m r,
     melted series component = Ok m →
     r ∈ records (classify m) →
     r !! "scale_stat" = Some (Str "cumulative_effects_mean") →
     r !! "scale" = Some (Str "cumulative_effects") ∧
     r !! "stat" = Some (Str "mean")) ∧
  ∃ out,
    component_df series "lines" alpha = Ok out ∧
    ∀ r, r ∈ records series →
      ∃ o, o ∈ records out ∧
           o !! "scale" = Some (Str "cumulative_effects") ∧
           o !! "stat" = Some (Str "mean") ∧
           o !! "value" = Some (r !!! "cumulative_effects_mean") ∧
           o !! "time" = Some (r !!! "time").
Proof.
  intros Hb Hcol. split.
  - intros component m r _ Hr Hss.
    rewrite records_classify in Hr.
    apply list_elem_of_fmap in Hr as (m0 & -> & _).
    assert (m0 !! "scale_stat" = Some (Str "cumulative_effects_mean")) as H0.
    { unfold classify_row in Hss. by rewrite !lookup_insert_ne in Hss by done. }
    apply classify_row_lookup in H0 as [-> ->]. done.
  - destruct (lines_total series alpha Hb) as [out Hout]. exists out.
    split; [done|]. intros r Hr.
    apply lines_ok in Hout as (_ & _ & ->).
    set (v := "cumulative_effects_mean") in *.
    assert (v ∈ extracted_columns series "lines") as Hex.
    { apply filter_elem_of. split; [done | reflexivity]. }
    assert (v ∈ value_vars series "lines") as Hv.
    { apply filter_elem_of. split; [done | reflexivity]. }
    assert ("time" ∈ extracted_columns series "lines") as Ht.
    { assert ("time" ∈ base_columns) as Hin by (by apply mem_spec).
      apply base_extracted; [done|].
      rewrite has_columns_spec in Hb. by apply Hb. }
    apply mem_spec in Hex, Ht.
    exists (delete "scale_stat" (classify_row (melt_row series "lines" v r))).
    assert (melt_row series "lines" v r !! "scale_stat" = Some (Str v)) as Hss.
    { unfold melt_row. cbn zeta. rewrite lookup_insert_ne by done.
      apply lookup_insert_eq. }
    apply classify_row_lookup in Hss as [Hs1 Hs2].
    split_and!.
    + apply list_elem_of_bind. exists v. split; [|done].
      apply list_elem_of_fmap. by exists r.
    + rewrite lookup_delete_ne by done. exact Hs1.
    + rewrite lookup_delete_ne by done. exact Hs2.
    + rewrite lookup_delete_ne by done. unfold classify_row, melt_row. cbn zeta.
      rewrite !lookup_insert_ne by done. rewrite lookup_insert_eq.
      by rewrite lookup_total_project.
    + rewrite lookup_delete_ne by done. unfold classify_row, melt_row. cbn zeta.
      rewrite !lookup_insert_ne by done. rewrite lookup_project.
      change (mem "time" base_columns) with true. cbn match.
      by rewrite lookup_total_project.
Qed.

Lemma getitem_ok (c : string) (df : DataFrame) (l : list cell) :
  getitem c df = Ok l → c ∈ columns df.
Proof.
  unfold getitem. destruct (mem c (columns df)) eqn:E; [|done].
  intros _. by apply mem_spec.
Qed.






End Extractor.


Section Frame.

Variable normal_quantile : Q → Q.
Variable set_iter : list string → list string.

Local Abbreviation component_df := (_create_plot_component_df normal_quantile set_iter).
Local Abbreviation plot_df_of := (_create_plot_df normal_quantile set_iter).

Lemma elem_of_records_setitem (c : string) (f : Z → Row → cell)
    (df : DataFrame) (r' : Row) :
  r' ∈ records (setitem c f df) →
  ∃ i r, (i, r) ∈ rows df ∧ r' = <[c := f i r]> r.
Proof.
  unfold records, setitem. cbn [rows]. rewrite <- list_fmap_compose.
  intros ([i r] & -> & Hin)%list_elem_of_fmap. by exists i, r.
Qed.

Lemma left_label_key (on : list string) (left right : DataFrame) (c : string) :
  c ∈ on → left_label on left right c = c.
Proof.
  intros Hc. unfold left_label, other_columns.
  destruct (mem c (List.filter _ (columns left))) eqn:E; [|done].
  apply mem_spec, filter_elem_of in E as [_ E].
  apply mem_spec in Hc. by rewrite Hc in E.
Qed.

Lemma joined_period (left right : DataFrame) (l : Row) (r : option Row)
    (c : string) :
  columns left = long_columns → c ∈ period_columns →
  joined merge_keys left right l r !! c = Some (l !!! c).
Proof.
  intros HL Hc. unfold joined. rewrite HL.
  unfold long_columns, base_columns. cbn [app fmap list_fmap].
  rewrite !(left_label_key merge_keys) by (by apply mem_spec).
  cbn [list_to_map foldr fst snd].
  unfold period_columns in Hc.
  repeat (apply elem_of_cons in Hc as [->|Hc]);
    [rewrite !lookup_insert_ne by done; apply lookup_insert_eq..|].
  by apply elem_of_nil in Hc.
Qed.

Lemma lines_row_period (series : DataFrame) (v c : string) (r : Row) :
  has_columns base_columns series = true →
  c ∈ period_columns →
  delete "scale_stat" (classify_row (melt_row series "lines" v r)) !!! c =
  r !!! c.
Proof.
  intros Hb Hc.
  assert (c ∈ base_columns) as Hcb.
  { unfold period_columns in Hc. unfold base_columns. by apply elem_of_cons; right. }
  assert (mem c (extracted_columns series "lines") = true) as Hex.
  { apply mem_spec, base_extracted; [done|].
    rewrite has_columns_spec in Hb. by apply Hb. }
  apply lookup_total_eq. unfold classify_row, melt_row. cbn zeta.
  unfold period_columns in Hc.
  repeat (apply elem_of_cons in Hc as [->|Hc]);
    [rewrite lookup_delete_ne, !lookup_insert_ne, lookup_project by done;
     cbn [mem existsb base_columns String.eqb Ascii.eqb Bool.eqb orb];
     by rewrite lookup_total_project..|].
  by apply elem_of_nil in Hc.
Qed.

(** C9: every row of the assembled plot frame carries the four
    period-boundary columns, with the values they have in a row of the
    evaluation table: selection, melt, the derived columns and the left
    join leave them as they are. *)
Theorem period_columns_carried (series series' out : DataFrame)
    (alpha : pyval) :
  plot_df_of series alpha = (series', Ok out) →
  (∀ c, c ∈ period_columns → c ∈ columns out) ∧
  ∀ o, o ∈ records out →
    ∃ r, r ∈ records series ∧
         ∀ c, c ∈ period_columns → o !! c = Some (r !!! c).
Proof.
  unfold _create_plot_df. intros [= _ H].
  apply bind_ok in H as (lines_df & Hlines & H).
  apply bind_ok in H as (bands_df & _ & H).
  apply bind_ok in H as (bands_df' & _ & H).
  apply bind_ok in H as (merged & Hmerge & H).
  apply bind_ok in H as (? & _ & H).
  apply bind_ok in H as (? & _ & H).
  injection H as <-.
  apply lines_ok in Hlines as (Hb & Hlc & Hlr).
  apply merge_left_ok in Hmerge as (_ & _ & Hmc & Hmr).
  split.
  - intros c Hc. do 6 apply elem_of_columns_setitem.
    rewrite Hmc, Hlc. apply elem_of_app. left.
    apply list_elem_of_fmap. exists c.
    assert (c ∈ merge_keys) as Hk.
    { unfold period_columns in Hc.
      repeat (apply elem_of_cons in Hc as [->|Hc]); [by apply mem_spec..|].
      by apply elem_of_nil in Hc. }
    split; [by rewrite left_label_key|].
    unfold period_columns in Hc.
    repeat (apply elem_of_cons in Hc as [->|Hc]); [by apply mem_spec..|].
    by apply elem_of_nil in Hc.
  - intros o Ho. rewrite !records_setitem, <- !list_fmap_compose in Ho.
    apply list_elem_of_fmap in Ho as (j & -> & Hj).
    apply Hmr in Hj as (l & ropt & Hl & ->).
    rewrite Hlr in Hl.
    apply list_elem_of_bind in Hl as (v & Hl & _).
    apply list_elem_of_fmap in Hl as (r' & -> & Hr').
    apply elem_of_records_setitem in Hr' as (i & r & Hir & ->).
    exists r. split.
    { unfold records. apply list_elem_of_fmap. by exists (i, r). }
    intros c Hc. cbn [compose].
    assert (has_columns base_columns
              (setitem "time" (λ i _, Stamp i) series) = true) as Hb' by done.
    pose proof (joined_period lines_df bands_df'
                  (delete "scale_stat"
                     (classify_row
                        (melt_row (setitem "time" (λ i _, Stamp i) series)
                                  "lines" v (<["time" := Stamp i]> r))))
                  ropt c Hlc Hc) as Hj.
    rewrite (lines_row_period _ v c _ Hb' Hc) in Hj.
    unfold period_columns in Hc.
    repeat (apply elem_of_cons in Hc as [->|Hc]);
      [rewrite !lookup_insert_ne by done;
       rewrite Hj; f_equal; by apply lookup_total_insert_ne..|].
    by apply elem_of_nil in Hc.
Qed.

End Frame.

Section Plotting.

Variable normal_quantile : Q → Q.
Variable set_iter : list string → list string.

Local Abbreviation plot_df_of := (_create_plot_df normal_quantile set_iter).
Local Abbreviation plot_of := (plot normal_quantile set_iter).

Lemma effective_lookup (kwargs : gmap string pyval) (k : string) :
  effective_plot_params kwargs !! k =
  (λ v, default v (kwargs !! k)) <$> default_plot_params !! k.
Proof.
  unfold effective_plot_params. destruct (size kwargs =? 0)%nat eqn:E.
  - apply Nat.eqb_eq, map_size_empty_iff in E. subst kwargs.
    rewrite lookup_empty. by destruct (default_plot_params !! k).
  - rewrite map_lookup_imap. by destruct (default_plot_params !! k).
Qed.

Lemma setitem_time_idem (series : DataFrame) :
  setitem "time" (λ i _, Stamp i) (setitem "time" (λ i _, Stamp i) series) =
  setitem "time" (λ i _, Stamp i) series.
Proof.
  unfold setitem. cbn [columns rows]. f_equal.
  - destruct (mem "time" (columns series)) eqn:E; [by rewrite E|].
    replace (mem "time" (columns series ++ ["time"])) with true; [done|].
    symmetry. apply mem_spec, elem_of_app. right. by apply list_elem_of_singleton.
  - rewrite <- list_fmap_compose. apply list_fmap_ext. intros _ [i r] _.
    cbn [compose fst snd]. by rewrite insert_insert_eq.
Qed.

Lemma plot_df_again (series : DataFrame) (alpha : pyval) :
  plot_df_of (plot_df_of series alpha).1 alpha = plot_df_of series alpha.
Proof.
  unfold _create_plot_df. cbn [fst]. by rewrite setitem_time_idem.
Qed.

(** C10: keyword arguments that differ only outside the option names of
    [plot_params] give the same effective parameters and the same call of
    the same renderer on the same table, whether the two calls start from
    the same evaluation table or the second one follows the first on the
    table the first one left behind. *)
Theorem unknown_options_ignored (series : DataFrame)
    (kwargs1 kwargs2 : gmap string pyval) :
  (∀ k, is_Some (default_plot_params !! k) → kwargs1 !! k = kwargs2 !! k) →
  effective_plot_params kwargs1 = effective_plot_params kwargs2 ∧
  plot_of series kwargs1 = plot_of series kwargs2 ∧
  (plot_of (plot_of series kwargs1).1 kwargs2).2 = (plot_of series kwargs1).2.
Proof.
  intros H.
  assert (effective_plot_params kwargs1 = effective_plot_params kwargs2) as He.
  { apply map_eq. intros k. rewrite !effective_lookup.
    destruct (default_plot_params !! k) as [v|] eqn:E; [|done].
    cbn [fmap option_fmap option_map]. by rewrite H. }
  split; [done|]. 
  assert (plot_of series kwargs1 = plot_of series kwargs2) as Hp.
  { unfold plot. by rewrite He. }
  split; [done|].
  rewrite Hp. unfold plot.
  set (alpha := effective_plot_params kwargs2 !!! "alpha").
  pose proof (plot_df_again series alpha) as Hagain.
  destruct (plot_df_of series alpha) as [s1 main] eqn:E1. cbn [fst snd] in *.
  destruct (plot_df_of s1 alpha) as [s2 main2] eqn:E2. cbn [fst snd].
  by injection Hagain as -> ->.
Qed.

End Plotting.

Section Filters.

Variable normal_quantile : Q → Q.
Variable set_iter : list string → list string.

Local Abbreviation plot_of := (plot normal_quantile set_iter).

Lemma Forall_loc (P : Row → Prop) (p : Row → bool) (df : DataFrame) :
  Forall P (records df) → Forall P (records (loc (λ _ r, p r) df)).
Proof.
  rewrite records_loc, !Forall_forall. intros H r [Hr _]%filter_elem_of.
  by apply H.
Qed.

(** The other branch of the band filter does what its comment says: when
    [use_std_intervals] is not set, no row of band method [std] reaches
    the renderer. *)
Lemma quantile_intervals_drop_std_rows (series : DataFrame)
    (kwargs : gmap string pyval) (call : render_call) :
  truthy (effective_plot_params kwargs !!! "use_std_intervals") = false →
  (plot_of series kwargs).2 = Ok call →
  Forall (λ r, ne_lit (r !!! "band_method") "std" = true)
         (records (renderer_input call)).
Proof.
  intros Hstd. unfold plot.
  destruct (_create_plot_df _ _ series _) as [s main]. cbn [snd].
  intros (main_df & _ & H)%bind_ok.
  apply bind_ok in H as (_ & _ & H). rewrite Hstd in H.
  apply bind_ok in H as (plot_df & Hmed & H).
  set (P := λ r : Row, ne_lit (r !!! "band_method") "std" = true).
  assert (Forall P (records
            (loc (λ _ r, ne_lit (r !!! "band_method") "std") main_df))) as H0.
  { rewrite records_loc. apply Forall_forall.
    by intros r [_ Hr]%filter_elem_of. }
  assert (Forall P (records plot_df)) as H1.
  { destruct (truthy (effective_plot_params kwargs !!! "show_median")).
    - apply bind_ok in Hmed as (_ & _ & Hmed).
      apply bind_ok in Hmed as (_ & _ & Hmed). injection Hmed as <-.
      rewrite records_setitem. apply Forall_fmap, Forall_forall.
      intros r Hr. unfold P. cbn [compose].
      rewrite lookup_total_insert_ne by done.
      revert r Hr. apply Forall_forall. by apply Forall_loc.
    - by injection Hmed as <-. }
  destruct (eq_str _ "altair").
  - destruct (truthy (effective_plot_params kwargs !!! "static_plot")).
    + apply bind_ok in H as (_ & _ & H). injection H as <-.
      cbn [renderer_input]. by apply Forall_loc.
    + by injection H as <-.
  - destruct (eq_str _ "matplotlib"); [|done]. by injection H as <-.
Qed.

(** C1, at an evaluation table that has quantile bounds and a standard
    deviation: with [use_std_intervals=True] the table handed to the
    renderer still has rows of band method [quantiles] next to the rows
    of band method [std]. *)
Theorem std_intervals_keep_quantile_rows :
  let call :=
    (plot_of Samples.sample_series {["use_std_intervals" := PBool true]}).2 in
  is_ok call = true ∧
  existsb (λ r, eq_lit (r !!! "band_method") "quantiles")
          (renderer_rows call) = true ∧
  existsb (λ r, eq_lit (r !!! "band_method") "std")
          (renderer_rows call) = true.
Proof. cbv zeta. split_and!; vm_compute; reflexivity. Qed.

(** C2, at an evaluation table that has a median column: with
    [show_median=True] the table handed to the renderer has no row of
    statistic [median], and with the default [show_median=False] it has
    one. *)
Theorem show_median_drops_median_rows :
  let shown :=
    (plot_of Samples.sample_series {["show_median" := PBool true]}).2 in
  let hidden := (plot_of Samples.sample_series ∅).2 in
  mem "posterior_median" (columns Samples.sample_series) = true ∧
  is_ok shown = true ∧
  existsb (λ r, eq_lit (r !!! "stat") "median") (renderer_rows shown) = false ∧
  is_ok hidden = true ∧
  existsb (λ r, eq_lit (r !!! "stat") "median") (renderer_rows hidden) = true.
Proof. cbv zeta. split_and!; vm_compute; reflexivity. Qed.

End Filters.

End PlotSpec.

(** ** The dataset assembler *)

Module DataSpec.
Import PyFacts PandasFacts Data.

(** The constant-target check looks at the sum only through the
    comparison of the standard deviation with 0. *)
Lemma validate_sum_ext (f g : list Float.float → Float.float)
    (data : DataFrame) (target : option string) :
  (∀ name cells,
     target_column data target = Some name →
     getitem name data = Ok cells →
     std_ddof0_is_zero f cells = std_ddof0_is_zero g cells) →
  _validate_data_and_columns f data target
  = _validate_data_and_columns g data target.
Proof.
  intros H. unfold _validate_data_and_columns.
  destruct (match target with
            | Some name => Ok name
            | None => match columns data with
                      | c :: _ => Ok c
                      | [] => Raise (IndexError "index 0 is out of bounds")
                      end
            end) as [name|e] eqn:Hn; [|done].
  cbn [mbind result_bind].
  destruct (negb (mem name (columns data))); [done|].
  destruct (getitem name data) as [cells|e] eqn:Hg; [|done].
  cbn [mbind result_bind]. rewrite (H name cells); [done| |done].
  destruct target; cbn in *; [congruence|].
  destruct (columns data); cbn in *; congruence.
Qed.

(** Three equal values are added in one way only. *)
Lemma nanvar_three_equal (float_sum : list Float.float → Float.float)
    (q : Q) :
  (∀ x, float_sum [x; x; x]
        = Float.add Float.binary64 (Float.add Float.binary64 x x) x) →
  nanvar_ddof0 float_sum [Some q; Some q; Some q]
  = nanvar_ddof0 Samples.sample_sum [Some q; Some q; Some q].
Proof.
  intros H. unfold nanvar_ddof0.
  cbn [omap list_omap id length Nat.eqb fmap list_fmap zip_with option_bind
       mbind].
  rewrite !H. reflexivity.
Qed.

Lemma nanvar_six_equal (float_sum : list Float.float → Float.float)
    (q : Q) :
  (∀ x, float_sum (replicate 6 x) = Samples.sample_sum (replicate 6 x)) →
  nanvar_ddof0 float_sum [Some q; Some q; Some q; Some q; Some q; Some q]
  = nanvar_ddof0 Samples.sample_sum
      [Some q; Some q; Some q; Some q; Some q; Some q].
Proof.
  intros H. unfold nanvar_ddof0.
  cbn [omap list_omap id length Nat.eqb fmap list_fmap zip_with
       option_bind mbind].
  repeat match goal with
  | |- context [float_sum [?x; ?x; ?x; ?x; ?x; ?x]] =>
      change [x; x; x; x; x; x] with (replicate 6 x)
  end.
  rewrite !H. reflexivity.
Qed.

Lemma validate_index (float_sum : list Float.float → Float.float)
    (data data' : DataFrame) (target : option string)
    (name : string) (features : option (list string)) :
  _validate_data_and_columns float_sum data target
  = Ok (data', name, features) →
  index data' = index data.
Proof.
  unfold _validate_data_and_columns.
  intros (n & _ & H)%bind_ok.
  destruct (negb (mem n (columns data))); [done|].
  apply bind_ok in H as (cells & _ & H).
  apply bind_ok in H as (is_constant & _ & H).
  destruct is_constant; [done|].
  apply bind_ok in H as (d & Hd & H).
  apply bind_ok in H as (cells' & _ & H).
  destruct (count cells' <? 3)%nat; [done|].
  apply bind_ok in H as (f & _ & H).
  destruct (existsb _ (rows f)); [done|].
  destruct (negb _); [done|].
  injection H as <- _ _. by apply index_select in Hd.
Qed.

Ltac init_steps :=
  repeat match goal with
  | H : context [match ?x with Ok _ => _ | Raise _ => _ end] |- _ =>
      destruct x eqn:?; try discriminate H
  | H : context [match ?x with Some _ => _ | None => _ end] |- _ =>
      destruct x eqn:?; try discriminate H
  | H : context [if ?b then _ else _] |- _ =>
      destruct b eqn:?; try discriminate H
  end.

Section Assembler.

Variable float_sum : list Float.float → Float.float.
Variable InputDateType : Type.
Variable parse_and_validate_date_data :
  DataFrame → InputDateType * InputDateType →
  InputDateType * InputDateType → result ((Z * Z) * (Z * Z)).
Variable Scaler : Type.
Variable Scaler_fit : DataFrame → result Scaler.
Variable Scaler_transform : Scaler → DataFrame → result DataFrame.

Local Abbreviation init_of :=
  (__init__ float_sum InputDateType parse_and_validate_date_data
            Scaler Scaler_fit Scaler_transform).

(** C3: the check compares the float64 standard deviation of the
    target with 0, and a constant column need not have that.  Three
    observations of 0.1 pass the validation, and a table of six
    observations of 0.1 is made into a dataset and sliced: the sum of
    the six is 0.6, the mean is computed as 0.09999999999999999 and the
    standard deviation is not zero.  This does not depend on the sum
    beyond the sum of three and of six equal numbers, nor on the parser
    beyond the periods it returns. *)
Theorem constant_target_accepted
    (pre post : InputDateType * InputDateType) (drop_nan : bool)
    (dtype : DType) :
  (∀ x, float_sum [x; x; x]
        = Float.add Float.binary64 (Float.add Float.binary64 x x) x) →
  (∀ x, float_sum (replicate 6 x) = Samples.sample_sum (replicate 6 x)) →
  parse_and_validate_date_data Samples.six_tenths_data pre post
  = Ok ((0, 2)%Z, (3, 5)%Z) →
  let run :=
    init_of Samples.six_tenths_data pre post drop_nan None false dtype ∅ in
  Forall (λ ir, ir.2 !!! "y" = Num Samples.tenth) (rows Samples.tenths_data) ∧
  is_ok (_validate_data_and_columns float_sum Samples.tenths_data None)
  = true ∧
  Forall (λ ir, ir.2 !!! "y" = Num Samples.tenth)
         (rows Samples.six_tenths_data) ∧
  run.2 = Ok tt ∧
  frame_length Scaler (run.1 !! "data") = Some 6%nat ∧
  frame_length Scaler (run.1 !! "pre_intervention_data") = Some 3%nat ∧
  frame_length Scaler (run.1 !! "after_pre_intervention_data") = Some 3%nat ∧
  frame_length Scaler (run.1 !! "normalized_after_pre_intervention_data")
  = Some 3%nat.
Proof.
  intros H3 H6 Hp. cbv zeta.
  assert (_validate_data_and_columns float_sum Samples.tenths_data None
          = _validate_data_and_columns Samples.sample_sum
              Samples.tenths_data None) as Hv3.
  { apply validate_sum_ext. intros name cells Hn Hg.
    vm_compute in Hn. injection Hn as <-.
    vm_compute in Hg. injection Hg as <-.
    unfold std_ddof0_is_zero. cbn [float_column fmap option_fmap option_map].
    by rewrite nanvar_three_equal. }
  assert (_validate_data_and_columns float_sum Samples.six_tenths_data None
          = _validate_data_and_columns Samples.sample_sum
              Samples.six_tenths_data None) as Hv6.
  { apply validate_sum_ext. intros name cells Hn Hg.
    vm_compute in Hn. injection Hn as <-.
    vm_compute in Hg. injection Hg as <-.
    unfold std_ddof0_is_zero. cbn [float_column fmap option_fmap option_map].
    by rewrite (nanvar_six_equal float_sum). }
  split; [repeat constructor|].
  split; [rewrite Hv3; vm_compute; reflexivity|].
  split; [repeat constructor|].
  unfold __init__, init_bind, call, setattr, init_ret.
  rewrite Hp, Hv6.
  destruct drop_nan, dtype; split_and!; vm_compute; reflexivity.
Qed.

(** C4: in a dataset that was constructed, the labels of the pre-period
    slice lie in [[pre_start, pre_end]] (they are the labels of the table
    in that interval, in order), and the labels of the after-pre-period
    slice are the labels of the table that are greater than [pre_end], in
    order. *)
Theorem slices_follow_pre_period (data : DataFrame)
    (pre post : InputDateType * InputDateType) (drop_nan : bool)
    (target : option string) (standardize : bool) (dtype : DType)
    (self : gmap string (attr Scaler)) :
  init_of data pre post drop_nan target standardize dtype ∅ = (self, Ok tt) →
  ∃ pre_start pre_end pre_data after_data,
    self !! "pre_intervention_period" = Some (APeriod Scaler (pre_start, pre_end)) ∧
    self !! "pre_intervention_data" = Some (AFrame Scaler pre_data) ∧
    self !! "after_pre_intervention_data" = Some (AFrame Scaler after_data) ∧
    Forall (λ i, pre_start ≤ i ≤ pre_end)%Z (index pre_data) ∧
    index pre_data =
      List.filter (λ i, (pre_start <=? i)%Z && (i <=? pre_end)%Z) (index data) ∧
    index after_data = List.filter (λ i, (pre_end <? i)%Z) (index data).
Proof.
  unfold __init__, init_bind, call, setattr, init_ret. intros H.
  destruct (parse_and_validate_date_data data pre post)
    as [[[pre_start pre_end] post_period]|] eqn:Hp; [|discriminate H].
  destruct (_validate_data_and_columns float_sum data target)
    as [[[data' name] features]|] eqn:Hv; [|discriminate H].
  cbn [fst snd] in H.
  apply validate_index in Hv.
  exists pre_start, pre_end.
  exists (loc (λ i _, (pre_start <=? i)%Z && (i <=? pre_end)%Z) data').
  exists (loc (λ i _, (pre_end <? i)%Z) data').
  rewrite !index_loc, Hv.
  assert (Forall (λ i, pre_start ≤ i ≤ pre_end)%Z
            (List.filter (λ i, (pre_start <=? i)%Z && (i <=? pre_end)%Z)
                         (index data))) as Hin.
  { apply Forall_forall. intros i [_ Hi]%filter_elem_of. lia. }
  init_steps; injection H as <-; split_and!; try done; reflexivity.
Qed.

(** C5, as amended: without standardization the normalized pre-period
    slice is the raw pre-period slice, and the normalized after-pre-period
    slice is the raw after-pre-period slice once the rows with a missing
    value are dropped when [drop_post_period_nan] is set (the default),
    and the raw slice itself when it is not. *)
Theorem unstandardized_slices (data : DataFrame)
    (pre post : InputDateType * InputDateType) (drop_nan : bool)
    (target : option string) (dtype : DType)
    (self : gmap string (attr Scaler)) :
  init_of data pre post drop_nan target false dtype ∅ = (self, Ok tt) →
  ∃ pre_data after_data,
    self !! "pre_intervention_data" = Some (AFrame Scaler pre_data) ∧
    self !! "after_pre_intervention_data" = Some (AFrame Scaler after_data) ∧
    self !! "normalized_pre_intervention_data"
      = Some (AFrame Scaler pre_data) ∧
    self !! "normalized_after_pre_intervention_data"
      = Some (AFrame Scaler
                (if drop_nan then dropna after_data else after_data)).
Proof.
  unfold __init__, init_bind, call, setattr, init_ret. intros H.
  destruct (parse_and_validate_date_data data pre post)
    as [[[pre_start pre_end] post_period]|] eqn:Hp; [|discriminate H].
  destruct (_validate_data_and_columns float_sum data target)
    as [[[data' name] features]|] eqn:Hv; [|discriminate H].
  cbn [fst snd] in H.
  exists (loc (λ i _, (pre_start <=? i)%Z && (i <=? pre_end)%Z) data').
  exists (loc (λ i _, (pre_end <? i)%Z) data').
  init_steps; injection H as <-; split_and!; reflexivity.
Qed.

End Assembler.

(** C5 as stated fails: without standardization and with the default
    [drop_post_period_nan=True], a missing target value after the
    pre-period makes the normalized after-pre-period slice one row
    shorter than the raw one. *)
Lemma normalized_after_slice_differs :
  let run :=
    Samples.sample_init Samples.sample_data (0, 1)%Z (2, 3)%Z true None false ∅ in
  run.2 = Ok tt ∧
  frame_length unit (run.1 !! "after_pre_intervention_data") = Some 2%nat ∧
  frame_length unit (run.1 !! "normalized_after_pre_intervention_data")
    = Some 1%nat ∧
  run.1 !! "normalized_after_pre_intervention_data"
    ≠ run.1 !! "after_pre_intervention_data".
Proof.
  cbv zeta. split; [vm_compute; reflexivity|].
  split; [vm_compute; reflexivity|].
  split; [vm_compute; reflexivity|].
  intros H. apply (f_equal (frame_length unit)) in H.
  vm_compute in H. discriminate H.
Qed.

End DataSpec.

(** ** The theorems at sample inputs *)

Module Witnesses.
Import PyFacts PandasFacts Plot PlotFacts PlotSpec Data DataSpec Samples.

Lemma ok_from_ok {A} (d : A) (r : result A) :
  is_ok r = true → r = Ok (from_ok d r).
Proof. by destruct r. Qed.

Lemma pair_from_snd {A B} (p : A * B) (b : B) : p.2 = b → p = (p.1, b).
Proof. destruct p. by intros <-. Qed.

Lemma invalid_component_rejected_witness :
  (∀ l : list string, reverse l ≡ₚ l) ∧
("invalid" ∉ valid_components) ∧
  ∃ msg,
    _create_plot_component_df (λ _, 2%Q) reverse sample_series "invalid" PNone
      = Raise (ValueError msg) ∧
    ∀ name, name ∈ valid_components → contains name msg = true.
Proof.
  assert (∀ l : list string, reverse l ≡ₚ l) as Hperm
    by (intros l; apply reverse_Permutation).
  assert ("invalid" ∉ valid_components) as Hc by (apply mem_false; reflexivity).
  split; [exact Hperm|]. split; [exact Hc|].
  exact (invalid_component_rejected (λ _, 2%Q) reverse Hperm
           sample_series "invalid" PNone Hc).
Defined.

Lemma cumulative_effects_mean_classified_witness :
  has_columns base_columns timed_series = true ∧
  "cumulative_effects_mean" ∈ columns timed_series ∧
  (∀ component m r,
     melted timed_series component = Ok m →
     r ∈ records (classify m) →
     r !! "scale_stat" = Some (Str "cumulative_effects_mean") →
     r !! "scale" = Some (Str "cumulative_effects") ∧
     r !! "stat" = Some (Str "mean")) ∧
  ∃ out,
    _create_plot_component_df (λ _, 2%Q) reverse timed_series "lines" PNone
      = Ok out ∧
    ∀ r, r ∈ records timed_series →
      ∃ o, o ∈ records out ∧
           o !! "scale" = Some (Str "cumulative_effects") ∧
           o !! "stat" = Some (Str "mean") ∧
           o !! "value" = Some (r !!! "cumulative_effects_mean") ∧
           o !! "time" = Some (r !!! "time").
Proof.
  assert (has_columns base_columns timed_series = true) as Hb by reflexivity.
  assert ("cumulative_effects_mean" ∈ columns timed_series) as Hc
    by (apply mem_spec; reflexivity).
  split; [exact Hb|]. split; [exact Hc|].
  exact (cumulative_effects_mean_classified (λ _, 2%Q) reverse
           timed_series PNone Hb Hc).
Defined.

(** On the sample table, with [z = 2]: at time 2 the original scale has
    mean 3 and standard deviation 0.5, hence the band from 2 to 4. *)
Example std_bounds_on_sample :
  existsb (λ r, cell_eqb (r !!! "time") (Stamp 2) &&
                eq_lit (r !!! "scale") "original" &&
                cell_eqb (r !!! "lower") (Num 2) &&
                cell_eqb (r !!! "upper") (Num 4))
          (records (from_ok empty_frame
                      (_create_plot_component_df (λ _, 2%Q) reverse
                         timed_series "std" (PFloat 0.05)))) = true.
Proof. vm_compute. reflexivity. Qed.

(** The cells gathered on the sample table at time 2 on the original
    scale: the posterior mean 3 and the posterior standard deviation
    0.5. *)
Example cells_gathered_on_sample :
  let k := [Stamp 2; Str "original"; Stamp 0; Stamp 1; Stamp 2; Stamp 3] in
  gathered timed_series "std" k "mean" = [Num 3] ∧
  gathered timed_series "std" k "std" = [Num 0.5].
Proof. split; vm_compute; reflexivity. Qed.


Lemma period_columns_carried_witness :
  let r := _create_plot_df (λ _, 2%Q) reverse sample_series (PFloat 0.05) in
  let out := from_ok empty_frame r.2 in
  r = (r.1, Ok out) ∧
  (∀ c, c ∈ period_columns → c ∈ columns out) ∧
  ∀ o, o ∈ records out →
    ∃ r, r ∈ records sample_series ∧
         ∀ c, c ∈ period_columns → o !! c = Some (r !!! c).
Proof.
  cbv zeta.
  assert (_create_plot_df (λ _, 2%Q) reverse sample_series (PFloat 0.05)
          = ((_create_plot_df (λ _, 2%Q) reverse sample_series (PFloat 0.05)).1,
             Ok (from_ok empty_frame
                   (_create_plot_df (λ _, 2%Q) reverse sample_series
                      (PFloat 0.05)).2))) as H
    by (apply pair_from_snd, ok_from_ok; vm_compute; reflexivity).
  split; [exact H|].
  exact (period_columns_carried (λ _, 2%Q) reverse sample_series _ _
           (PFloat 0.05) H).
Defined.

Lemma unknown_options_ignored_witness :
  let kwargs1 : gmap string pyval := {["show_median" := PBool true]} in
  let kwargs2 : gmap string pyval :=
    <["colour" := PStr "red"]> {["show_median" := PBool true]} in
  (∀ k, is_Some (default_plot_params !! k) → kwargs1 !! k = kwargs2 !! k) ∧
  effective_plot_params kwargs1 = effective_plot_params kwargs2 ∧
  plot (λ _, 2%Q) reverse sample_series kwargs1
    = plot (λ _, 2%Q) reverse sample_series kwargs2 ∧
  (plot (λ _, 2%Q) reverse
     (plot (λ _, 2%Q) reverse sample_series kwargs1).1 kwargs2).2
    = (plot (λ _, 2%Q) reverse sample_series kwargs1).2.
Proof.
  cbv zeta.
  assert (∀ k, is_Some (default_plot_params !! k) →
               ({["show_median" := PBool true]} : gmap string pyval) !! k
               = (<["colour" := PStr "red"]> {["show_median" := PBool true]}
                    : gmap string pyval) !! k) as H.
  { intros k Hk. destruct (decide (k = "colour")) as [->|Hne].
    - vm_compute in Hk. by destruct Hk.
    - by rewrite lookup_insert_ne. }
  split; [exact H|].
  exact (unknown_options_ignored (λ _, 2%Q) reverse sample_series _ _ H).
Defined.

Lemma constant_target_accepted_witness :
  (∀ x, sample_sum [x; x; x]
        = Float.add Float.binary64 (Float.add Float.binary64 x x) x) ∧
  (∀ x, sample_sum (replicate 6 x) = sample_sum (replicate 6 x)) ∧
  sample_parse six_tenths_data (0, 2)%Z (3, 5)%Z = Ok ((0, 2)%Z, (3, 5)%Z) ∧
  let run := sample_init six_tenths_data (0, 2)%Z (3, 5)%Z true None false ∅ in
  Forall (λ ir, ir.2 !!! "y" = Num tenth) (rows tenths_data) ∧
  is_ok (_validate_data_and_columns sample_sum tenths_data None) = true ∧
  Forall (λ ir, ir.2 !!! "y" = Num tenth) (rows six_tenths_data) ∧
  run.2 = Ok tt ∧
  frame_length unit (run.1 !! "data") = Some 6%nat ∧
  frame_length unit (run.1 !! "pre_intervention_data") = Some 3%nat ∧
  frame_length unit (run.1 !! "after_pre_intervention_data") = Some 3%nat ∧
  frame_length unit (run.1 !! "normalized_after_pre_intervention_data")
  = Some 3%nat.
Proof.
  split; [reflexivity|]. split; [reflexivity|]. split; [reflexivity|].
  exact (constant_target_accepted sample_sum Z sample_parse unit sample_fit
           sample_transform (0, 2)%Z (3, 5)%Z true float32
           (λ x, eq_refl) (λ x, eq_refl) eq_refl).
Defined.

Lemma slices_follow_pre_period_witness :
  let run := sample_init sample_data (0, 1)%Z (2, 3)%Z true None true ∅ in
  run = (run.1, Ok tt) ∧
  ∃ pre_start pre_end pre_data after_data,
    run.1 !! "pre_intervention_period"
      = Some (APeriod unit (pre_start, pre_end)) ∧
    run.1 !! "pre_intervention_data" = Some (AFrame unit pre_data) ∧
    run.1 !! "after_pre_intervention_data" = Some (AFrame unit after_data) ∧
    Forall (λ i, pre_start ≤ i ≤ pre_end)%Z (index pre_data) ∧
    index pre_data =
      List.filter (λ i, (pre_start <=? i)%Z && (i <=? pre_end)%Z)
                  (index sample_data) ∧
    index after_data = List.filter (λ i, (pre_end <? i)%Z) (index sample_data).
Proof.
  cbv zeta.
  assert (sample_init sample_data (0, 1)%Z (2, 3)%Z true None true ∅
          = ((sample_init sample_data (0, 1)%Z (2, 3)%Z true None true ∅).1,
             Ok tt)) as H
    by (apply pair_from_snd; vm_compute; reflexivity).
  split; [exact H|].
  exact (slices_follow_pre_period sample_sum Z sample_parse unit sample_fit
           sample_transform sample_data (0, 1)%Z (2, 3)%Z true None true
           float32 _ H).
Defined.

Lemma unstandardized_slices_witness :
  let run := sample_init sample_data (0, 1)%Z (2, 3)%Z true None false ∅ in
  run = (run.1, Ok tt) ∧
  ∃ pre_data after_data,
    run.1 !! "pre_intervention_data" = Some (AFrame unit pre_data) ∧
    run.1 !! "after_pre_intervention_data" = Some (AFrame unit after_data) ∧
    run.1 !! "normalized_pre_intervention_data"
      = Some (AFrame unit pre_data) ∧
    run.1 !! "normalized_after_pre_intervention_data"
      = Some (AFrame unit (if true then dropna after_data else after_data)).
Proof.
  cbv zeta.
  assert (sample_init sample_data (0, 1)%Z (2, 3)%Z true None false ∅
          = ((sample_init sample_data (0, 1)%Z (2, 3)%Z true None false ∅).1,
             Ok tt)) as H
    by (apply pair_from_snd; vm_compute; reflexivity).
  split; [exact H|].
  exact (unstandardized_slices sample_sum Z sample_parse unit sample_fit
           sample_transform sample_data (0, 1)%Z (2, 3)%Z true None
           float32 _ H).
Defined.

End Witnesses.

(** ** More facts on lists and tables *)

Module TableFacts.
Import PyFacts PandasFacts PivotFacts.

Lemma existsb_false {A} (f : A → bool) (l : list A) :
  existsb f l = false ↔ ∀ x, x ∈ l → f x = false.
Proof.
  induction l as [|y l IH]; cbn [existsb].
  - split; [intros _ x Hx; by apply elem_of_nil in Hx | done].
  - rewrite orb_false_iff, IH. split.
    + intros [Hy Hl] x [->|Hx]%elem_of_cons; auto.
    + intros H. split; [apply H; by left | intros x Hx; apply H; by right].
Qed.

Lemma forallb_true {A} (f : A → bool) (l : list A) :
  forallb f l = true ↔ ∀ x, x ∈ l → f x = true.
Proof.
  rewrite forallb_forall. split; intros H x Hx; apply H; by apply list_elem_of_In.
Qed.

Lemma sublist_bool_filter {A} (p : A → bool) (l : list A) :
  sublist (List.filter p l) l.
Proof.
  induction l as [|x l IH]; cbn [List.filter]; [done|].
  destruct (p x); [by apply sublist_skip | by apply sublist_cons].
Qed.

Lemma elem_of_nub_eqb (l : list string) (x : string) :
  x ∈ l → x ∈ nub String.eqb l.
Proof.
  induction l as [|y l IH]; cbn [nub]; [done|].
  intros [->|Hx]%elem_of_cons; [by left|].
  destruct (String.eqb_spec y x) as [->|Hne]; [by left|].
  right. apply filter_elem_of. split; [by apply IH|].
  by apply negb_true_iff, String.eqb_neq.
Qed.

Lemma getitem_in (c : string) (df : DataFrame) :
  c ∈ columns df → getitem c df = Ok ((λ ir, ir.2 !!! c) <$> rows df).
Proof. intros H%mem_spec. unfold getitem. by rewrite H. Qed.

Lemma select_in (cs : list string) (df : DataFrame) :
  (∀ c, c ∈ cs → c ∈ columns df) →
  select cs df = Ok {| columns := cs;
                       rows := (λ ir, (ir.1, project cs ir.2)) <$> rows df |}.
Proof. intros H%has_columns_spec. unfold select. by rewrite H. Qed.

Lemma dropna_complete (df : DataFrame) (r : Row) (c : string) :
  r ∈ records (dropna df) → c ∈ columns df → isna (r !!! c) = false.
Proof.
  unfold dropna. rewrite records_loc.
  intros [_ H]%filter_elem_of Hc.
  rewrite forallb_true in H. by apply negb_true_iff, H.
Qed.

Lemma elem_of_columns_setitem_inv (c k : string) (f : Z → Row → cell)
    (df : DataFrame) :
  k ∈ columns (setitem c f df) → k ∈ columns df ∨ k = c.
Proof.
  rewrite columns_setitem. destruct (mem c (columns df)); [by left|].
  intros [?|?%list_elem_of_singleton]%elem_of_app; [by left | by right].
Qed.

Lemma setitem_column (c : string) (f : Z → Row → cell) (df : DataFrame) :
  c ∈ columns (setitem c f df).
Proof.
  rewrite columns_setitem. destruct (mem c (columns df)) eqn:E.
  - by apply mem_spec.
  - apply elem_of_app. right. by left.
Qed.

Lemma index_setitem (c : string) (f : Z → Row → cell) (df : DataFrame) :
  index (setitem c f df) = index df.
Proof.
  unfold index. cbn [setitem rows]. rewrite <- list_fmap_compose.
  by apply list_fmap_ext.
Qed.

Lemma merge_left_keeps (on : list string) (left right out : DataFrame)
    (l : Row) :
  merge_left on left right = Ok out → l ∈ records left →
  ∃ r, joined on left right l r ∈ records out ∧
       match r with
       | Some m => m ∈ records right ∧
                   key_eqb (key_of on l) (key_of on m) = true
       | None => ∀ m, m ∈ records right →
                      key_eqb (key_of on l) (key_of on m) = false
       end.
Proof.
  unfold merge_left.
  destruct (has_columns on left); [|done].
  destruct (has_columns on right); [|done].
  intros [= <-] (il & -> & Hil)%list_elem_of_fmap.
  unfold records at 1. cbn [rows]. rewrite reset_index_records.
  destruct (List.filter (λ ir : Z * Row,
                           key_eqb (key_of on il.2) (key_of on ir.2))
                        (rows right)) as [|m ms] eqn:E.
  - exists None. split.
    + apply list_elem_of_bind. exists il. split; [|done].
      rewrite E. by apply list_elem_of_singleton.
    + intros m (ir & -> & Hir)%list_elem_of_fmap.
      destruct (key_eqb _ (key_of on ir.2)) eqn:Hk; [|done].
      assert (ir ∈ List.filter
                     (λ ir : Z * Row, key_eqb (key_of on il.2) (key_of on ir.2))
                     (rows right)) as Hin by (by apply filter_elem_of).
      rewrite E in Hin. by apply elem_of_nil in Hin.
  - exists (Some m.2).
    assert (m ∈ List.filter
                  (λ ir : Z * Row, key_eqb (key_of on il.2) (key_of on ir.2))
                  (rows right)) as Hin by (rewrite E; by left).
    apply filter_elem_of in Hin as [Hm Hk]. split; [|split; [|done]].
    + apply list_elem_of_bind. exists il. split; [|done].
      rewrite E. by left.
    + unfold records. apply list_elem_of_fmap. by exists m.
Qed.

Lemma bool_filter_fmap {A B} (p : B → bool) (f : A → B) (l : list A) :
  List.filter p (f <$> l) = f <$> List.filter (λ x, p (f x)) l.
Proof.
  induction l as [|x l IH]; cbn [fmap list_fmap List.filter]; [done|].
  destruct (p (f x)); cbn [fmap list_fmap]; by rewrite IH.
Qed.

Lemma bool_filter_comm {A} (p q : A → bool) (l : list A) :
  List.filter p (List.filter q l) = List.filter q (List.filter p l).
Proof.
  induction l as [|x l IH]; cbn [List.filter]; [done|].
  destruct (q x) eqn:Hq, (p x) eqn:Hp; cbn [List.filter];
    rewrite ?Hq, ?Hp, IH; done.
Qed.

Lemma bool_filter_none {A} (p : A → bool) (l : list A) :
  (∀ x, x ∈ l → p x = false) → List.filter p l = [].
Proof.
  induction l as [|x l IH]; cbn [List.filter]; [done|].
  intros H. rewrite (H x) by (by left). apply IH.
  intros y Hy. apply H. by right.
Qed.

(** In a table labelled [0 .. n-1] the rows labelled 0 are the first
    row, if there is one. *)
Lemma label_zero_range (l : list (Z * Row)) :
  l.*1 = Z.of_nat <$> seq 0 (length l) →
  List.filter (λ ir, (ir.1 =? 0)%Z) l = take 1 l.
Proof.
  destruct l as [|x l]; [done|].
  cbn [fmap list_fmap length seq take List.filter].
  intros [= Hx Hl]. rewrite Hx. cbn [Z.eqb Z.of_nat]. f_equal.
  apply bool_filter_none. intros y Hy.
  assert (y.1 ∈ l.*1) as Hin by (apply list_elem_of_fmap; by exists y).
  rewrite Hl in Hin. apply list_elem_of_fmap in Hin as (j & -> & Hj).
  apply elem_of_seq in Hj. apply Z.eqb_neq. lia.
Qed.

Lemma index_reset_index (rs : list Row) :
  (reset_index rs).*1 = Z.of_nat <$> seq 0 (length rs).
Proof.
  unfold reset_index. rewrite fmap_imap.
  exact (imap_seq_0 rs Z.of_nat).
Qed.

Lemma index_merge_left (on : list string) (left right out : DataFrame) :
  merge_left on left right = Ok out →
  index out = Z.of_nat <$> seq 0 (length (rows out)).
Proof.
  unfold merge_left. destruct (_ && _); [|done]. intros [= <-].
  unfold index. cbn [rows]. rewrite index_reset_index.
  unfold reset_index. by rewrite length_imap.
Qed.

Lemma length_rows_setitem (c : string) (f : Z → Row → cell) (df : DataFrame) :
  length (rows (setitem c f df)) = length (rows df).
Proof. cbn [setitem rows]. by rewrite length_fmap. Qed.

Lemma label_zero_loc (p : Row → bool) (df : DataFrame) :
  List.filter (λ ir, (ir.1 =? 0)%Z) (rows (loc (λ _ r, p r) df))
  = List.filter (λ ir, p ir.2) (List.filter (λ ir, (ir.1 =? 0)%Z) (rows df)).
Proof. cbn [loc rows]. apply bool_filter_comm. Qed.

Lemma label_zero_setitem (c : string) (g : Row → cell) (df : DataFrame) :
  List.filter (λ ir, (ir.1 =? 0)%Z) (rows (setitem c (λ _ r, g r) df))
  = (λ ir, (ir.1, <[c := g ir.2]> ir.2))
    <$> List.filter (λ ir, (ir.1 =? 0)%Z) (rows df).
Proof. cbn [setitem rows]. by rewrite bool_filter_fmap. Qed.

Lemma left_label_cases (on : list string) (left right : DataFrame)
    (c : string) :
  left_label on left right c = c ∨ left_label on left right c = c +:+ "_x".
Proof. unfold left_label. destruct (_ && _); [by right | by left]. Qed.

End TableFacts.

(** ** More on the dataset assembler *)

Module DataExtra.
Import PyFacts PandasFacts TableFacts Data DataSpec.

Lemma filter_mem_filter (name : string) (cols : list string) :
  List.filter
    (λ col, mem col (List.filter (λ c, negb (String.eqb c name)) cols)) cols
  = List.filter (λ c, negb (String.eqb c name)) cols.
Proof.
  apply filter_ext_in. intros c Hc. apply list_elem_of_In in Hc.
  destruct (negb (String.eqb c name)) eqn:E.
  - apply mem_spec, filter_elem_of. by split.
  - apply mem_false. intros [_ H]%filter_elem_of. congruence.
Qed.

(** What [_validate_data_and_columns] has checked when it returns. *)
Lemma validate_ok (float_sum : list Float.float → Float.float)
    (data data' : DataFrame) (target : option string)
    (name : string) (features : option (list string)) :
  _validate_data_and_columns float_sum data target
  = Ok (data', name, features) →
  target_column data target = Some name ∧
  name ∈ columns data ∧
  features =
    (if (length (columns data) <=? 1)%nat then None
     else Some (List.filter (λ c, negb (String.eqb c name)) (columns data))) ∧
  columns data' = name :: default [] features ∧
  rows data' = (λ ir, (ir.1, project (columns data') ir.2)) <$> rows data ∧
  (3 ≤ count ((λ ir, ir.2 !!! name) <$> rows data'))%nat ∧
  (∀ ir c, ir ∈ rows data' → c ∈ default [] features →
           isna (ir.2 !!! c) = false) ∧
  (∀ ir c, ir ∈ rows data' → c ∈ columns data' →
           is_number (ir.2 !!! c) = true).
Proof.
  unfold _validate_data_and_columns.
  intros (n & Hn & H)%bind_ok.
  destruct (negb (mem n (columns data))) eqn:Hmem; [done|].
  apply negb_false_iff, mem_spec in Hmem.
  apply bind_ok in H as (cells & _ & H).
  apply bind_ok in H as (is_constant & _ & H).
  destruct is_constant; [done|].
  rewrite filter_mem_filter in H.
  set (fs := if (length (columns data) <=? 1)%nat then None else _) in H.
  apply bind_ok in H as (d & Hd & H).
  apply bind_ok in H as (cells' & Hcells & H).
  destruct (count cells' <? 3)%nat eqn:Hcount; [done|].
  apply bind_ok in H as (f & Hf & H).
  destruct (existsb _ (rows f)) eqn:Hna; [done|].
  destruct (negb _) eqn:Hnum; [done|].
  injection H as <- <- <-.
  apply select_ok in Hd as (_ & Hdc & Hdr).
  apply select_ok in Hf as (Hfh & Hfc & Hfr).
  split_and!.
  - destruct target; cbn in *; [congruence|].
    destruct (columns data); cbn; congruence.
  - done.
  - done.
  - done.
  - by rewrite Hdc.
  - unfold getitem in Hcells. destruct (mem n (columns d)); [|done].
    injection Hcells as <-. apply Nat.ltb_ge in Hcount. exact Hcount.
  - intros ir c Hir Hc.
    rewrite existsb_false in Hna.
    specialize (Hna (ir.1, project (default [] fs) ir.2)).
    rewrite Hfr, Hfc in Hna. cbn [snd] in Hna.
    assert (existsb (λ c, isna (project (default [] fs) ir.2 !!! c))
                    (default [] fs) = false) as H0.
    { apply Hna, list_elem_of_fmap. by exists ir. }
    rewrite existsb_false in H0. specialize (H0 c Hc).
    rewrite lookup_total_project in H0; [done | by apply mem_spec].
  - intros ir c Hir Hc. apply negb_false_iff in Hnum.
    rewrite forallb_true in Hnum. specialize (Hnum c Hc).
    rewrite forallb_true in Hnum. by apply Hnum.
Qed.

(** [tf.convert_to_tensor] casts cell by cell. *)
Lemma convert_to_tensor_ok (l : list cell) (d : DType)
    (t : list Float.float) :
  convert_to_tensor l d = Ok t → Forall2 (λ c x, cast_cell d c = Ok x) l t.
Proof.
  unfold convert_to_tensor. revert t.
  induction l as [|c l IH]; intros t H; cbn [mapM] in H.
  - injection H as <-. constructor.
  - apply bind_ok in H as (x & Hx & H).
    apply bind_ok in H as (xs & Hxs & H).
    injection H as <-. constructor; [done | by apply IH].
Qed.

(** A column of numbers is converted. *)
Lemma convert_numbers (l : list cell) (d : DType) :
  Forall (λ c, is_number c = true) l → ∃ t, convert_to_tensor l d = Ok t.
Proof.
  unfold convert_to_tensor. induction 1 as [|c l Hc _ [t IH]].
  - by exists [].
  - cbn [mapM]. rewrite IH.
    destruct c; try discriminate Hc; eexists; reflexivity.
Qed.

(** Rounding gives a number or an infinity. *)
Lemma round_is_not_nan (fmt : Float.format) (q : Q) :
  Float.is_nan (Float.round fmt q) = false.
Proof.
  unfold Float.round. destruct (Qeq_bool q 0); [done|].
  cbv zeta. by destruct (Qle_bool _ _).
Qed.

Lemma cast_cell_nan (d : DType) (c : cell) (x : Float.float) :
  cast_cell d c = Ok x → Float.is_nan x = isna c.
Proof.
  destruct c; cbn [cast_cell isna]; intros [= <-]; [|done].
  apply round_is_not_nan.
Qed.

(** X1: a target column that is named but absent is refused with a
    KeyError whose message gives the name, before anything else is
    looked at. *)
Theorem named_target_must_exist
    (float_sum : list Float.float → Float.float)
    (data : DataFrame) (name : string) :
  name ∉ columns data →
  ∃ msg,
    _validate_data_and_columns float_sum data (Some name)
    = Raise (KeyError msg) ∧
    contains name msg = true.
Proof.
  intros H%mem_false. unfold _validate_data_and_columns.
  cbn [mbind result_bind]. rewrite H. cbn [negb].
  eexists. split; [reflexivity|].
  apply contains_app_r, contains_here, prefix_app.
Qed.

(** X2: the validated table has the target column first and then the
    other columns in their original order; the features are exactly
    those other columns ([None] when the table has a single column); and
    every row keeps its label and its cells in these columns. *)
Theorem validated_columns_target_first
    (float_sum : list Float.float → Float.float)
    (data data' : DataFrame)
    (target : option string) (name : string)
    (features : option (list string)) :
  _validate_data_and_columns float_sum data target
  = Ok (data', name, features) →
  columns data' =
    name :: List.filter (λ c, negb (String.eqb c name)) (columns data) ∧
  default [] features =
    List.filter (λ c, negb (String.eqb c name)) (columns data) ∧
  (features = None ↔ (length (columns data) ≤ 1)%nat) ∧
  Forall2 (λ ir ir', ir'.1 = ir.1 ∧
                     ∀ c, c ∈ columns data' → ir'.2 !!! c = ir.2 !!! c)
          (rows data) (rows data').
Proof.
  intros (_ & Hin & Hf & Hc & Hr & _)%validate_ok.
  assert (default [] features =
          List.filter (λ c, negb (String.eqb c name)) (columns data)) as Hd.
  { rewrite Hf. destruct (length (columns data) <=? 1)%nat eqn:E; [|done].
    apply Nat.leb_le in E. revert Hin E.
    destruct (columns data) as [|c [|c' l]]; intros Hin E.
    - by apply elem_of_nil in Hin.
    - apply list_elem_of_singleton in Hin as ->. cbn.
      by rewrite String.eqb_refl.
    - simpl in E. lia. }
  split_and!.
  - by rewrite Hc, Hd.
  - done.
  - rewrite Hf. destruct (length (columns data) <=? 1)%nat eqn:E.
    + apply Nat.leb_le in E. done.
    + apply Nat.leb_gt in E. split; [done | lia].
  - rewrite Hr. apply Forall2_fmap_r, Forall_Forall2_diag, Forall_forall.
    intros ir _. split; [done|]. intros c Hcin. cbn [snd].
    apply lookup_total_project. by apply mem_spec.
Qed.

Lemma count_le_length (l : list cell) : (count l ≤ length l)%nat.
Proof. unfold count. apply filter_length_le. Qed.

(** X3: a table that passes validation has at least three rows and at
    least three target values that are not missing, no missing value in
    any feature column, and only numbers in every column. *)
Theorem validated_data_guarantees
    (float_sum : list Float.float → Float.float)
    (data data' : DataFrame)
    (target : option string) (name : string)
    (features : option (list string)) :
  _validate_data_and_columns float_sum data target
  = Ok (data', name, features) →
  (3 ≤ length (rows data))%nat ∧
  (3 ≤ count ((λ ir, ir.2 !!! name) <$> rows data'))%nat ∧
  (∀ ir c, ir ∈ rows data' → c ∈ default [] features →
           isna (ir.2 !!! c) = false) ∧
  (∀ ir c, ir ∈ rows data' → c ∈ columns data' →
           is_number (ir.2 !!! c) = true).
Proof.
  intros (_ & _ & _ & _ & Hr & Hcount & Hna & Hnum)%validate_ok.
  split_and!; [|done..].
  pose proof (count_le_length ((λ ir : Z * Row, ir.2 !!! name) <$> rows data')) as H.
  rewrite length_fmap in H.
  assert (length (rows data') = length (rows data)) as Hlen
    by (by rewrite Hr, length_fmap).
  lia.
Qed.

Section Constructor.

Variable float_sum : list Float.float → Float.float.
Variable InputDateType : Type.
Variable parse_and_validate_date_data :
  DataFrame → InputDateType * InputDateType →
  InputDateType * InputDateType → result ((Z * Z) * (Z * Z)).
Variable Scaler : Type.
Variable Scaler_fit : DataFrame → result Scaler.
Variable Scaler_transform : Scaler → DataFrame → result DataFrame.

Local Abbreviation init_of :=
  (__init__ float_sum InputDateType parse_and_validate_date_data
            Scaler Scaler_fit Scaler_transform).

(** The attributes of an object that [__init__] has built. *)
Lemma init_ok (data : DataFrame)
    (pre post : InputDateType * InputDateType) (drop_nan : bool)
    (target : option string) (standardize : bool) (dtype : DType)
    (self : gmap string (attr Scaler)) :
  init_of data pre post drop_nan target standardize dtype ∅ = (self, Ok tt) →
  ∃ periods data' name features npre nafter0 tensor series,
    parse_and_validate_date_data data pre post = Ok periods ∧
    _validate_data_and_columns float_sum data target
    = Ok (data', name, features) ∧
    let pre_data :=
      loc (λ i _, (periods.1.1 <=? i)%Z && (i <=? periods.1.2)%Z) data' in
    let after_data := loc (λ i _, (periods.1.2 <? i)%Z) data' in
    let nafter := if drop_nan then dropna nafter0 else nafter0 in
    (if standardize then
       ∃ scaler tgt oscaler,
         Scaler_fit pre_data = Ok scaler ∧
         select [name] pre_data = Ok tgt ∧
         Scaler_fit tgt = Ok oscaler ∧
         Scaler_transform scaler pre_data = Ok npre ∧
         Scaler_transform scaler after_data = Ok nafter0 ∧
         self !! "outcome_scaler" = Some (AScaler Scaler (Some oscaler))
     else
       npre = pre_data ∧ nafter0 = after_data ∧
       self !! "outcome_scaler" = Some (AScaler Scaler None)) ∧
    getitem name npre = Ok tensor ∧
    convert_to_tensor tensor dtype = Ok series ∧
    self !! "pre_intervention_period" = Some (APeriod Scaler periods.1) ∧
    self !! "post_intervention_period" = Some (APeriod Scaler periods.2) ∧
    self !! "data" = Some (AFrame Scaler data') ∧
    self !! "target_col" = Some (AName Scaler name) ∧
    self !! "feature_columns" = Some (ANames Scaler features) ∧
    self !! "standardize_data" = Some (ABool Scaler standardize) ∧
    self !! "pre_intervention_data" = Some (AFrame Scaler pre_data) ∧
    self !! "after_pre_intervention_data" = Some (AFrame Scaler after_data) ∧
    self !! "num_steps_forecast"
      = Some (ALen Scaler (length (index after_data))) ∧
    self !! "normalized_pre_intervention_data" = Some (AFrame Scaler npre) ∧
    self !! "normalized_after_pre_intervention_data"
      = Some (AFrame Scaler nafter) ∧
    self !! "pre_intervention_target_ts"
      = Some (AMasked Scaler series (Float.is_nan <$> series)) ∧
    match features with
    | Some fs =>
        ∃ a b, select fs npre = Ok a ∧ select fs nafter = Ok b ∧
               self !! "normalized_whole_period_features"
               = Some (AFrameOpt Scaler
                         (Some (setitem "intercept_" (λ _ _, Num 1)
                                  (concat a b))))
    | None =>
        self !! "normalized_whole_period_features"
        = Some (AFrameOpt Scaler None)
    end.
Proof.
  unfold __init__, init_bind, call, setattr, init_ret. intros H.
  destruct (parse_and_validate_date_data data pre post)
    as [periods|] eqn:Hp; [|discriminate H].
  destruct (_validate_data_and_columns float_sum data target)
    as [[[data' name] features]|] eqn:Hv; [|discriminate H].
  cbn [fst snd] in H.
  exists periods, data', name, features.
  init_steps; injection H as <-; do 4 eexists;
    (split; [reflexivity|]); (split; [reflexivity|]); cbv zeta;
    (split; [first [by repeat eexists | by split_and!]|]);
    (split; [eassumption|]); (split; [eassumption|]);
    split_and!; try reflexivity; by repeat eexists.
Qed.

(** X4: without standardization the constructor raises only where the
    period parser or the validation raises: once both have accepted the
    table, no later lookup fails and the object is built, whatever
    [drop_post_period_nan] is. *)
Theorem unstandardized_construction_succeeds (data : DataFrame)
    (pre post : InputDateType * InputDateType) (drop_nan : bool)
    (target : option string) (dtype : DType) (periods : (Z * Z) * (Z * Z))
    (validated : DataFrame * string * option (list string)) :
  parse_and_validate_date_data data pre post = Ok periods →
  _validate_data_and_columns float_sum data target = Ok validated →
  ∃ self, init_of data pre post drop_nan target false dtype ∅ = (self, Ok tt).
Proof.
  destruct validated as [[data' name] features]. intros Hp Hv.
  destruct (validate_ok _ _ _ _ _ _ Hv) as (_ & _ & _ & Hc & _ & _ & _ & Hnum).
  unfold __init__, init_bind, call, setattr, init_ret.
  rewrite Hp, Hv. cbn [fst snd].
  rewrite getitem_in by (cbn [loc columns]; rewrite Hc; by left).
  destruct (convert_numbers
              ((λ ir : Z * Row, ir.2 !!! name)
               <$> rows (loc (λ i _, (periods.1.1 <=? i)%Z
                                     && (i <=? periods.1.2)%Z) data'))
              dtype) as [series Hs].
  { apply Forall_fmap, Forall_forall. intros ir [Hir _]%filter_elem_of.
    apply Hnum; [done | rewrite Hc; by left]. }
  rewrite Hs.
  assert (∀ fs df, features = Some fs → columns df = columns data' →
                   select fs df
                   = Ok {| columns := fs;
                           rows := (λ ir, (ir.1, project fs ir.2)) <$> rows df |})
    as Hsel.
  { intros fs df -> Hdf. apply select_in. intros c Hin.
    rewrite Hdf, Hc. by right. }
  destruct drop_nan, features as [fs|]; cbn [fst snd];
    rewrite ?(Hsel fs) by done; eexists; reflexivity.
Qed.

(** X5: a failure of the period parser or of the validation is the
    failure of the constructor, with the same exception; in the first
    case no attribute has been assigned, in the second the two periods
    and nothing else. *)
Theorem early_failure_assigns_no_table (data : DataFrame)
    (pre post : InputDateType * InputDateType) (drop_nan : bool)
    (target : option string) (standardize : bool) (dtype : DType)
    (e : exn) :
  (parse_and_validate_date_data data pre post = Raise e →
   init_of data pre post drop_nan target standardize dtype ∅ = (∅, Raise e)) ∧
  (∀ periods,
     parse_and_validate_date_data data pre post = Ok periods →
     _validate_data_and_columns float_sum data target = Raise e →
     init_of data pre post drop_nan target standardize dtype ∅
     = (<["post_intervention_period" := APeriod Scaler periods.2]>
          (<["pre_intervention_period" := APeriod Scaler periods.1]> ∅),
        Raise e)).
Proof.
  unfold __init__, init_bind, call, setattr, init_ret.
  split; [by intros ->|]. by intros periods -> ->.
Qed.

(** X6: [num_steps_forecast] is the number of labels of the table given
    to the constructor that lie after the end of the pre-period; rows
    with missing values count, whatever [drop_post_period_nan] is. *)
Theorem forecast_steps_count_later_labels (data : DataFrame)
    (pre post : InputDateType * InputDateType) (drop_nan : bool)
    (target : option string) (standardize : bool) (dtype : DType)
    (self : gmap string (attr Scaler)) :
  init_of data pre post drop_nan target standardize dtype ∅ = (self, Ok tt) →
  ∃ pre_period,
    self !! "pre_intervention_period" = Some (APeriod Scaler pre_period) ∧
    self !! "num_steps_forecast"
    = Some (ALen Scaler
              (length (List.filter (λ i, (pre_period.2 <? i)%Z) (index data)))).
Proof.
  intros (periods & data' & name & features & npre & nafter0 & tensor & series &
          Hp & Hv & _ & _ & _ & Hpre & _ & _ & _ & _ & _ & _ & _ & Hn &
          _)%init_ok.
  exists periods.1. split; [done|].
  by rewrite Hn, index_loc, (validate_index _ _ _ _ _ _ Hv).
Qed.

(** X7: with [drop_post_period_nan] set, the normalized slice after the
    pre-period has no missing cell, with or without standardization. *)
Theorem dropped_slice_has_no_missing_cell (data : DataFrame)
    (pre post : InputDateType * InputDateType)
    (target : option string) (standardize : bool) (dtype : DType)
    (self : gmap string (attr Scaler)) :
  init_of data pre post true target standardize dtype ∅ = (self, Ok tt) →
  ∃ after,
    self !! "normalized_after_pre_intervention_data"
      = Some (AFrame Scaler after) ∧
    ∀ r c, r ∈ records after → c ∈ columns after → isna (r !!! c) = false.
Proof.
  intros (periods & data' & name & features & npre & nafter0 & tensor & series &
          _ & _ & _ & _ & _ & _ & _ & _ & _ & _ & _ & _ & _ & _ & _ & Ha &
          _)%init_ok.
  exists (dropna nafter0). split; [done|].
  intros r c Hr Hc. by apply (dropna_complete nafter0).
Qed.

(** X8: without standardization the masked series of the target holds,
    in order, the cells of the target column of the rows given to the
    constructor whose label lies in the pre-period, each one cast to
    [dtype]: a number is rounded to the nearest value of the format
    ([tf.float32] by default), a missing cell is NaN.  The mask marks
    exactly the missing cells. *)
Theorem masked_target_series (data : DataFrame)
    (pre post : InputDateType * InputDateType) (drop_nan : bool)
    (target : option string) (dtype : DType)
    (self : gmap string (attr Scaler)) :
  init_of data pre post drop_nan target false dtype ∅ = (self, Ok tt) →
  ∃ pre_period name series mask,
    self !! "pre_intervention_period" = Some (APeriod Scaler pre_period) ∧
    self !! "target_col" = Some (AName Scaler name) ∧
    target_column data target = Some name ∧
    self !! "pre_intervention_target_ts" = Some (AMasked Scaler series mask) ∧
    let cells :=
      (λ ir, ir.2 !!! name)
      <$> List.filter
            (λ ir, (pre_period.1 <=? ir.1)%Z && (ir.1 <=? pre_period.2)%Z)
            (rows data) in
    convert_to_tensor cells dtype = Ok series ∧
    Forall2
      (λ c x,
         match c with
         | Num q => x = Float.round (format_of dtype) q
         | NaN => x = Float.NotANumber
         | _ => False
         end) cells series ∧
    length mask = length series ∧
    (∀ i, mask !! i = Some true ↔ series !! i = Some Float.NotANumber) ∧
    (∀ i, mask !! i = Some true ↔ cells !! i = Some NaN).
Proof.
  intros (periods & data' & name & features & npre & nafter0 & tensor &
          series & Hp & Hv & (-> & _ & _) & Ht & Hs & Hpre & _ & _ & Hname &
          _ & _ & _ & _ & _ & _ & _ & Hm & _)%init_ok.
  destruct (validate_ok _ _ _ _ _ _ Hv) as (Htc & _ & _ & Hc & Hr & _).
  exists periods.1, name, series, (Float.is_nan <$> series).
  split_and!; try done. cbv zeta.
  assert (tensor
          = (λ ir : Z * Row, ir.2 !!! name)
            <$> List.filter
                  (λ ir, (periods.1.1 <=? ir.1)%Z && (ir.1 <=? periods.1.2)%Z)
                  (rows data)) as <-.
  { rewrite getitem_in in Ht by (cbn [loc columns]; rewrite Hc; by left).
    injection Ht as <-. cbn [loc rows]. rewrite Hr. clear -Hc.
    induction (rows data) as [|ir l IH]; [done|].
    cbn [fmap list_fmap List.filter fst snd].
    destruct (_ && _); cbn [fmap list_fmap fst snd]; [|exact IH].
    f_equal; [|exact IH].
    apply lookup_total_project, mem_spec. rewrite Hc. by left. }
  pose proof (convert_to_tensor_ok _ _ _ Hs) as Hcast.
  split_and!.
  - done.
  - eapply Forall2_impl; [exact Hcast|]. intros c x Hx.
    destruct c; cbn [cast_cell] in Hx; by try injection Hx as <-.
  - by rewrite length_fmap.
  - intros i. rewrite list_lookup_fmap.
    destruct (series !! i) as [[]|]; cbn; split; (done || by intros [=]).
  - intros i. rewrite list_lookup_fmap.
    destruct (series !! i) as [x|] eqn:Hx.
    + destruct (Forall2_lookup_r _ _ _ _ _ Hcast Hx) as (c & Hci & Hcx).
      rewrite Hci. apply cast_cell_nan in Hcx. cbn. rewrite Hcx.
      destruct c; cbn; split; (done || by intros [=]).
    + cbn. assert (tensor !! i = None) as ->; [|done].
      apply lookup_ge_None. apply lookup_ge_None in Hx.
      by rewrite (Forall2_length _ _ _ Hcast).
Qed.

(** X9: the whole-period feature table exists exactly when the table
    given to the constructor has more than one column. *)
Theorem features_need_second_column (data : DataFrame)
    (pre post : InputDateType * InputDateType) (drop_nan : bool)
    (target : option string) (standardize : bool) (dtype : DType)
    (self : gmap string (attr Scaler)) :
  init_of data pre post drop_nan target standardize dtype ∅ = (self, Ok tt) →
  ∃ features whole,
    self !! "feature_columns" = Some (ANames Scaler features) ∧
    self !! "normalized_whole_period_features"
      = Some (AFrameOpt Scaler whole) ∧
    (features = None ↔ (length (columns data) ≤ 1)%nat) ∧
    (whole = None ↔ (length (columns data) ≤ 1)%nat).
Proof.
  intros (periods & data' & name & features & npre & nafter0 & tensor & series &
          _ & Hv & _ & _ & _ & _ & _ & _ & _ & Hf & _ & _ & _ & _ & _ & _ & _ &
          Hw)%init_ok.
  destruct (validate_ok _ _ _ _ _ _ Hv) as (_ & _ & Hfs & _).
  assert (features = None ↔ (length (columns data) ≤ 1)%nat) as Hiff.
  { rewrite Hfs. destruct (Nat.leb_spec (length (columns data)) 1);
      split; (done || lia). }
  destruct features as [fs|].
  - destruct Hw as (a & b & _ & _ & Hw). eexists _, _.
    split_and!; [done..|]. rewrite <-Hiff. done.
  - exists None, None. split_and!; [done..|]. by rewrite <-Hiff.
Qed.

(** X10: when there are features, the whole-period feature table has
    one row per row of the normalized pre-period slice followed by one
    row per row of the normalized slice after it, with the labels of
    these rows; every row has [intercept_ = 1], and every other feature
    cell is the cell of the slice row. *)
Theorem whole_period_features_rows (data : DataFrame)
    (pre post : InputDateType * InputDateType) (drop_nan : bool)
    (target : option string) (standardize : bool) (dtype : DType)
    (self : gmap string (attr Scaler)) (fs : list string) :
  init_of data pre post drop_nan target standardize dtype ∅ = (self, Ok tt) →
  self !! "feature_columns" = Some (ANames Scaler (Some fs)) →
  ∃ npre nafter whole,
    self !! "normalized_pre_intervention_data" = Some (AFrame Scaler npre) ∧
    self !! "normalized_after_pre_intervention_data"
      = Some (AFrame Scaler nafter) ∧
    self !! "normalized_whole_period_features"
      = Some (AFrameOpt Scaler (Some whole)) ∧
    "intercept_" ∈ columns whole ∧
    (∀ c, c ∈ fs → c ∈ columns whole) ∧
    Forall2
      (λ ir w,
         w.1 = ir.1 ∧ w.2 !! "intercept_" = Some (Num 1) ∧
         ∀ c, c ∈ fs → c ≠ "intercept_" → w.2 !! c = Some (ir.2 !!! c))
      (rows npre ++ rows nafter) (rows whole).
Proof.
  intros (periods & data' & name & features & npre & nafter0 & tensor & series &
          _ & _ & _ & _ & _ & _ & _ & _ & _ & Hf & _ & _ & _ & _ & Hn & Ha & _ &
          Hw)%init_ok Hfs.
  rewrite Hf in Hfs. injection Hfs as ->.
  destruct Hw as (a & b & Ha'%select_ok & Hb'%select_ok & Hw).
  destruct Ha' as (_ & Hca & Hra). destruct Hb' as (_ & Hcb & Hrb).
  eexists _, _, _. split_and!; [done..| | |].
  - rewrite columns_setitem.
    destruct (mem "intercept_" _) eqn:E; [by apply mem_spec|].
    apply elem_of_app. right. by left.
  - intros c Hc. apply elem_of_columns_setitem. cbn [concat columns].
    apply elem_of_nub_eqb. rewrite Hca. apply elem_of_app. by left.
  - cbn [setitem concat rows]. rewrite Hra, Hrb, <-fmap_app, <-!list_fmap_compose.
    apply Forall2_fmap_r, Forall_Forall2_diag, Forall_forall.
    intros ir _. cbn [compose fst snd]. split; [done|].
    split; [by rewrite lookup_insert_eq|].
    intros c Hc Hne. rewrite lookup_insert_ne by done.
    rewrite !lookup_project.
    assert (mem c (nub String.eqb (columns a ++ columns b)) = true) as ->.
    { apply mem_spec, elem_of_nub_eqb. rewrite Hca.
      apply elem_of_app. by left. }
    f_equal. apply lookup_total_project. by apply mem_spec.
Qed.

(** X11: with standardization one scaler, fitted on the pre-period
    slice, transforms the pre-period slice and the slice after it; the
    outcome scaler is fitted on the target column of the pre-period
    slice alone. *)
Theorem one_scaler_fitted_on_pre_period (data : DataFrame)
    (pre post : InputDateType * InputDateType) (drop_nan : bool)
    (target : option string) (dtype : DType)
    (self : gmap string (attr Scaler)) :
  init_of data pre post drop_nan target true dtype ∅ = (self, Ok tt) →
  ∃ pre_data after_data name scaler outcome npre nafter,
    self !! "pre_intervention_data" = Some (AFrame Scaler pre_data) ∧
    self !! "after_pre_intervention_data" = Some (AFrame Scaler after_data) ∧
    self !! "target_col" = Some (AName Scaler name) ∧
    Scaler_fit pre_data = Ok scaler ∧
    Scaler_transform scaler pre_data = Ok npre ∧
    Scaler_transform scaler after_data = Ok nafter ∧
    self !! "normalized_pre_intervention_data" = Some (AFrame Scaler npre) ∧
    self !! "normalized_after_pre_intervention_data"
      = Some (AFrame Scaler (if drop_nan then dropna nafter else nafter)) ∧
    Scaler_fit {| columns := [name];
                  rows := (λ ir, (ir.1, project [name] ir.2))
                          <$> rows pre_data |} = Ok outcome ∧
    self !! "outcome_scaler" = Some (AScaler Scaler (Some outcome)).
Proof.
  intros (periods & data' & name & features & npre & nafter0 & tensor & series &
          _ & _ & (scaler & tgt & oscaler & Hfit & Hsel & Hofit & Htp & Hta &
          Ho) & _ & _ & _ & _ & _ & Hname & _ & _ & Hpre & Hafter & _ & Hn & Ha &
          _)%init_ok.
  eexists _, _, name, scaler, oscaler, npre, nafter0.
  split_and!; try done.
  unfold select in Hsel. destruct (has_columns _ _); [|done].
  by injection Hsel as <-.
Qed.

(** X27: a target column whose standard deviation is computed as
    exactly zero (four observations of 5.0, for one) is refused before
    any slice is taken: the validation raises the ValueError of the
    constant-target check, and so does the constructor once the periods
    are parsed; the object it leaves behind holds the two periods and
    nothing else: no table, no pre-period or after-pre-period slice and
    no normalized slice. *)
Theorem zero_deviation_target_rejected (data : DataFrame)
    (pre post : InputDateType * InputDateType) (drop_nan : bool)
    (target : option string) (standardize : bool) (dtype : DType)
    (name : string) (cells : list cell) (periods : (Z * Z) * (Z * Z)) :
  target_column data target = Some name →
  getitem name data = Ok cells →
  std_ddof0_is_zero float_sum cells = Ok true →
  parse_and_validate_date_data data pre post = Ok periods →
  let run := init_of data pre post drop_nan target standardize dtype ∅ in
  _validate_data_and_columns float_sum data target
  = Raise (ValueError "Input response cannot be constant.") ∧
  run = (<["post_intervention_period" := APeriod Scaler periods.2]>
           (<["pre_intervention_period" := APeriod Scaler periods.1]> ∅),
         Raise (ValueError "Input response cannot be constant.")) ∧
  run.1 !! "data" = None ∧
  run.1 !! "pre_intervention_data" = None ∧
  run.1 !! "after_pre_intervention_data" = None ∧
  run.1 !! "normalized_pre_intervention_data" = None ∧
  run.1 !! "normalized_after_pre_intervention_data" = None.
Proof.
  intros Ht Hg Hz Hp. cbv zeta.
  assert (_validate_data_and_columns float_sum data target
          = Raise (ValueError "Input response cannot be constant.")) as Hv.
  { unfold _validate_data_and_columns.
    assert (match target with
            | Some name => Ok name
            | None => match columns data with
                      | c :: _ => Ok c
                      | [] => Raise (IndexError "index 0 is out of bounds")
                      end
            end = Ok name) as ->.
    { destruct target; cbn in Ht; [congruence|].
      destruct (columns data); cbn in Ht; congruence. }
    cbn [mbind result_bind].
    assert (mem name (columns data) = true) as ->.
    { unfold getitem in Hg. by destruct (mem name (columns data)). }
    cbn [negb]. rewrite Hg. cbn [mbind result_bind]. by rewrite Hz. }
  split; [exact Hv|].
  unfold __init__, init_bind, call, setattr, init_ret.
  rewrite Hp, Hv. split_and!; done.
Qed.

End Constructor.

End DataExtra.

(** ** More on the plot tables *)

Module PlotExtra.
Import PyFacts PandasFacts TableFacts Plot PlotFacts PivotFacts PlotSpec.

Lemma elem_of_extracted (series : DataFrame) (component c : string) :
  c ∈ extracted_columns series component → c ∈ columns series.
Proof. unfold extracted_columns. by intros [? _]%filter_elem_of. Qed.

Lemma melted_missing_base (series : DataFrame) (component c : string) :
  c ∈ base_columns → c ∉ columns series →
  ∃ msg, melted series component = Raise (KeyError msg).
Proof.
  intros Hc Hn. unfold melted, select.
  rewrite extracted_has_columns. cbn [mbind result_bind]. unfold melt.
  destruct (has_columns base_columns _) eqn:E; [|by eexists].
  rewrite has_columns_spec in E. specialize (E c Hc). cbn [columns] in E.
  by apply elem_of_extracted in E.
Qed.

Section Extractor.

Variable normal_quantile : Q → Q.
Variable set_iter : list string → list string.

Local Abbreviation component_df :=
  (_create_plot_component_df normal_quantile set_iter).
Local Abbreviation plot_df_of := (_create_plot_df normal_quantile set_iter).
Local Abbreviation plot_of := (plot normal_quantile set_iter).

(** X12: every component needs the time column and the four period
    columns: when the table lacks one of them the extractor raises a
    KeyError (from [melt]), whatever the component and [alpha]. *)
Theorem missing_base_column_rejected (series : DataFrame)
    (component c : string) (alpha : pyval) :
  component ∈ valid_components →
  c ∈ base_columns → c ∉ columns series →
  ∃ msg, component_df series component alpha = Raise (KeyError msg).
Proof.
  intros Hv%mem_spec Hc Hn. unfold _create_plot_component_df.
  rewrite Hv. cbn [negb].
  destruct (melted_missing_base series component c Hc Hn) as (msg & ->).
  by exists msg.
Qed.

(** X13: [plot] on a table that lacks a period column raises a
    KeyError, whatever the options are (the backend is not looked at
    before), and the caller's table has got its [time] column all the
    same. *)
Theorem plot_needs_period_columns (series : DataFrame)
    (kwargs : gmap string pyval) (c : string) :
  c ∈ period_columns → c ∉ columns series →
  ∃ msg,
    plot_of series kwargs
    = (setitem "time" (λ i _, Stamp i) series, Raise (KeyError msg)).
Proof.
  intros Hc Hn. unfold plot, _create_plot_df.
  assert (c ∈ base_columns) as Hb by (by right).
  assert (c ≠ "time") as Hne.
  { intros ->. unfold period_columns in Hc.
    repeat (apply elem_of_cons in Hc as [[=]|Hc]). by apply elem_of_nil in Hc. }
  assert (c ∉ columns (setitem "time" (λ i _, Stamp i) series)) as Hn'.
  { rewrite columns_setitem. destruct (mem "time" _); [done|].
    intros [?|?%list_elem_of_singleton]%elem_of_app; done. }
  unfold _create_plot_component_df.
  change (negb (mem "lines" valid_components)) with false. cbn match.
  destruct (melted_missing_base _ "lines" c Hb Hn') as (msg & ->).
  by exists msg.
Qed.

End Extractor.

(** X14: the naming scheme of the evaluation table is read back as
    intended: a column [<scale>_<stat>] gets the statistic [<stat>] and
    the scale [<scale>], the scale [posterior] being the original one. *)
Theorem column_names_read_back (scale stat : string) :
  scale ∈ ["posterior"; "point_effects"; "cumulative_effects"] →
  stat ∈ ["mean"; "median"; "lower"; "upper"; "std"] →
  scale_of (Str (scale +:+ "_" +:+ stat))
  = Str (if String.eqb scale "posterior" then "original" else scale) ∧
  stat_of (Str (scale +:+ "_" +:+ stat)) = Str stat.
Proof.
  intros Hs Ht.
  repeat (apply elem_of_cons in Hs as [->|Hs]);
    [| | | by apply elem_of_nil in Hs];
    (repeat (apply elem_of_cons in Ht as [->|Ht]);
       [| | | | | by apply elem_of_nil in Ht]);
    split; vm_compute; reflexivity.
Qed.

Section Bands.

Variable normal_quantile : Q → Q.
Variable set_iter : list string → list string.

Local Abbreviation component_df :=
  (_create_plot_component_df normal_quantile set_iter).
Local Abbreviation plot_df_of := (_create_plot_df normal_quantile set_iter).

Lemma bands_ok (series out : DataFrame) (alpha : pyval) :
  component_df series "bands" alpha = Ok out →
  ∃ d p,
    pivot_table_reset_index pivot_columns "stat" "value" d = Ok p ∧
    out = setitem "band_method" (λ _ _, Str "quantiles") p.
Proof.
  intros Hout. unfold _create_plot_component_df in Hout.
  change (negb (mem "bands" valid_components)) with false in Hout.
  cbn match in Hout.
  apply bind_ok in Hout as (m & Hm & Hout).
  apply bind_ok in Hout as (d & Hd & Hout).
  change (mem "bands" ["bands"; "std"]) with true in Hout.
  cbn match in Hout.
  apply bind_ok in Hout as (p & Hp & Hout).
  change (String.eqb "bands" "std") with false in Hout.
  change (String.eqb "bands" "bands") with true in Hout.
  cbn match in Hout. injection Hout as <-. by exists d, p.
Qed.

(** X15: every row of the bands component carries the band method
    [quantiles], no two rows have the same time, scale and periods, and
    [alpha] plays no part in it. *)
Theorem bands_component_stamped (series out : DataFrame) (alpha : pyval) :
  component_df series "bands" alpha = Ok out →
  "band_method" ∈ columns out ∧
  Forall (λ r, r !! "band_method" = Some (Str "quantiles")) (records out) ∧
  distinct_keys (key_of pivot_columns <$> records out) ∧
  ∀ alpha', component_df series "bands" alpha' = Ok out.
Proof.
  intros Hout. split_and!; [..|intros alpha'; exact Hout].
  all: apply bands_ok in Hout as (d & p & Hp & ->).
  - apply setitem_column.
  - rewrite records_setitem. apply Forall_fmap, Forall_forall.
    intros r _. cbn [compose]. by rewrite lookup_insert_eq.
  - replace (key_of pivot_columns <$> records _)
      with (key_of pivot_columns <$> records p).
    { apply (pivot_keys_distinct pivot_columns "stat" "value" d); [|done].
      apply (bool_decide_unpack _). vm_compute. exact I. }
    rewrite records_setitem, <- list_fmap_compose.
    apply list_fmap_ext. intros i r _. cbn [compose].
    apply eq_sym, key_of_insert_ne.
    apply mem_false. reflexivity.
Qed.

(** X16: [alpha] is only used for the bands made from a standard
    deviation: when no column of the table has [std] in its name,
    [_create_plot_df] gives the same result for every [alpha], be it not
    a number at all. *)
Theorem alpha_needs_std_column (series : DataFrame) (alpha alpha' : pyval) :
  (∀ c, c ∈ columns series → contains "std" c = false) →
  plot_df_of series alpha = plot_df_of series alpha'.
Proof.
  intros H. unfold _create_plot_df.
  assert (existsb (λ col, contains "std" col)
            (columns (setitem "time" (λ i _, Stamp i) series)) = false) as Hex.
  { apply existsb_false. intros c. rewrite columns_setitem.
    destruct (mem "time" _); [apply H|].
    intros [?|Hc%list_elem_of_singleton]%elem_of_app; [by apply H|].
    by rewrite Hc. }
  by rewrite Hex.
Qed.

Lemma length_bind_const {A B} (f : A → list B) (l : list A) (n : nat) :
  (∀ x, length (f x) = n) → length (l ≫= f) = (length l * n)%nat.
Proof.
  intros H. induction l as [|x l IH]; [done|].
  rewrite bind_cons, length_app, IH, H. cbn [length]. lia.
Qed.

(** X26: the lines component keeps every cell, missing ones included:
    it has one row for every row of the table and every extracted value
    column, with the time of the row, the cell as value, and the scale
    and statistic read from the name of the column. *)
Theorem lines_keep_every_cell (series out : DataFrame) (alpha : pyval) :
  component_df series "lines" alpha = Ok out →
  length (rows out)
  = (length (value_vars series "lines") * length (rows series))%nat ∧
  ∀ v r, v ∈ value_vars series "lines" → r ∈ records series →
    ∃ o, o ∈ records out ∧
         o !! "value" = Some (r !!! v) ∧
         o !! "time" = Some (r !!! "time") ∧
         o !! "scale" = Some (scale_of (Str v)) ∧
         o !! "stat" = Some (stat_of (Str v)).
Proof.
  intros (Hb & _ & Hr)%lines_ok. split.
  - assert (length (rows out) = length (records out)) as ->
      by (unfold records; by rewrite length_fmap).
    rewrite Hr. apply length_bind_const. intros v.
    unfold records. by rewrite !length_fmap.
  - intros v r Hv Hin. rewrite Hr.
    assert (mem v (extracted_columns series "lines") = true) as Hex.
    { apply mem_spec. by apply filter_elem_of in Hv as [? _]. }
    assert (mem "time" (extracted_columns series "lines") = true) as Ht.
    { apply mem_spec, base_extracted; [by apply mem_spec|].
      rewrite has_columns_spec in Hb. apply Hb. by apply mem_spec. }
    exists (delete "scale_stat" (classify_row (melt_row series "lines" v r))).
    assert (melt_row series "lines" v r !! "scale_stat" = Some (Str v)) as Hss.
    { unfold melt_row. cbn zeta. rewrite lookup_insert_ne by done.
      apply lookup_insert_eq. }
    apply classify_row_lookup in Hss as [Hs1 Hs2].
    split_and!.
    + apply list_elem_of_bind. exists v. split; [|done].
      apply list_elem_of_fmap. by exists r.
    + rewrite lookup_delete_ne by done. unfold classify_row, melt_row. cbn zeta.
      rewrite !lookup_insert_ne by done. rewrite lookup_insert_eq.
      by rewrite lookup_total_project.
    + rewrite lookup_delete_ne by done. unfold classify_row, melt_row. cbn zeta.
      rewrite !lookup_insert_ne by done. rewrite lookup_project.
      change (mem "time" base_columns) with true. cbn match.
      by rewrite lookup_total_project.
    + rewrite lookup_delete_ne by done. exact Hs1.
    + rewrite lookup_delete_ne by done. exact Hs2.
Qed.

End Bands.

Lemma capitalize_cases (c : cell) :
  categorical ["Observed"; "Mean"; "Median"] (str_capitalize c) =
  match c with
  | Str s => if mem (capitalize s) ["Observed"; "Mean"; "Median"]
             then Str (capitalize s) else NaN
  | _ => NaN
  end.
Proof. by destruct c. Qed.

Lemma suffixed_is_not_stat (c : string) : c +:+ "_y" ≠ "stat".
Proof.
  destruct c as [|a1 [|a2 [|a3 [|a4 c]]]]; cbv [String.app]; cbn [append];
    try discriminate.
  intros [= _ _ _ _ H]. destruct c; discriminate H.
Qed.

(** The labels of the lines table after the join, the column [stat]
    being kept as it is. *)
Lemma joined_lines (left right : DataFrame) (l : Row) (r : option Row)
    (c : string) :
  columns left = long_columns →
  c ∈ merge_keys ∨
    (c = "stat" ∧ left_label merge_keys left right "stat" = "stat") →
  joined merge_keys left right l r !! c = Some (l !!! c).
Proof.
  intros HL Hc. unfold joined. rewrite HL.
  unfold long_columns, base_columns. cbn [app fmap list_fmap].
  rewrite !(left_label_key merge_keys) by (by apply mem_spec).
  rewrite (left_label_key merge_keys _ _ "scale") by (by apply mem_spec).
  cbn [list_to_map foldr fst snd].
  destruct Hc as [Hc|[-> Hs]].
  - unfold merge_keys in Hc.
    destruct (left_label_cases merge_keys left right "value") as [->| ->];
      repeat (apply elem_of_cons in Hc as [->|Hc]);
      try (by apply elem_of_nil in Hc);
      rewrite ?lookup_insert_ne by done; apply lookup_insert_eq.
  - rewrite Hs.
    destruct (left_label_cases merge_keys left right "value") as [->| ->];
      rewrite !lookup_insert_ne by done; apply lookup_insert_eq.
Qed.

Section Frame.

Variable normal_quantile : Q → Q.
Variable set_iter : list string → list string.

Local Abbreviation component_df :=
  (_create_plot_component_df normal_quantile set_iter).
Local Abbreviation plot_df_of := (_create_plot_df normal_quantile set_iter).

(** X17: in every row of the frame [_create_plot_df] returns, [zero] is
    missing on the original scale and 0 on every other scale;
    [scale_pretty] is never missing: it is [Original] on the original
    scale, [Pointwise] on the scale [point_effects] and [Cumulative] on
    every other scale, known or not; [stat_pretty] is the capitalized
    statistic when that is [Observed], [Mean] or [Median], and missing
    otherwise. *)
Theorem derived_columns_of_plot_df (series series' out : DataFrame)
    (alpha : pyval) :
  plot_df_of series alpha = (series', Ok out) →
  Forall
    (λ o,
       o !! "zero" = Some (if eq_lit (o !!! "scale") "original"
                           then NaN else Num 0) ∧
       o !! "scale_pretty"
       = Some (Str (if eq_lit (o !!! "scale") "original" then "Original"
                    else if eq_lit (o !!! "scale") "point_effects"
                         then "Pointwise" else "Cumulative")) ∧
       o !! "stat_pretty"
       = Some (match o !!! "stat" with
               | Str s => if mem (capitalize s) ["Observed"; "Mean"; "Median"]
                          then Str (capitalize s) else NaN
               | _ => NaN
               end))
    (records out).
Proof.
  unfold _create_plot_df. intros [= _ H].
  apply bind_ok in H as (lines_df & _ & H).
  apply bind_ok in H as (bands_df & _ & H).
  apply bind_ok in H as (bands_df' & _ & H).
  apply bind_ok in H as (merged & _ & H).
  apply bind_ok in H as (? & _ & H).
  apply bind_ok in H as (? & _ & H).
  injection H as <-.
  rewrite !records_setitem, <- !list_fmap_compose.
  apply Forall_fmap, Forall_forall. intros r _. cbn [compose].
  repeat (rewrite lookup_total_insert_eq
          || rewrite lookup_total_insert_ne by done).
  split_and!.
  - rewrite !lookup_insert_ne by done. by rewrite lookup_insert_eq.
  - rewrite !lookup_insert_ne by done. rewrite lookup_insert_eq.
    destruct (eq_lit (r !!! "scale") "original"),
      (eq_lit (r !!! "scale") "point_effects"); reflexivity.
  - rewrite lookup_insert_eq. f_equal. apply capitalize_cases.
Qed.

(** X18: the left join loses no line and invents none: every row of
    the lines table is found in the frame [_create_plot_df] returns,
    with its time, scale, periods and statistic, and every row of that
    frame comes from a row of the lines table in this way. *)
Theorem left_join_keeps_lines (series series' out : DataFrame)
    (alpha : pyval) :
  plot_df_of series alpha = (series', Ok out) →
  ∃ lines,
    component_df series' "lines" (PFloat 0.05) = Ok lines ∧
    (∀ l, l ∈ records lines →
       ∃ o, o ∈ records out ∧
            ∀ c, c ∈ merge_keys ∨ c = "stat" → o !! c = Some (l !!! c)) ∧
    (∀ o, o ∈ records out →
       ∃ l, l ∈ records lines ∧
            ∀ c, c ∈ merge_keys ∨ c = "stat" → o !! c = Some (l !!! c)).
Proof.
  unfold _create_plot_df. intros [= <- H].
  apply bind_ok in H as (lines_df & Hlines & H).
  apply bind_ok in H as (bands_df & _ & H).
  apply bind_ok in H as (bands_df' & _ & H).
  apply bind_ok in H as (merged & Hmerge & H).
  apply bind_ok in H as (? & _ & H).
  apply bind_ok in H as (? & Hstat%getitem_ok & H).
  injection H as <-.
  exists lines_df. split; [done|].
  pose proof Hlines as (_ & Hlc & _)%lines_ok.
  pose proof Hmerge as (_ & _ & Hmc & Hmr)%merge_left_ok.
  assert (left_label merge_keys lines_df bands_df' "stat" = "stat") as Hs.
  { do 4 (apply elem_of_columns_setitem_inv in Hstat as [Hstat|[=]]).
    rewrite Hmc in Hstat.
    apply elem_of_app in Hstat
      as [(c & Hc & Hin)%list_elem_of_fmap|(c & Hc & Hin)%list_elem_of_fmap].
    - rewrite Hlc in Hin. unfold long_columns, base_columns in Hin.
      cbn [app] in Hin.
      destruct (left_label_cases merge_keys lines_df bands_df' c) as [E|E];
        rewrite E in Hc;
        repeat (apply elem_of_cons in Hin as [->|Hin]);
        try (by apply elem_of_nil in Hin); try discriminate Hc.
      exact E.
    - exfalso. unfold right_label in Hc.
      destruct (mem c (other_columns merge_keys lines_df)) eqn:E.
      + by apply eq_sym, suffixed_is_not_stat in Hc.
      + subst c. unfold other_columns in E. rewrite Hlc in E.
        discriminate E. }
  assert (∀ l r c, c ∈ merge_keys ∨ c = "stat" →
            joined merge_keys lines_df bands_df' l r !! c = Some (l !!! c))
    as Hj.
  { intros l r c Hc. apply joined_lines; [done|].
    destruct Hc as [?| ->]; [by left | by right]. }
  assert (∀ (m : Row) c, c ∈ merge_keys ∨ c = "stat" →
            ((λ r : Row,
                <["stat_pretty" :=
                    categorical ["Observed"; "Mean"; "Median"]
                      (r !!! "stat_pretty")]> r)
             ∘ (λ r : Row, <["stat_pretty" := str_capitalize (r !!! "stat")]> r)
             ∘ (λ r : Row,
                  <["scale_pretty" :=
                      categorical ["Original"; "Pointwise"; "Cumulative"]
                        (r !!! "scale_pretty")]> r)
             ∘ (λ r : Row,
                  <["scale_pretty" :=
                      let m := r !!! "scale" in
                      Str (if eq_lit m "original" then "Original"
                           else if eq_lit m "point_effects" then "Pointwise"
                                else "Cumulative")]> r)
             ∘ (λ r : Row,
                  <["zero" := if eq_lit (r !!! "scale") "original" then NaN
                              else r !!! "zero"]> r)
             ∘ (λ r : Row, <["zero" := Num 0]> r)) m !! c = m !! c) as Hset.
  { intros m c Hc. cbn [compose].
    destruct Hc as [Hc| ->]; [|by rewrite !lookup_insert_ne by done].
    unfold merge_keys in Hc.
    repeat (apply elem_of_cons in Hc as [->|Hc]);
      [by rewrite !lookup_insert_ne by done..|].
    by apply elem_of_nil in Hc. }
  rewrite !records_setitem, <- !list_fmap_compose.
  split.
  - intros l Hl.
    destruct (merge_left_keeps _ _ _ _ l Hmerge Hl) as (r & Hin & _).
    eexists. split; [apply list_elem_of_fmap; eexists; split; [reflexivity|exact Hin]|].
    intros c Hc. by rewrite Hset, Hj.
  - intros o (m & -> & Hm)%list_elem_of_fmap.
    apply Hmr in Hm as (l & r & Hl & ->).
    exists l. split; [done|]. intros c Hc. by rewrite Hset, Hj.
Qed.

End Frame.

Section Plotting.

Variable normal_quantile : Q → Q.
Variable set_iter : list string → list string.

Local Abbreviation component_df :=
  (_create_plot_component_df normal_quantile set_iter).
Local Abbreviation plot_df_of := (_create_plot_df normal_quantile set_iter).
Local Abbreviation plot_of := (plot normal_quantile set_iter).

(** The columns the filters of [plot] read are in every frame
    [_create_plot_df] returns. *)
Lemma plot_df_columns (series series' out : DataFrame) (alpha : pyval) :
  plot_df_of series alpha = (series', Ok out) →
  "band_method" ∈ columns out ∧ "stat" ∈ columns out ∧
  "stat_pretty" ∈ columns out.
Proof.
  unfold _create_plot_df. intros [= _ H].
  apply bind_ok in H as (lines_df & Hlines & H).
  apply bind_ok in H as (bands_df & Hbands & H).
  apply bind_ok in H as (bands_df' & Hbands' & H).
  apply bind_ok in H as (merged & Hmerge & H).
  apply bind_ok in H as (? & _ & H).
  apply bind_ok in H as (? & Hstat%getitem_ok & H).
  injection H as <-.
  split_and!.
  - do 6 apply elem_of_columns_setitem.
    apply lines_ok in Hlines as (_ & Hlc & _).
    apply merge_left_ok in Hmerge as (_ & _ & -> & _).
    apply elem_of_app. right. apply list_elem_of_fmap.
    exists "band_method". split.
    { unfold right_label, other_columns. by rewrite Hlc. }
    apply filter_elem_of. split; [|done].
    apply (bands_ok normal_quantile set_iter) in Hbands as (d & p & _ & ->).
    destruct (existsb _ _).
    + apply bind_ok in Hbands' as (std_df & _ & [= <-]).
      cbn [concat_sorted columns].
      rewrite merge_sort_Permutation. apply elem_of_nub_eqb.
      apply elem_of_app. left. apply setitem_column.
    + injection Hbands' as <-. apply setitem_column.
  - by do 2 apply elem_of_columns_setitem.
  - apply elem_of_columns_setitem, setitem_column.
Qed.

Lemma plot_table (series : DataFrame) (kwargs : gmap string pyval) :
  (plot_of series kwargs).1 = setitem "time" (λ i _, Stamp i) series.
Proof. reflexivity. Qed.

(** X19: [plot] fails where [_create_plot_df] fails, with the same
    exception; once the frame is built, the backend alone decides:
    [altair] gives the classic plot when [static_plot] holds (and then
    no row of statistic [median] is drawn) and the interactive plot
    otherwise, [matplotlib] gives the matplotlib plot, and any other
    backend is a ValueError.  The renderer gets the effective
    parameters as keyword arguments. *)
Theorem renderer_follows_backend (series : DataFrame)
    (kwargs : gmap string pyval) :
  let params := effective_plot_params kwargs in
  match (plot_df_of series (params !!! "alpha")).2 with
  | Raise e => (plot_of series kwargs).2 = Raise e
  | Ok _ =>
      if eq_str (params !!! "backend") "altair" then
        if truthy (params !!! "static_plot") then
          ∃ df, (plot_of series kwargs).2 = Ok (draw_classic_plot df params) ∧
                Forall (λ r, ne_lit (r !!! "stat") "median" = true) (records df)
        else
          ∃ df, (plot_of series kwargs).2 = Ok (draw_interactive_plot df params)
      else if eq_str (params !!! "backend") "matplotlib" then
        ∃ df, (plot_of series kwargs).2 = Ok (draw_matplotlib_plot df params)
      else
        ∃ msg, (plot_of series kwargs).2 = Raise (ValueError msg)
  end.
Proof.
  cbv zeta. unfold plot.
  destruct (plot_df_of series (effective_plot_params kwargs !!! "alpha"))
    as [s [main|e]] eqn:E; cbn [snd]; [|done].
  destruct (plot_df_columns _ _ _ _ E) as (Hb & Hs & Hp).
  cbn [mbind result_bind].
  rewrite (getitem_in "band_method") by done. cbn [mbind result_bind].
  set (banded := if truthy (effective_plot_params kwargs !!! "use_std_intervals")
                 then loc (λ _ r, ne_lit (r !!! "band_method") "quantile") main
                 else loc (λ _ r, ne_lit (r !!! "band_method") "std") main).
  assert (columns banded = columns main) as Hc
    by (unfold banded; by destruct (truthy _)).
  set (shown := if truthy (effective_plot_params kwargs !!! "show_median")
                then _ else Ok banded).
  assert (∃ df, shown = Ok df ∧ "stat" ∈ columns df) as (df & -> & Hdf).
  { unfold shown. destruct (truthy (_ !!! "show_median")).
    - rewrite (getitem_in "stat") by (by rewrite Hc). cbn [mbind result_bind].
      rewrite (getitem_in "stat_pretty") by (cbn [loc columns]; by rewrite Hc).
      cbn [mbind result_bind]. eexists. split; [reflexivity|].
      apply elem_of_columns_setitem. cbn [loc columns]. by rewrite Hc.
    - exists banded. split; [done|]. by rewrite Hc. }
  cbn [mbind result_bind].
  destruct (eq_str _ "altair").
  - destruct (truthy (_ !!! "static_plot")).
    + rewrite (getitem_in "stat") by done. cbn [mbind result_bind].
      eexists. split; [reflexivity|].
      rewrite records_loc. apply Forall_forall.
      by intros r [_ Hr]%filter_elem_of.
    + by eexists.
  - destruct (eq_str _ "matplotlib"); by eexists.
Qed.

Local Abbreviation unlabelled r m :=
  (∀ c : string, c ≠ "stat_pretty" → (r : Row) !! c = (m : Row) !! c).

Local Abbreviation traced df main :=
  ((∀ r, r ∈ records df → ∃ m, m ∈ records main ∧ unlabelled r m) ∧
   (∀ m, m ∈ records main →
         isna (m !!! "band_method") = true →
         ne_lit (m !!! "stat") "median" = true →
         ∃ r, r ∈ records df ∧ unlabelled r m) ∧
   sublist (index df) (index main)).

Lemma traced_refl (main : DataFrame) : traced main main.
Proof. split_and!; [by eauto..|done]. Qed.

Lemma unlabelled_total (r m : Row) (c : string) :
  unlabelled r m → c ≠ "stat_pretty" → r !!! c = m !!! c.
Proof. intros H Hc. rewrite !lookup_total_alt. by rewrite H. Qed.

Lemma traced_loc (p : Row → bool) (df main : DataFrame) :
  (∀ r m, unlabelled r m → p r = p m) →
  (∀ m, isna (m !!! "band_method") = true →
        ne_lit (m !!! "stat") "median" = true → p m = true) →
  traced df main → traced (loc (λ _ r, p r) df) main.
Proof.
  intros Hp Hgood (H1 & H2 & H3). rewrite records_loc. split_and!.
  - intros r [Hr _]%filter_elem_of. by apply H1.
  - intros m Hm Hb Hs. destruct (H2 m Hm Hb Hs) as (r & Hr & Hrm).
    exists r. split; [|done]. apply filter_elem_of. split; [done|].
    rewrite (Hp r m Hrm). by apply Hgood.
  - etrans; [|exact H3]. unfold index. cbn [loc rows].
    apply fmap_sublist, sublist_bool_filter.
Qed.

Lemma traced_setitem (g : Row → cell) (df main : DataFrame) :
  traced df main → traced (setitem "stat_pretty" (λ _ r, g r) df) main.
Proof.
  intros (H1 & H2 & H3). rewrite records_setitem, index_setitem. split_and!.
  - intros ? (r & -> & Hr)%list_elem_of_fmap.
    destruct (H1 r Hr) as (m & Hm & Hrm). exists m. split; [done|].
    intros c Hc. rewrite lookup_insert_ne by done. by apply Hrm.
  - intros m Hm Hb Hs. destruct (H2 m Hm Hb Hs) as (r & Hr & Hrm).
    eexists. split; [apply list_elem_of_fmap; by eexists|].
    intros c Hc. rewrite lookup_insert_ne by done. by apply Hrm.
  - done.
Qed.

(** X20: [plot] only drops rows and relabels statistics: every row
    handed to the renderer is a row of the frame [_create_plot_df]
    returned, but for its [stat_pretty]; a row of that frame whose band
    method is missing (a time with no uncertainty band, as outside the
    periods) and whose statistic is not the median is always handed
    over; and the rows keep their labels and their order. *)
Theorem renderer_rows_come_from_frame (series : DataFrame)
    (kwargs : gmap string pyval) (call : render_call) :
  (plot_of series kwargs).2 = Ok call →
  ∃ main,
    (plot_df_of series (effective_plot_params kwargs !!! "alpha")).2 = Ok main ∧
    (∀ r, r ∈ records (renderer_input call) →
       ∃ m, m ∈ records main ∧
            ∀ c, c ≠ "stat_pretty" → r !! c = m !! c) ∧
    (∀ m, m ∈ records main →
       isna (m !!! "band_method") = true →
       ne_lit (m !!! "stat") "median" = true →
       ∃ r, r ∈ records (renderer_input call) ∧
            ∀ c, c ≠ "stat_pretty" → r !! c = m !! c) ∧
    sublist (index (renderer_input call)) (index main).
Proof.
  unfold plot.
  destruct (plot_df_of series (effective_plot_params kwargs !!! "alpha"))
    as [s [main|e]] eqn:E; cbn [snd]; [|done].
  intros H. exists main. split; [done|].
  apply bind_ok in H as (? & [= <-] & H).
  apply bind_ok in H as (_ & _ & H).
  apply bind_ok in H as (shown & Hshown & H).
  assert (∀ s (r m : Row), unlabelled r m →
            ne_lit (r !!! "band_method") s = ne_lit (m !!! "band_method") s)
    as Hband.
  { intros ? r m Hrm. by rewrite (unlabelled_total r m "band_method"). }
  assert (∀ r m : Row, unlabelled r m →
            ne_lit (r !!! "stat") "median" = ne_lit (m !!! "stat") "median")
    as Hstat.
  { intros r m Hrm. by rewrite (unlabelled_total r m "stat"). }
  assert (∀ s (m : Row), isna (m !!! "band_method") = true →
                 ne_lit (m !!! "stat") "median" = true →
                 ne_lit (m !!! "band_method") s = true) as Hna.
  { intros ? m Hm _. by destruct (m !!! "band_method"). }
  set (banded := if truthy (effective_plot_params kwargs !!! "use_std_intervals")
                 then loc (λ _ r, ne_lit (r !!! "band_method") "quantile") main
                 else loc (λ _ r, ne_lit (r !!! "band_method") "std") main)
    in Hshown.
  assert (traced banded main) as Hbanded.
  { unfold banded. destruct (truthy _);
      (apply (traced_loc (λ r, ne_lit (r !!! "band_method") _));
       [by apply Hband | by apply Hna | by apply traced_refl]). }
  assert (traced shown main) as Htraced.
  { destruct (truthy (_ !!! "show_median")).
    - apply bind_ok in Hshown as (_ & _ & Hshown).
      apply bind_ok in Hshown as (_ & _ & [= <-]).
      apply (traced_setitem
               (λ r, categorical ["Observed"; "Mean"] (r !!! "stat_pretty"))).
      by apply (traced_loc (λ r, ne_lit (r !!! "stat") "median")).
    - by injection Hshown as <-. }
  destruct (eq_str _ "altair").
  - destruct (truthy (_ !!! "static_plot")).
    + apply bind_ok in H as (_ & _ & [= <-]). cbn [renderer_input].
      by apply (traced_loc (λ r, ne_lit (r !!! "stat") "median")).
    + by injection H as <-.
  - destruct (eq_str _ "matplotlib"); [|done]. by injection H as <-.
Qed.

(** X21: the effective parameters have the names of the defaults and no
    other: an option given under one of these names replaces the
    default, a name that is not given keeps its default, and any other
    option is dropped. *)
Theorem plot_params_keep_default_names (kwargs : gmap string pyval)
    (k : string) :
  (is_Some (effective_plot_params kwargs !! k)
   ↔ is_Some (default_plot_params !! k)) ∧
  (∀ v, kwargs !! k = Some v → is_Some (default_plot_params !! k) →
        effective_plot_params kwargs !! k = Some v) ∧
  (kwargs !! k = None →
   effective_plot_params kwargs !! k = default_plot_params !! k).
Proof.
  rewrite effective_lookup. split_and!.
  - by rewrite fmap_is_Some.
  - intros v -> [d ->]. done.
  - intros ->. by destruct (default_plot_params !! k).
Qed.

(** The frame [_create_plot_df] returns is labelled [0 .. n-1] and has
    the period columns. *)
Lemma plot_df_index (series series' out : DataFrame) (alpha : pyval) :
  plot_df_of series alpha = (series', Ok out) →
  index out = Z.of_nat <$> seq 0 (length (rows out)) ∧
  ∀ c, c ∈ period_columns → c ∈ columns out.
Proof.
  unfold _create_plot_df. intros [= _ H].
  apply bind_ok in H as (lines_df & Hlines & H).
  apply bind_ok in H as (bands_df & _ & H).
  apply bind_ok in H as (bands_df' & _ & H).
  apply bind_ok in H as (merged & Hmerge & H).
  apply bind_ok in H as (? & _ & H).
  apply bind_ok in H as (? & _ & H).
  injection H as <-. split.
  - rewrite !index_setitem, !length_rows_setitem.
    by apply index_merge_left in Hmerge.
  - intros c Hc. do 6 apply elem_of_columns_setitem.
    apply lines_ok in Hlines as (_ & Hlc & _).
    apply merge_left_ok in Hmerge as (_ & _ & -> & _).
    rewrite Hlc. apply elem_of_app. left.
    apply list_elem_of_fmap. exists c.
    assert (c ∈ merge_keys ∧ c ∈ long_columns) as [Hk Hl].
    { unfold period_columns in Hc.
      repeat (apply elem_of_cons in Hc as [->|Hc]);
        [split; by apply mem_spec..|].
      by apply elem_of_nil in Hc. }
    split; [by rewrite left_label_key|done].
Qed.

End Plotting.

End PlotExtra.

(** ** The first steps of the renderers *)

Module RenderersExtra.
Import PyFacts PandasFacts TableFacts Plot PlotFacts PivotFacts PlotSpec.
Import PlotExtra Renderers.

Lemma dict_of_pairs_snoc (l : list (string * string)) (k v : string) :
  dict_of_pairs (l ++ [(k, v)]) = <[k := v]> (dict_of_pairs l).
Proof. unfold dict_of_pairs. by rewrite reverse_snoc. Qed.

(** The value of a key is the one of its last pair. *)
Lemma dict_of_pairs_last (l : list (string * string)) (k v : string)
    (i : nat) :
  l !! i = Some (k, v) →
  (∀ j v', (i < j)%nat → l !! j ≠ Some (k, v')) →
  dict_of_pairs l !! k = Some v.
Proof.
  revert i. induction l as [|[k' v'] l IH] using rev_ind; intros i Hi Hlast.
  - done.
  - rewrite dict_of_pairs_snoc.
    destruct (decide (i = length l)) as [->|Hne].
    + rewrite lookup_app_r, Nat.sub_diag in Hi by done.
      injection Hi as -> ->. apply lookup_insert_eq.
    + assert (i < length l)%nat as Hlt.
      { apply lookup_lt_Some in Hi. rewrite length_app in Hi. cbn in Hi. lia. }
      rewrite lookup_app_l in Hi by done.
      assert (k' ≠ k) as Hk.
      { intros ->. apply (Hlast (length l) v'); [done|].
        by rewrite lookup_app_r, Nat.sub_diag. }
      rewrite lookup_insert_ne by done.
      apply (IH i); [done|]. intros j v'' Hj Hl.
      apply (Hlast j v''); [done|].
      rewrite lookup_app_l; [done|]. by apply lookup_lt_Some in Hl.
Qed.

Lemma dict_of_pairs_none (l : list (string * string)) (k : string) :
  k ∉ l.*1 → dict_of_pairs l !! k = None.
Proof.
  intros H. apply not_elem_of_list_to_map_1.
  by rewrite fmap_reverse, elem_of_reverse.
Qed.

(** X22: a unit given as one string is the unit of every subplot (the
    fallback unit is never used), and of nothing else. *)
Theorem string_unit_for_every_subplot (unit : string)
    (y_labels : list string) :
  ∃ units,
    process_y_formatter_units (PStr unit) y_labels = Ok units ∧
    (∀ l, units !! l = if mem l y_labels then Some unit else None) ∧
    subplot_units units y_labels = (λ l, (l, unit)) <$> take 3 y_labels.
Proof.
  eexists. split; [reflexivity|].
  assert (∀ l, dict_of_pairs ((λ label, (label, unit)) <$> y_labels) !! l
               = if mem l y_labels then Some unit else None) as Hl.
  { intros l. destruct (mem l y_labels) eqn:E.
    - apply mem_spec in E. unfold dict_of_pairs.
      apply elem_of_list_to_map_1'.
      + intros y. rewrite elem_of_reverse.
        by intros (? & [= _ ->] & _)%list_elem_of_fmap.
      + rewrite elem_of_reverse. apply list_elem_of_fmap. by exists l.
    - apply mem_false in E. apply dict_of_pairs_none.
      rewrite <- list_fmap_compose. by rewrite list_fmap_id. }
  split; [exact Hl|].
  unfold subplot_units. apply list_fmap_ext. intros i l Hi.
  rewrite Hl.
  assert (mem l y_labels = true) as ->; [|done].
  apply mem_spec. apply list_elem_of_lookup_2 in Hi.
  by apply (subseteq_take 3).
Qed.

(** X23: a unit list as long as the list of labels is read by
    position: a label has the unit at the place of its last
    occurrence, so that with labels that are all different the subplots
    get the first three units in order.  A list of another length is a
    ValueError. *)
Theorem unit_list_is_positional (units y_labels : list string) :
  if (length units =? length y_labels)%nat then
    ∃ m,
      process_y_formatter_units (PStrList units) y_labels = Ok m ∧
      (∀ i l, y_labels !! i = Some l →
              (∀ j, (i < j)%nat → y_labels !! j ≠ Some l) →
              m !! l = units !! i) ∧
      (NoDup y_labels →
       subplot_units m y_labels = take 3 (zip y_labels units))
  else
    ∃ msg,
      process_y_formatter_units (PStrList units) y_labels
      = Raise (ValueError msg).
Proof.
  unfold process_y_formatter_units.
  destruct (length units =? length y_labels)%nat eqn:E; cbn [negb];
    [|by eexists].
  apply Nat.eqb_eq in E. eexists. split; [reflexivity|].
  assert (∀ i l, y_labels !! i = Some l →
                 (∀ j, (i < j)%nat → y_labels !! j ≠ Some l) →
                 dict_of_pairs (zip y_labels units) !! l = units !! i) as Hpos.
  { intros i l Hi Hlast.
    destruct (units !! i) as [u|] eqn:Hu.
    - apply (dict_of_pairs_last _ l u i).
      + apply lookup_zip_with_Some. by exists l, u.
      + intros j v' Hj (l' & u' & [= <- <-] & Hl & _)%lookup_zip_with_Some.
        by apply (Hlast j).
    - apply lookup_ge_None in Hu. apply lookup_lt_Some in Hi. lia. }
  split; [exact Hpos|].
  intros Hnd. unfold subplot_units. apply list_eq. intros i.
  rewrite list_lookup_fmap.
  destruct (decide (i < 3)%nat) as [Hi|Hi].
  - rewrite !lookup_take_lt by done.
    destruct (y_labels !! i) as [l|] eqn:Hl; cbn.
    + rewrite (Hpos i l Hl).
      * destruct (units !! i) as [u|] eqn:Hu.
        -- symmetry. apply lookup_zip_with_Some. by exists l, u.
        -- apply lookup_ge_None in Hu. apply lookup_lt_Some in Hl. lia.
      * intros j Hj Hl'. pose proof (NoDup_lookup _ _ _ _ Hnd Hl Hl'). lia.
    + symmetry. apply lookup_zip_with_None. by left.
  - rewrite !lookup_take_ge by lia. done.
Qed.

Section Layers.

Variable normal_quantile : Q → Q.
Variable set_iter : list string → list string.

Local Abbreviation plot_df_of := (_create_plot_df normal_quantile set_iter).
Local Abbreviation plot_of := (plot normal_quantile set_iter).
Local Abbreviation periods_of := (base_layer_periods set_iter).

(** X24: a table that lacks a period column is refused by
    [_create_base_layers] with a KeyError whose message names every
    missing column, in whatever order the set is iterated. *)
Theorem missing_period_columns_named (plot_df : DataFrame) (c : string) :
  (∀ l, set_iter l ≡ₚ l) →
  c ∈ period_columns → c ∉ columns plot_df →
  ∃ msg, periods_of plot_df = Raise (KeyError msg) ∧
         ∀ c', c' ∈ period_columns → c' ∉ columns plot_df →
               contains c' msg = true.
Proof.
  intros Hperm Hc Hn. unfold base_layer_periods. cbv zeta.
  assert (∀ c', c' ∈ period_columns → c' ∉ columns plot_df →
            c' ∈ List.filter (λ c, negb (mem c (columns plot_df)))
                   period_columns) as Hin.
  { intros c' Hc' Hn'. apply filter_elem_of. split; [done|].
    by apply negb_true_iff, mem_false. }
  change ["pre_period_start"; "pre_period_end";
          "post_period_start"; "post_period_end"] with period_columns.
  destruct (List.filter _ period_columns) as [|m ms] eqn:E.
  { specialize (Hin c Hc Hn). by apply elem_of_nil in Hin. }
  rewrite bool_decide_false by done. cbn [negb].
  eexists. split; [reflexivity|].
  intros c' Hc' Hn'. apply contains_app_r, repr_set_contains.
  rewrite Hperm. by apply Hin.
Qed.

Lemma base_layer_periods_rows (plot_df : DataFrame) :
  (∀ c, c ∈ period_columns → c ∈ columns plot_df) →
  periods_of plot_df =
  match List.filter (λ ir, (ir.1 =? 0)%Z) (rows plot_df) with
  | [] => Raise (KeyError "0")
  | [ir] => Ok ((λ c, (c, at_scalar (ir.2 !!! c))) <$> period_columns)
  | irs =>
      Ok ((λ c, (c, at_series ((λ ir : Z * Row, ir.2 !!! c) <$> irs)))
          <$> period_columns)
  end.
Proof.
  intros Hcols. unfold base_layer_periods. cbv zeta.
  change ["pre_period_start"; "pre_period_end";
          "post_period_start"; "post_period_end"] with period_columns.
  assert (List.filter (λ c, negb (mem c (columns plot_df))) period_columns = [])
    as ->.
  { apply bool_filter_none. intros c Hc.
    by apply negb_false_iff, mem_spec, Hcols. }
  rewrite bool_decide_true by done. cbn [negb].
  assert (∀ c, c ∈ period_columns → mem c (columns plot_df) = true) as Hm.
  { intros c Hc. by apply mem_spec, Hcols. }
  unfold period_columns in *. cbn [mapM fmap list_fmap]. unfold at_.
  rewrite !Hm by (apply mem_spec; reflexivity).
  by destruct (List.filter _ (rows plot_df)) as [|ir [|ir' irs]].
Qed.

(** X25: the classic plot reads the periods from the row labelled 0,
    and the filters of [plot] keep the labels: the periods are those of
    the first row of the frame [_create_plot_df] returned when that row
    passes the band filter and is not a median row, and otherwise
    (also when the frame is empty) [_create_base_layers] raises
    [KeyError: 0]. *)
Theorem classic_plot_reads_row_zero (series : DataFrame)
    (kwargs kw : gmap string pyval) (df : DataFrame) :
  (plot_of series kwargs).2 = Ok (draw_classic_plot df kw) →
  let params := effective_plot_params kwargs in
  ∃ main,
    (plot_df_of series (params !!! "alpha")).2 = Ok main ∧
    match rows main with
    | (i, m) :: _ =>
        i = 0%Z ∧
        if ne_lit (m !!! "band_method")
                  (if truthy (params !!! "use_std_intervals")
                   then "quantile" else "std")
           && ne_lit (m !!! "stat") "median"
        then periods_of df
             = Ok ((λ c, (c, at_scalar (m !!! c))) <$> period_columns)
        else periods_of df = Raise (KeyError "0")
    | [] => periods_of df = Raise (KeyError "0")
    end.
Proof.
  cbv zeta. unfold plot.
  destruct (plot_df_of series (effective_plot_params kwargs !!! "alpha"))
    as [s [main|e]] eqn:E; cbn [snd]; [|done].
  intros H. exists main. split; [done|].
  destruct (plot_df_index _ _ _ _ _ _ E) as (Hidx & Hcols).
  apply label_zero_range in Hidx.
  apply bind_ok in H as (? & [= <-] & H).
  apply bind_ok in H as (_ & _ & H).
  apply bind_ok in H as (shown & Hshown & H).
  destruct (eq_str _ "altair"); [|by destruct (eq_str _ "matplotlib")].
  destruct (truthy (_ !!! "static_plot")); [|done].
  apply bind_ok in H as (_ & _ & [= <- _]).
  set (band := if truthy (effective_plot_params kwargs !!! "use_std_intervals")
               then "quantile" else "std").
  set (banded := if truthy (effective_plot_params kwargs !!! "use_std_intervals")
                 then loc (λ _ r, ne_lit (r !!! "band_method") "quantile") main
                 else loc (λ _ r, ne_lit (r !!! "band_method") "std") main)
    in Hshown.
  assert (banded = loc (λ _ r, ne_lit (r !!! "band_method") band) main) as Hb
    by (unfold banded, band; by destruct (truthy _)).
  clearbody banded band. subst banded.
  rewrite base_layer_periods_rows.
  2:{ intros c Hc. cbn [loc columns].
      destruct (truthy (_ !!! "show_median")).
      - apply bind_ok in Hshown as (_ & _ & Hshown).
        apply bind_ok in Hshown as (_ & _ & [= <-]).
        apply elem_of_columns_setitem. cbn [loc columns]. by apply Hcols.
      - injection Hshown as <-. cbn [loc columns]. by apply Hcols. }
  rewrite (label_zero_loc (λ r, ne_lit (r !!! "stat") "median")).
  destruct (truthy (_ !!! "show_median")).
  - apply bind_ok in Hshown as (_ & _ & Hshown).
    apply bind_ok in Hshown as (_ & _ & [= <-]).
    rewrite (label_zero_setitem "stat_pretty"
               (λ r, categorical ["Observed"; "Mean"] (r !!! "stat_pretty"))).
    rewrite (label_zero_loc (λ r, ne_lit (r !!! "stat") "median")).
    rewrite (label_zero_loc (λ r, ne_lit (r !!! "band_method") band)).
    rewrite Hidx.
    destruct (rows main) as [|[i m] rest] eqn:Hrows; [reflexivity|].
    assert (i = 0%Z) as ->.
    { assert (List.filter (λ ir : Z * Row, (ir.1 =? 0)%Z) ((i, m) :: rest)
              = [(i, m)]) as Hi by exact Hidx.
      cbn [List.filter fst] in Hi.
      destruct (i =? 0)%Z eqn:Hz; [by apply Z.eqb_eq in Hz|].
      assert ((i, m) ∈ List.filter (λ ir : Z * Row, (ir.1 =? 0)%Z) rest)
        as Hin by (rewrite Hi; by left).
      apply filter_elem_of in Hin as [_ Hin]. cbn in Hin. congruence. }
    split; [done|]. cbn [take List.filter snd].
    destruct (ne_lit (m !!! "band_method") band);
      cbn [List.filter andb fmap list_fmap]; [|reflexivity].
    destruct (ne_lit (m !!! "stat") "median") eqn:Hmed;
      cbn [fmap list_fmap List.filter fst snd]; rewrite ?Hmed;
      cbn [fmap list_fmap List.filter fst snd]; [|reflexivity].
    rewrite lookup_total_insert_ne by done. rewrite Hmed.
    f_equal. apply list_fmap_ext. intros j c Hc. cbn [snd].
    apply list_elem_of_lookup_2 in Hc.
    unfold period_columns in Hc.
    repeat (apply elem_of_cons in Hc as [->|Hc]);
      [by rewrite lookup_total_insert_ne by done..|].
    by apply elem_of_nil in Hc.
  - injection Hshown as <-.
    rewrite (label_zero_loc (λ r, ne_lit (r !!! "band_method") band)).
    rewrite Hidx.
    destruct (rows main) as [|[i m] rest] eqn:Hrows; [reflexivity|].
    assert (i = 0%Z) as ->.
    { assert (List.filter (λ ir : Z * Row, (ir.1 =? 0)%Z) ((i, m) :: rest)
              = [(i, m)]) as Hi by exact Hidx.
      cbn [List.filter fst] in Hi.
      destruct (i =? 0)%Z eqn:Hz; [by apply Z.eqb_eq in Hz|].
      assert ((i, m) ∈ List.filter (λ ir : Z * Row, (ir.1 =? 0)%Z) rest)
        as Hin by (rewrite Hi; by left).
      apply filter_elem_of in Hin as [_ Hin]. cbn in Hin. congruence. }
    split; [done|]. cbn [take List.filter snd].
    destruct (ne_lit (m !!! "band_method") band);
      cbn [List.filter andb]; [|reflexivity].
    destruct (ne_lit (m !!! "stat") "median") eqn:Hmed;
      cbn [List.filter snd]; rewrite ?Hmed; reflexivity.
Qed.

End Layers.

End RenderersExtra.

(** ** The dataset assembler at sample inputs *)

Module DataExtraWitnesses.
Import PyFacts PandasFacts Data DataSpec DataExtra Samples Fixtures.

Lemma ok_triple {A B C} (d : A * B * C) (r : result (A * B * C)) :
  is_ok r = true →
  r = Ok ((from_ok d r).1.1, (from_ok d r).1.2, (from_ok d r).2).
Proof. by destruct r as [[[??]?]|]. Qed.

Lemma run_ok {S A} (run : S * result A) (a : A) :
  run.2 = Ok a → run = (run.1, Ok a).
Proof. destruct run. by intros <-. Qed.

Lemma named_target_must_exist_witness :
  ("z" ∉ columns sample_data) ∧
  ∃ msg,
    _validate_data_and_columns sample_sum sample_data (Some "z") = Raise (KeyError msg) ∧
    contains "z" msg = true.
Proof.
  assert ("z" ∉ columns sample_data) as H by (apply mem_false; reflexivity).
  split; [exact H|].
  exact (named_target_must_exist sample_sum sample_data "z" H).
Defined.

Lemma validated_columns_target_first_witness :
  let r := _validate_data_and_columns sample_sum two_columns (Some "y") in
  let v := from_ok (empty_frame, EmptyString, None) r in
  r = Ok (v.1.1, v.1.2, v.2) ∧
  columns v.1.1 =
    v.1.2 :: List.filter (λ c, negb (String.eqb c v.1.2)) (columns two_columns) ∧
  default [] v.2 =
    List.filter (λ c, negb (String.eqb c v.1.2)) (columns two_columns) ∧
  (v.2 = None ↔ (length (columns two_columns) ≤ 1)%nat) ∧
  Forall2 (λ ir ir', ir'.1 = ir.1 ∧
                     ∀ c, c ∈ columns v.1.1 → ir'.2 !!! c = ir.2 !!! c)
          (rows two_columns) (rows v.1.1).
Proof.
  cbv zeta.
  assert (_validate_data_and_columns sample_sum two_columns (Some "y")
          = Ok ((from_ok (empty_frame, EmptyString, None)
                   (_validate_data_and_columns sample_sum two_columns (Some "y"))).1.1,
                (from_ok (empty_frame, EmptyString, None)
                   (_validate_data_and_columns sample_sum two_columns (Some "y"))).1.2,
                (from_ok (empty_frame, EmptyString, None)
                   (_validate_data_and_columns sample_sum two_columns (Some "y"))).2)) as H
    by (apply ok_triple; vm_compute; reflexivity).
  split; [exact H|].
  exact (validated_columns_target_first sample_sum two_columns _ (Some "y") _ _ H).
Defined.

Lemma validated_data_guarantees_witness :
  let r := _validate_data_and_columns sample_sum two_columns (Some "y") in
  let v := from_ok (empty_frame, EmptyString, None) r in
  r = Ok (v.1.1, v.1.2, v.2) ∧
  (3 ≤ length (rows two_columns))%nat ∧
  (3 ≤ count ((λ ir, ir.2 !!! v.1.2) <$> rows v.1.1))%nat ∧
  (∀ ir c, ir ∈ rows v.1.1 → c ∈ default [] v.2 →
           isna (ir.2 !!! c) = false) ∧
  (∀ ir c, ir ∈ rows v.1.1 → c ∈ columns v.1.1 →
           is_number (ir.2 !!! c) = true).
Proof.
  cbv zeta.
  assert (_validate_data_and_columns sample_sum two_columns (Some "y")
          = Ok ((from_ok (empty_frame, EmptyString, None)
                   (_validate_data_and_columns sample_sum two_columns (Some "y"))).1.1,
                (from_ok (empty_frame, EmptyString, None)
                   (_validate_data_and_columns sample_sum two_columns (Some "y"))).1.2,
                (from_ok (empty_frame, EmptyString, None)
                   (_validate_data_and_columns sample_sum two_columns (Some "y"))).2)) as H
    by (apply ok_triple; vm_compute; reflexivity).
  split; [exact H|].
  exact (validated_data_guarantees sample_sum two_columns _ (Some "y") _ _ H).
Defined.

Lemma unstandardized_construction_succeeds_witness :
  let r := _validate_data_and_columns sample_sum two_columns (Some "y") in
  sample_parse two_columns (0, 3)%Z (4, 5)%Z = Ok ((0, 3)%Z, (4, 5)%Z) ∧
  r = Ok (from_ok (empty_frame, EmptyString, None) r) ∧
  ∃ self, sample_init two_columns (0, 3)%Z (4, 5)%Z true (Some "y") false ∅
          = (self, Ok tt).
Proof.
  cbv zeta.
  assert (sample_parse two_columns (0, 3)%Z (4, 5)%Z = Ok ((0, 3)%Z, (4, 5)%Z))
    as Hp by reflexivity.
  assert (_validate_data_and_columns sample_sum two_columns (Some "y")
          = Ok (from_ok (empty_frame, EmptyString, None)
                  (_validate_data_and_columns sample_sum two_columns (Some "y")))) as Hv
    by (apply Witnesses.ok_from_ok; vm_compute; reflexivity).
  split; [exact Hp|]. split; [exact Hv|].
  exact (unstandardized_construction_succeeds
           sample_sum Z sample_parse unit sample_fit sample_transform
           two_columns (0, 3)%Z (4, 5)%Z true (Some "y") float32 _ _ Hp Hv).
Defined.

Lemma early_failure_assigns_no_table_witness :
  sample_parse sample_data (0, 1)%Z (2, 3)%Z = Ok ((0, 1)%Z, (2, 3)%Z) ∧
  _validate_data_and_columns sample_sum sample_data (Some "z")
  = Raise (KeyError "Specified `outcome_column` (z) not found in data") ∧
  sample_init sample_data (0, 1)%Z (2, 3)%Z true (Some "z") true ∅
  = (<["post_intervention_period" := APeriod unit (2, 3)%Z]>
       (<["pre_intervention_period" := APeriod unit (0, 1)%Z]> ∅),
     Raise (KeyError "Specified `outcome_column` (z) not found in data")).
Proof.
  assert (sample_parse sample_data (0, 1)%Z (2, 3)%Z = Ok ((0, 1)%Z, (2, 3)%Z))
    as Hp by reflexivity.
  assert (_validate_data_and_columns sample_sum sample_data (Some "z")
          = Raise (KeyError "Specified `outcome_column` (z) not found in data"))
    as Hv by reflexivity.
  split; [exact Hp|]. split; [exact Hv|].
  exact (proj2 (early_failure_assigns_no_table
                  sample_sum Z sample_parse unit sample_fit sample_transform
                  sample_data (0, 1)%Z (2, 3)%Z true (Some "z") true
                  float32 _)
               _ Hp Hv).
Defined.

Lemma forecast_steps_count_later_labels_witness :
  let run := two_columns_init true true in
  run = (run.1, Ok tt) ∧
  ∃ pre_period,
    run.1 !! "pre_intervention_period" = Some (APeriod unit pre_period) ∧
    run.1 !! "num_steps_forecast"
    = Some (ALen unit
              (length (List.filter (λ i, (pre_period.2 <? i)%Z)
                                   (index two_columns)))).
Proof.
  cbv zeta.
  assert (two_columns_init true true = ((two_columns_init true true).1, Ok tt))
    as H by (apply run_ok; vm_compute; reflexivity).
  split; [exact H|].
  exact (forecast_steps_count_later_labels
           sample_sum Z sample_parse unit sample_fit sample_transform
           two_columns (0, 3)%Z (4, 5)%Z true (Some "y") true float32 _ H).
Defined.

Lemma dropped_slice_has_no_missing_cell_witness :
  let run := two_columns_init true true in
  run = (run.1, Ok tt) ∧
  ∃ after,
    run.1 !! "normalized_after_pre_intervention_data"
      = Some (AFrame unit after) ∧
    ∀ r c, r ∈ records after → c ∈ columns after → isna (r !!! c) = false.
Proof.
  cbv zeta.
  assert (two_columns_init true true = ((two_columns_init true true).1, Ok tt))
    as H by (apply run_ok; vm_compute; reflexivity).
  split; [exact H|].
  exact (dropped_slice_has_no_missing_cell
           sample_sum Z sample_parse unit sample_fit sample_transform
           two_columns (0, 3)%Z (4, 5)%Z (Some "y") true float32 _ H).
Defined.

(** With the default [tf.float32] the target value [2^24 + 1] is held as
    [2^24]. *)
Example float32_target_is_rounded :
  (wide_target_init.1 !! "pre_intervention_target_ts")
  = Some (AMasked unit
            [Float.Finite 16777216; Float.Finite (1 # 2); Float.NotANumber;
             Float.Finite 3]
            [false; false; true; false]).
Proof. vm_compute. reflexivity. Qed.

Lemma masked_target_series_witness :
  let run := wide_target_init in
  run = (run.1, Ok tt) ∧
  ∃ pre_period name series mask,
    run.1 !! "pre_intervention_period" = Some (APeriod unit pre_period) ∧
    run.1 !! "target_col" = Some (AName unit name) ∧
    target_column wide_target None = Some name ∧
    run.1 !! "pre_intervention_target_ts" = Some (AMasked unit series mask) ∧
    let cells :=
      (λ ir, ir.2 !!! name)
      <$> List.filter
            (λ ir, (pre_period.1 <=? ir.1)%Z && (ir.1 <=? pre_period.2)%Z)
            (rows wide_target) in
    convert_to_tensor cells float32 = Ok series ∧
    Forall2
      (λ c x,
         match c with
         | Num q => x = Float.round (format_of float32) q
         | NaN => x = Float.NotANumber
         | _ => False
         end) cells series ∧
    length mask = length series ∧
    (∀ i, mask !! i = Some true ↔ series !! i = Some Float.NotANumber) ∧
    (∀ i, mask !! i = Some true ↔ cells !! i = Some NaN).
Proof.
  cbv zeta.
  assert (wide_target_init = (wide_target_init.1, Ok tt))
    as H by (apply run_ok; vm_compute; reflexivity).
  split; [exact H|].
  exact (masked_target_series
           sample_sum Z sample_parse unit sample_fit sample_transform
           wide_target (0, 3)%Z (4, 5)%Z true None float32 _ H).
Defined.

Lemma features_need_second_column_witness :
  let run := two_columns_init true true in
  run = (run.1, Ok tt) ∧
  ∃ features whole,
    run.1 !! "feature_columns" = Some (ANames unit features) ∧
    run.1 !! "normalized_whole_period_features"
      = Some (AFrameOpt unit whole) ∧
    (features = None ↔ (length (columns two_columns) ≤ 1)%nat) ∧
    (whole = None ↔ (length (columns two_columns) ≤ 1)%nat).
Proof.
  cbv zeta.
  assert (two_columns_init true true = ((two_columns_init true true).1, Ok tt))
    as H by (apply run_ok; vm_compute; reflexivity).
  split; [exact H|].
  exact (features_need_second_column
           sample_sum Z sample_parse unit sample_fit sample_transform
           two_columns (0, 3)%Z (4, 5)%Z true (Some "y") true float32 _ H).
Defined.

Lemma whole_period_features_rows_witness :
  let run := two_columns_init true true in
  run = (run.1, Ok tt) ∧
  run.1 !! "feature_columns" = Some (ANames unit (Some ["x"])) ∧
  ∃ npre nafter whole,
    run.1 !! "normalized_pre_intervention_data" = Some (AFrame unit npre) ∧
    run.1 !! "normalized_after_pre_intervention_data"
      = Some (AFrame unit nafter) ∧
    run.1 !! "normalized_whole_period_features"
      = Some (AFrameOpt unit (Some whole)) ∧
    "intercept_" ∈ columns whole ∧
    (∀ c, c ∈ ["x"] → c ∈ columns whole) ∧
    Forall2
      (λ ir w,
         w.1 = ir.1 ∧ w.2 !! "intercept_" = Some (Num 1) ∧
         ∀ c, c ∈ ["x"] → c ≠ "intercept_" → w.2 !! c = Some (ir.2 !!! c))
      (rows npre ++ rows nafter) (rows whole).
Proof.
  cbv zeta.
  assert (two_columns_init true true = ((two_columns_init true true).1, Ok tt))
    as H by (apply run_ok; vm_compute; reflexivity).
  assert ((two_columns_init true true).1 !! "feature_columns"
          = Some (ANames unit (Some ["x"]))) as Hf
    by (vm_compute; reflexivity).
  split; [exact H|]. split; [exact Hf|].
  exact (whole_period_features_rows
           sample_sum Z sample_parse unit sample_fit sample_transform
           two_columns (0, 3)%Z (4, 5)%Z true (Some "y") true float32 _
           ["x"] H Hf).
Defined.

Lemma one_scaler_fitted_on_pre_period_witness :
  let run := two_columns_init false true in
  run = (run.1, Ok tt) ∧
  ∃ pre_data after_data name scaler outcome npre nafter,
    run.1 !! "pre_intervention_data" = Some (AFrame unit pre_data) ∧
    run.1 !! "after_pre_intervention_data" = Some (AFrame unit after_data) ∧
    run.1 !! "target_col" = Some (AName unit name) ∧
    sample_fit pre_data = Ok scaler ∧
    sample_transform scaler pre_data = Ok npre ∧
    sample_transform scaler after_data = Ok nafter ∧
    run.1 !! "normalized_pre_intervention_data" = Some (AFrame unit npre) ∧
    run.1 !! "normalized_after_pre_intervention_data"
      = Some (AFrame unit (if false then dropna nafter else nafter)) ∧
    sample_fit {| columns := [name];
                  rows := (λ ir, (ir.1, project [name] ir.2))
                          <$> rows pre_data |} = Ok outcome ∧
    run.1 !! "outcome_scaler" = Some (AScaler unit (Some outcome)).
Proof.
  cbv zeta.
  assert (two_columns_init false true = ((two_columns_init false true).1, Ok tt))
    as H by (apply run_ok; vm_compute; reflexivity).
  split; [exact H|].
  exact (one_scaler_fitted_on_pre_period
           sample_sum Z sample_parse unit sample_fit sample_transform
           two_columns (0, 3)%Z (4, 5)%Z false (Some "y") float32 _ H).
Defined.

(** The squared deviations of 1e-200, 2e-200 and 3e-200 from their mean
    underflow to 0: the check takes this target for a constant one. *)
Example underflow_target_taken_as_constant :
  std_ddof0_is_zero sample_sum
    [Num (1 / inject_Z (10 ^ 200)); Num (2 / inject_Z (10 ^ 200));
     Num (3 / inject_Z (10 ^ 200))] = Ok true.
Proof. vm_compute. reflexivity. Qed.

Lemma zero_deviation_target_rejected_witness :
  target_column constant_data None = Some "y" ∧
  getitem "y" constant_data = Ok [Num 5; Num 5; Num 5; Num 5] ∧
  std_ddof0_is_zero sample_sum [Num 5; Num 5; Num 5; Num 5] = Ok true ∧
  sample_parse constant_data (0, 1)%Z (2, 3)%Z = Ok ((0, 1)%Z, (2, 3)%Z) ∧
  let run := sample_init constant_data (0, 1)%Z (2, 3)%Z true None true ∅ in
  _validate_data_and_columns sample_sum constant_data None
  = Raise (ValueError "Input response cannot be constant.") ∧
  run = (<["post_intervention_period" := APeriod unit (2, 3)%Z]>
           (<["pre_intervention_period" := APeriod unit (0, 1)%Z]> ∅),
         Raise (ValueError "Input response cannot be constant.")) ∧
  run.1 !! "data" = None ∧
  run.1 !! "pre_intervention_data" = None ∧
  run.1 !! "after_pre_intervention_data" = None ∧
  run.1 !! "normalized_pre_intervention_data" = None ∧
  run.1 !! "normalized_after_pre_intervention_data" = None.
Proof.
  assert (target_column constant_data None = Some "y") as Ht by reflexivity.
  assert (getitem "y" constant_data = Ok [Num 5; Num 5; Num 5; Num 5]) as Hg
    by reflexivity.
  assert (std_ddof0_is_zero sample_sum [Num 5; Num 5; Num 5; Num 5] = Ok true)
    as Hz by (vm_compute; reflexivity).
  assert (sample_parse constant_data (0, 1)%Z (2, 3)%Z
          = Ok ((0, 1)%Z, (2, 3)%Z)) as Hp by reflexivity.
  split; [exact Ht|]. split; [exact Hg|]. split; [exact Hz|].
  split; [exact Hp|].
  exact (zero_deviation_target_rejected
           sample_sum Z sample_parse unit sample_fit sample_transform
           constant_data (0, 1)%Z (2, 3)%Z true None true float32 "y" _ _
           Ht Hg Hz Hp).
Defined.

End DataExtraWitnesses.

(** ** The plot tables and the renderers at sample inputs *)

Module PlotExtraWitnesses.
Import PyFacts PandasFacts TableFacts Plot PlotFacts PlotSpec PlotExtra.
Import Renderers RenderersExtra Samples Fixtures.

Lemma classic_from_ok (d : render_call) (r : result render_call) :
  match r with Ok (draw_classic_plot _ _) => true | _ => false end = true →
  r = Ok (draw_classic_plot (renderer_input (from_ok d r))
                            (renderer_kwargs (from_ok d r))).
Proof. by destruct r as [[]|]. Qed.

Lemma missing_base_column_rejected_witness :
  "lines" ∈ valid_components ∧ "time" ∈ base_columns ∧
  ("time" ∉ columns sample_series) ∧
  ∃ msg,
    _create_plot_component_df (λ _, 2%Q) reverse sample_series "lines"
      (PFloat 0.05) = Raise (KeyError msg).
Proof.
  assert ("lines" ∈ valid_components) as Hv by (apply mem_spec; reflexivity).
  assert ("time" ∈ base_columns) as Hb by (apply mem_spec; reflexivity).
  assert ("time" ∉ columns sample_series) as Hn
    by (apply mem_false; reflexivity).
  split; [exact Hv|]. split; [exact Hb|]. split; [exact Hn|].
  exact (missing_base_column_rejected (λ _, 2%Q) reverse sample_series
           "lines" "time" (PFloat 0.05) Hv Hb Hn).
Defined.

Lemma plot_needs_period_columns_witness :
  "pre_period_start" ∈ period_columns ∧
  ("pre_period_start" ∉ columns sample_data) ∧
  ∃ msg,
    plot (λ _, 2%Q) reverse sample_data ∅
    = (setitem "time" (λ i _, Stamp i) sample_data, Raise (KeyError msg)).
Proof.
  assert ("pre_period_start" ∈ period_columns) as Hc
    by (apply mem_spec; reflexivity).
  assert ("pre_period_start" ∉ columns sample_data) as Hn
    by (apply mem_false; reflexivity).
  split; [exact Hc|]. split; [exact Hn|].
  exact (plot_needs_period_columns (λ _, 2%Q) reverse sample_data ∅
           "pre_period_start" Hc Hn).
Defined.

Lemma column_names_read_back_witness :
  "point_effects" ∈ ["posterior"; "point_effects"; "cumulative_effects"] ∧
  "lower" ∈ ["mean"; "median"; "lower"; "upper"; "std"] ∧
  scale_of (Str ("point_effects" +:+ "_" +:+ "lower"))
  = Str (if String.eqb "point_effects" "posterior"
         then "original" else "point_effects") ∧
  stat_of (Str ("point_effects" +:+ "_" +:+ "lower")) = Str "lower".
Proof.
  assert ("point_effects"
          ∈ ["posterior"; "point_effects"; "cumulative_effects"]) as Hs
    by (apply mem_spec; reflexivity).
  assert ("lower" ∈ ["mean"; "median"; "lower"; "upper"; "std"]) as Ht
    by (apply mem_spec; reflexivity).
  split; [exact Hs|]. split; [exact Ht|].
  exact (column_names_read_back "point_effects" "lower" Hs Ht).
Defined.

Lemma bands_component_stamped_witness :
  let r := _create_plot_component_df (λ _, 2%Q) reverse timed_series "bands"
             (PFloat 0.05) in
  let out := from_ok empty_frame r in
  r = Ok out ∧
  "band_method" ∈ columns out ∧
  Forall (λ r, r !! "band_method" = Some (Str "quantiles")) (records out) ∧
  distinct_keys (key_of pivot_columns <$> records out) ∧
  ∀ alpha',
    _create_plot_component_df (λ _, 2%Q) reverse timed_series "bands" alpha'
    = Ok out.
Proof.
  cbv zeta.
  assert (_create_plot_component_df (λ _, 2%Q) reverse timed_series "bands"
            (PFloat 0.05)
          = Ok (from_ok empty_frame
                  (_create_plot_component_df (λ _, 2%Q) reverse timed_series
                     "bands" (PFloat 0.05)))) as H
    by (apply Witnesses.ok_from_ok; vm_compute; reflexivity).
  split; [exact H|].
  exact (bands_component_stamped (λ _, 2%Q) reverse timed_series _
           (PFloat 0.05) H).
Defined.

Lemma lines_keep_every_cell_witness :
  let r := _create_plot_component_df (λ _, 2%Q) reverse timed_series "lines"
             (PFloat 0.05) in
  let out := from_ok empty_frame r in
  r = Ok out ∧
  length (rows out)
  = (length (value_vars timed_series "lines") * length (rows timed_series))%nat ∧
  ∀ v r, v ∈ value_vars timed_series "lines" → r ∈ records timed_series →
    ∃ o, o ∈ records out ∧
         o !! "value" = Some (r !!! v) ∧
         o !! "time" = Some (r !!! "time") ∧
         o !! "scale" = Some (scale_of (Str v)) ∧
         o !! "stat" = Some (stat_of (Str v)).
Proof.
  cbv zeta.
  assert (_create_plot_component_df (λ _, 2%Q) reverse timed_series "lines"
            (PFloat 0.05)
          = Ok (from_ok empty_frame
                  (_create_plot_component_df (λ _, 2%Q) reverse timed_series
                     "lines" (PFloat 0.05)))) as H
    by (apply Witnesses.ok_from_ok; vm_compute; reflexivity).
  split; [exact H|].
  exact (lines_keep_every_cell (λ _, 2%Q) reverse timed_series _
           (PFloat 0.05) H).
Defined.

Lemma alpha_needs_std_column_witness :
  (∀ c, c ∈ columns quantile_series → contains "std" c = false) ∧
  _create_plot_df (λ _, 2%Q) reverse quantile_series (PFloat 0.05)
  = _create_plot_df (λ _, 2%Q) reverse quantile_series PNone.
Proof.
  assert (∀ c, c ∈ columns quantile_series → contains "std" c = false) as H
    by (apply existsb_false; reflexivity).
  split; [exact H|].
  exact (alpha_needs_std_column (λ _, 2%Q) reverse quantile_series
           (PFloat 0.05) PNone H).
Defined.

Lemma derived_columns_of_plot_df_witness :
  let r := _create_plot_df (λ _, 2%Q) reverse sample_series (PFloat 0.05) in
  let out := from_ok empty_frame r.2 in
  r = (r.1, Ok out) ∧
  Forall
    (λ o,
       o !! "zero" = Some (if eq_lit (o !!! "scale") "original"
                           then NaN else Num 0) ∧
       o !! "scale_pretty"
       = Some (Str (if eq_lit (o !!! "scale") "original" then "Original"
                    else if eq_lit (o !!! "scale") "point_effects"
                         then "Pointwise" else "Cumulative")) ∧
       o !! "stat_pretty"
       = Some (match o !!! "stat" with
               | Str s => if mem (capitalize s) ["Observed"; "Mean"; "Median"]
                          then Str (capitalize s) else NaN
               | _ => NaN
               end))
    (records out).
Proof.
  cbv zeta.
  assert (_create_plot_df (λ _, 2%Q) reverse sample_series (PFloat 0.05)
          = ((_create_plot_df (λ _, 2%Q) reverse sample_series (PFloat 0.05)).1,
             Ok (from_ok empty_frame
                   (_create_plot_df (λ _, 2%Q) reverse sample_series
                      (PFloat 0.05)).2))) as H
    by (apply Witnesses.pair_from_snd, Witnesses.ok_from_ok;
        vm_compute; reflexivity).
  split; [exact H|].
  exact (derived_columns_of_plot_df (λ _, 2%Q) reverse sample_series _ _
           (PFloat 0.05) H).
Defined.

Lemma left_join_keeps_lines_witness :
  let r := _create_plot_df (λ _, 2%Q) reverse sample_series (PFloat 0.05) in
  let out := from_ok empty_frame r.2 in
  r = (r.1, Ok out) ∧
  ∃ lines,
    _create_plot_component_df (λ _, 2%Q) reverse r.1 "lines" (PFloat 0.05)
    = Ok lines ∧
    (∀ l, l ∈ records lines →
       ∃ o, o ∈ records out ∧
            ∀ c, c ∈ merge_keys ∨ c = "stat" → o !! c = Some (l !!! c)) ∧
    (∀ o, o ∈ records out →
       ∃ l, l ∈ records lines ∧
            ∀ c, c ∈ merge_keys ∨ c = "stat" → o !! c = Some (l !!! c)).
Proof.
  cbv zeta.
  assert (_create_plot_df (λ _, 2%Q) reverse sample_series (PFloat 0.05)
          = ((_create_plot_df (λ _, 2%Q) reverse sample_series (PFloat 0.05)).1,
             Ok (from_ok empty_frame
                   (_create_plot_df (λ _, 2%Q) reverse sample_series
                      (PFloat 0.05)).2))) as H
    by (apply Witnesses.pair_from_snd, Witnesses.ok_from_ok;
        vm_compute; reflexivity).
  split; [exact H|].
  exact (left_join_keeps_lines (λ _, 2%Q) reverse sample_series _ _
           (PFloat 0.05) H).
Defined.

Lemma renderer_rows_come_from_frame_witness :
  let r := (plot (λ _, 2%Q) reverse sample_series ∅).2 in
  let call := from_ok (draw_matplotlib_plot empty_frame ∅) r in
  r = Ok call ∧
  ∃ main,
    (_create_plot_df (λ _, 2%Q) reverse sample_series
       (effective_plot_params ∅ !!! "alpha")).2 = Ok main ∧
    (∀ r, r ∈ records (renderer_input call) →
       ∃ m, m ∈ records main ∧
            ∀ c, c ≠ "stat_pretty" → r !! c = m !! c) ∧
    (∀ m, m ∈ records main →
       isna (m !!! "band_method") = true →
       ne_lit (m !!! "stat") "median" = true →
       ∃ r, r ∈ records (renderer_input call) ∧
            ∀ c, c ≠ "stat_pretty" → r !! c = m !! c) ∧
    sublist (index (renderer_input call)) (index main).
Proof.
  cbv zeta.
  assert ((plot (λ _, 2%Q) reverse sample_series ∅).2
          = Ok (from_ok (draw_matplotlib_plot empty_frame ∅)
                        (plot (λ _, 2%Q) reverse sample_series ∅).2)) as H
    by (apply Witnesses.ok_from_ok; vm_compute; reflexivity).
  split; [exact H|].
  exact (renderer_rows_come_from_frame (λ _, 2%Q) reverse sample_series ∅ _ H).
Defined.

Lemma missing_period_columns_named_witness :
  (∀ l : list string, reverse l ≡ₚ l) ∧
  "pre_period_end" ∈ period_columns ∧
  ("pre_period_end" ∉ columns sample_data) ∧
  ∃ msg,
    base_layer_periods reverse sample_data = Raise (KeyError msg) ∧
    ∀ c', c' ∈ period_columns → c' ∉ columns sample_data →
          contains c' msg = true.
Proof.
  assert (∀ l : list string, reverse l ≡ₚ l) as Hperm
    by (intros l; apply reverse_Permutation).
  assert ("pre_period_end" ∈ period_columns) as Hc
    by (apply mem_spec; reflexivity).
  assert ("pre_period_end" ∉ columns sample_data) as Hn
    by (apply mem_false; reflexivity).
  split; [exact Hperm|]. split; [exact Hc|]. split; [exact Hn|].
  exact (missing_period_columns_named reverse sample_data "pre_period_end"
           Hperm Hc Hn).
Defined.

Lemma classic_plot_reads_row_zero_witness :
  let r := (plot (λ _, 2%Q) reverse sample_series classic_kwargs).2 in
  let call := from_ok (draw_matplotlib_plot empty_frame ∅) r in
  let params := effective_plot_params classic_kwargs in
  r = Ok (draw_classic_plot (renderer_input call) (renderer_kwargs call)) ∧
  ∃ main,
    (_create_plot_df (λ _, 2%Q) reverse sample_series
       (params !!! "alpha")).2 = Ok main ∧
    match rows main with
    | (i, m) :: _ =>
        i = 0%Z ∧
        if ne_lit (m !!! "band_method")
                  (if truthy (params !!! "use_std_intervals")
                   then "quantile" else "std")
           && ne_lit (m !!! "stat") "median"
        then base_layer_periods reverse (renderer_input call)
             = Ok ((λ c, (c, at_scalar (m !!! c))) <$> period_columns)
        else base_layer_periods reverse (renderer_input call)
             = Raise (KeyError "0")
    | [] => base_layer_periods reverse (renderer_input call)
            = Raise (KeyError "0")
    end.
Proof.
  cbv zeta.
  assert ((plot (λ _, 2%Q) reverse sample_series classic_kwargs).2
          = Ok (draw_classic_plot
                  (renderer_input
                     (from_ok (draw_matplotlib_plot empty_frame ∅)
                        (plot (λ _, 2%Q) reverse sample_series
                           classic_kwargs).2))
                  (renderer_kwargs
                     (from_ok (draw_matplotlib_plot empty_frame ∅)
                        (plot (λ _, 2%Q) reverse sample_series
                           classic_kwargs).2)))) as H
    by (apply classic_from_ok; vm_compute; reflexivity).
  split; [exact H|].
  exact (classic_plot_reads_row_zero (λ _, 2%Q) reverse sample_series
           classic_kwargs _ _ H).
Defined.

(** The classic plot of a table whose first column is the median: the
    rows are handed to the renderer, the row labelled 0 is not among
    them, and [_create_base_layers] raises. *)
Example classic_plot_without_row_zero :
  let call := (plot (λ _, 2%Q) reverse median_first_series classic_kwargs).2 in
  is_ok call = true ∧
  negb (bool_decide (renderer_rows call = [])) = true ∧
  is_ok (base_layer_periods reverse
           (renderer_input
              (from_ok (draw_matplotlib_plot empty_frame ∅) call))) = false.
Proof. cbv zeta. split_and!; vm_compute; reflexivity. Qed.

(** The same table with the default backend is drawn. *)
Example matplotlib_plot_of_median_first :
  is_ok (plot (λ _, 2%Q) reverse median_first_series ∅).2 = true.
Proof. vm_compute. reflexivity. Qed.

End PlotExtraWitnesses.
